(** * A console banking ledger: record codec, account operations,
    registration and the data files

    Shallow embedding of [banking_now_app.py].  Python values are modelled
    as follows.

    - [str] is [string], a text of characters below 128; the operations
      of [str] the program uses ([strip], [split], [join], [in]) are
      written out below.
    - [float] is the binary64 type [float] of the kernel, so that every
      [+=], [-=], [>] and [==] of the program is the IEEE operation Python
      performs, special values included.
    - a [dict] keyed by strings is an association list in insertion order
      (the order [dict.items()] iterates in), with unique keys.
    - the console is a tape of answers handed to each operation, and the
      clock is the timestamp handed to each [get_timestamp()] call.
    - a data file is the text it holds, written and read in text mode. *)

From Stdlib Require Import Floats ZArith NArith List String Ascii Bool Lia.
From Stdlib Require Import DecimalString DecimalN Uint63.
Import ListNotations.

(* 0.015 is read as the nearest binary64 value, as Python reads it. *)
Set Warnings "-inexact-float".
Open Scope string_scope.

(** ** Python strings *)

Module PyStr.

(** [c.isspace()] on the characters below 128: tab to carriage return,
    the four separators 28..31 and the blank. *)
Definition is_space (c : ascii) : bool :=
  let n := nat_of_ascii c in
  ((9 <=? n) && (n <=? 13) || (28 <=? n) && (n <=? 32))%nat.

Fixpoint lstrip (s : string) : string :=
  match s with
  | String c r => if is_space c then lstrip r else s
  | EmptyString => EmptyString
  end.

(** [rstrip]: a character is kept when something after it is kept. *)
Fixpoint rstrip (s : string) : string :=
  match s with
  | String c r =>
      match rstrip r with
      | EmptyString => if is_space c then EmptyString else String c EmptyString
      | r' => String c r'
      end
  | EmptyString => EmptyString
  end.

(** [s.strip()] *)
Definition strip (s : string) : string := rstrip (lstrip s).

(** [s.startswith(p)] *)
Fixpoint startswith (p s : string) : bool :=
  match p, s with
  | EmptyString, _ => true
  | String a p', String b s' => Ascii.eqb a b && startswith p' s'
  | String _ _, EmptyString => false
  end.

(** [s.endswith(p)]: [p] is [s] or ends what follows its first
    character. *)
Fixpoint endswith (p s : string) : bool :=
  String.eqb p s ||
  match s with
  | String _ r => endswith p r
  | EmptyString => false
  end.

(** [p in s] for strings. *)
Fixpoint contains (p s : string) : bool :=
  startswith p s ||
  match s with
  | String _ r => contains p r
  | EmptyString => false
  end.

(** [c in s] for one character. *)
Fixpoint has_char (c : ascii) (s : string) : bool :=
  match s with
  | String a r => Ascii.eqb a c || has_char c r
  | EmptyString => false
  end.

(** [s.split(sep)] for a non-empty [sep]: the leftmost occurrence of
    [sep] ends the current field, and the scan resumes after it.  [skip]
    counts the characters of a separator still to pass over and [cur]
    holds the field read so far. *)
Fixpoint split_from (sep : string) (skip : nat) (cur s : string)
  : list string :=
  match s with
  | EmptyString => [cur]
  | String c r =>
      match skip with
      | S k => split_from sep k cur r
      | O =>
          if startswith sep s
          then cur :: split_from sep (String.length sep - 1) EmptyString r
          else split_from sep O (cur ++ String c EmptyString) r
      end
  end.

Definition split (sep s : string) : list string :=
  split_from sep O EmptyString s.

(** [sep.join(l)] *)
Fixpoint join (sep : string) (l : list string) : string :=
  match l with
  | [] => EmptyString
  | [x] => x
  | x :: r => x ++ sep ++ join sep r
  end.

(** [str(n)] for a non-negative [int]. *)
Definition of_N (n : N) : string := NilEmpty.string_of_uint (N.to_uint n).

(** [not s]: the empty string is falsy. *)
Definition is_empty (s : string) : bool :=
  match s with EmptyString => true | _ => false end.

End PyStr.

(** ** Python dictionaries keyed by strings *)

Module Dict.
Section Ops.
Variable V : Type.

Definition t := list (string * V).

(** [d.get(k)] *)
Fixpoint get (k : string) (d : t) : option V :=
  match d with
  | [] => None
  | (k', v) :: r => if String.eqb k k' then Some v else get k r
  end.

(** [k in d] *)
Definition mem (k : string) (d : t) : bool :=
  match get k d with Some _ => true | None => false end.

(** [d[k] = v]: an existing key keeps its place, a new one goes last. *)
Fixpoint set (k : string) (v : V) (d : t) : t :=
  match d with
  | [] => [(k, v)]
  | (k', v') :: r =>
      if String.eqb k k' then (k, v) :: r else (k', v') :: set k v r
  end.

Definition keys (d : t) : list string := map fst d.
End Ops.

Arguments get {V} k d.
Arguments mem {V} k d.
Arguments set {V} k v d.
Arguments keys {V} d.
End Dict.


(** ** Configuration *)

Definition DATA_DELIMITER : string := "|~|".
Definition LIST_DELIMITER : string := ";".
Definition INTEREST_RATE : float := 0.015%float.
Definition MIN_INITIAL_DEPOSIT : float := 0%float.

(** ** Data stores *)

(** A value of the keyword bag [**details] of a transaction. *)
Inductive detail : Type :=
| DStr (s : string)
| DNum (x : float).

(** The dictionary [record_transaction] builds: the keys ["timestamp"],
    ["type"] and ["amount"], then the keyword arguments. *)
Record transaction : Type := {
  tx_timestamp : string;
  tx_type : string;
  tx_amount : float;
  tx_details : list (string * detail)
}.

(** A value of [accounts]. *)
Record account : Type := {
  owner_nic : string;
  balance : float;
  transactions : list transaction;
  created_at : string
}.

(** A value of [users]; the key ["owned_accounts"] is present for
    customers only. *)
Record user : Type := {
  name : string;
  address : string;
  dob : string;
  password_hash : string;
  role : string;
  owned_accounts : option (list string)
}.

(** The three globals of the module. *)
Record bank : Type := {
  users : Dict.t user;
  accounts : Dict.t account;
  next_account_number : N
}.

Definition with_accounts (st : bank) (accts : Dict.t account) : bank :=
  {| users := users st; accounts := accts;
     next_account_number := next_account_number st |}.

Definition with_balance (a : account) (b : float) : account :=
  {| owner_nic := owner_nic a; balance := b;
     transactions := transactions a; created_at := created_at a |}.

(** [account["transactions"].append(tx)] *)
Definition add_transaction (tx : transaction) (a : account) : account :=
  {| owner_nic := owner_nic a; balance := balance a;
     transactions := (transactions a ++ [tx])%list; created_at := created_at a |}.

(** [user_data.get("owned_accounts", [])] *)
Definition owned_or_empty (u : user) : list string :=
  match owned_accounts u with Some l => l | None => [] end.

(** ** Utility functions *)

(** [int] and [str] refuse a number of more than 4300 digits. *)
Definition MAX_STR_DIGITS : nat := 4300.

(** [str(n)] for a non-negative [int]; [None] is the [ValueError] raised
    for a number of more than [MAX_STR_DIGITS] digits. *)
Definition str_of_int (n : N) : option string :=
  if (MAX_STR_DIGITS <? String.length (PyStr.of_N n))%nat then None
  else Some (PyStr.of_N n).

(** How the [while] loop of [generate_account_number] ends: at a counter
    [n] whose text is not a key of [accounts], or with the [ValueError]
    of [str] at the counter [n]. *)
Inductive loop_end : Type :=
| NotUsed (n : N) (acc_num : string)
| StrRaised (n : N).

(** The loop [while str(next_account_number) in accounts]: [fuel] bounds
    the number of tests; [None] when it is used up. *)
Fixpoint skip_used (fuel : nat) (accts : Dict.t account) (n : N)
  : option loop_end :=
  match fuel with
  | O => None
  | S fuel' =>
      match str_of_int n with
      | None => Some (StrRaised n)
      | Some acc_num =>
          if Dict.mem acc_num accts
          then skip_used fuel' accts (N.succ n)
          else Some (NotUsed n acc_num)
      end
  end.

(** Every number from [n] up to [m], [m] left out, is a key: the numbers
    the loop has passed over. *)
Definition all_used (accts : Dict.t account) (n m : N) : Prop :=
  forall k, (n <= k < m)%N -> Dict.mem (PyStr.of_N k) accts = true.

(** What [generate_account_number] does: it returns a number and leaves
    the counter after it, or it raises the [ValueError] of [str] and
    leaves the counter where the loop had brought it. *)
Inductive generated : Type :=
| Generated (acc_num : string) (st : bank)
| GenerateRaised (st : bank).

(** More tests than there are accounts are never needed (see
    [generate_account_number_fresh]); [None] when they are used up. *)
Definition generate_account_number (st : bank) : option generated :=
  match skip_used (S (List.length (accounts st))) (accounts st)
                  (next_account_number st) with
  | Some (NotUsed n acc_num) =>
      Some (Generated acc_num
              {| users := users st; accounts := accounts st;
                 next_account_number := N.succ n |})
  | Some (StrRaised n) =>
      Some (GenerateRaised
              {| users := users st; accounts := accounts st;
                 next_account_number := n |})
  | None => None
  end.

Definition new_transaction (ts trans_type : string) (amount : float)
    (details : list (string * detail)) : transaction :=
  {| tx_timestamp := ts; tx_type := trans_type; tx_amount := amount;
     tx_details := details |}.

(** [record_transaction(acc_num, trans_type, amount, **details)], where
    [ts] is what [get_timestamp()] returns. *)
Definition record_transaction (ts acc_num trans_type : string)
    (amount : float) (details : list (string * detail))
    (accts : Dict.t account) : Dict.t account :=
  match Dict.get acc_num accts with
  | None => accts
  | Some a =>
      Dict.set acc_num
        (add_transaction (new_transaction ts trans_type amount details) a)
        accts
  end.

(** ** Data persistence: the record codec *)

(** [user_data.get("owned_accounts", []) if role == "customer" else []],
    then the seven fields joined. *)
Definition _serialize_user (nic : string) (user_data : user) : string :=
  let owned_accounts_list :=
    if String.eqb (role user_data) "customer"
    then owned_or_empty user_data else [] in
  let owned_accounts_str := PyStr.join LIST_DELIMITER owned_accounts_list in
  PyStr.join DATA_DELIMITER
    [nic; name user_data; address user_data; dob user_data;
     password_hash user_data; role user_data; owned_accounts_str].

(** [[acc for acc in part.split(LIST_DELIMITER) if acc]] *)
Definition owned_of_field (owned_accounts_part : string) : list string :=
  filter (fun acc => negb (PyStr.is_empty acc))
         (PyStr.split LIST_DELIMITER owned_accounts_part).

(** [None] stands for the pair [(None, None)]. *)
Definition _deserialize_user (line : string) : option (string * user) :=
  match PyStr.split DATA_DELIMITER (PyStr.strip line) with
  | [nic; p1; p2; p3; p4; role_; owned_accounts_part] =>
      let user_data (owned : option (list string)) :=
        {| name := p1; address := p2; dob := p3; password_hash := p4;
           role := role_; owned_accounts := owned |} in
      if String.eqb role_ "customer"
      then Some (nic, user_data (Some (owned_of_field owned_accounts_part)))
      else if String.eqb role_ "admin"
      then Some (nic, user_data None)
      else None
  | _ => None
  end.

(** What [json.loads] makes of a text: the exception [JSONDecodeError],
    a value that is not a list, a list, or another exception (the
    [ValueError] of an integer of more than 4300 digits, the
    [RecursionError] of brackets nested too deep). *)
Inductive json_result : Type :=
| JsonDecodeError
| JsonNotList
| JsonList (l : list transaction)
| JsonRaised.

(** What [_deserialize_account] does with a line: it returns a pair, it
    returns [(None, None)], or the exception of [json.loads] that its
    [except json.JSONDecodeError] does not catch goes through it. *)
Inductive account_line : Type :=
| AccountRecord (acc_num : string) (acc_data : account)
| AccountMalformed
| AccountRaised.

Section AccountCodec.

(** The conversions of the Python library the account codec calls:
    [str] of a float, [float] of a string ([None] for [ValueError]),
    [json.dumps] and [json.loads]. *)
Variable float_str : float -> string.
Variable float_of_str : string -> option float.
Variable json_dumps : list transaction -> string.
Variable json_loads : string -> json_result.

Definition _serialize_account (acc_num : string) (acc_data : account)
  : string :=
  let transactions_json_str := json_dumps (transactions acc_data) in
  PyStr.join DATA_DELIMITER
    [acc_num; owner_nic acc_data; float_str (balance acc_data);
     created_at acc_data; transactions_json_str].

Definition _deserialize_account (line : string) : account_line :=
  match PyStr.split DATA_DELIMITER (PyStr.strip line) with
  | [acc_num; p1; balance_str; p3; transactions_json_str] =>
      let balance_ :=
        match float_of_str balance_str with
        | Some x => x
        | None => 0%float
        end in
      let acc_data (transactions_list : list transaction) :=
        {| owner_nic := p1; balance := balance_;
           transactions := transactions_list; created_at := p3 |} in
      match json_loads transactions_json_str with
      | JsonList l => AccountRecord acc_num (acc_data l)
      | JsonNotList => AccountRecord acc_num (acc_data [])
      | JsonDecodeError => AccountRecord acc_num (acc_data [])
      | JsonRaised => AccountRaised
      end
  | _ => AccountMalformed
  end.

End AccountCodec.

(** ** The console *)

(** What [float(input().strip())] makes of one line. *)
Inductive answer : Type :=
| Blank
| Number (x : float)
| Garbage.

(** How an operation ends: at its [save_data()], at one of its early
    [return]s, or with an uncaught exception (the input is exhausted,
    [users.get] gave [None] for the caller's NIC, or [str] refused the
    counter in [generate_account_number]). *)
Inductive outcome : Type :=
| Completed
| InvalidProfile
| NoAccountSelected
| AccountDataNotFound
| NoFundsToWithdraw
| InsufficientFunds
| EmptyRecipient
| SameAccount
| RecipientNotFound
| Raised.

(** The loop [while True: amount = float(...); if amount > 0: break] of
    the deposit, withdrawal and transfer prompts. *)
Fixpoint prompt_positive (tape : list answer) : option float :=
  match tape with
  | [] => None
  | Number amount :: rest =>
      if (0 <? amount)%float then Some amount else prompt_positive rest
  | _ :: rest => prompt_positive rest
  end.

(** The loop of the initial-deposit prompt: an empty line means [0.0], a
    number below [MIN_INITIAL_DEPOSIT] is asked again. *)
Fixpoint prompt_initial_deposit (tape : list answer) : option float :=
  match tape with
  | [] => None
  | Blank :: rest =>
      if (MIN_INITIAL_DEPOSIT =? 0)%float then Some 0%float
      else prompt_initial_deposit rest
  | Number initial_deposit :: rest =>
      if (initial_deposit <? MIN_INITIAL_DEPOSIT)%float
      then prompt_initial_deposit rest
      else Some initial_deposit
  | Garbage :: rest => prompt_initial_deposit rest
  end.

(** The loop of the account menu: the first answer that is an [int]
    between 1 and [len(owned_accounts)] selects. *)
Fixpoint prompt_choice (owned : list string) (tape : list (option Z))
  : option string :=
  match tape with
  | [] => None
  | Some choice :: rest =>
      if ((1 <=? choice) && (choice <=? Z.of_nat (List.length owned)))%Z
      then nth_error owned (Z.to_nat (choice - 1))
      else prompt_choice owned rest
  | None :: rest => prompt_choice owned rest
  end.

Inductive selection : Type :=
| Selected (acc_num : string)
| NothingOwned
| SelectionRaised.

Definition choose_customer_account (st : bank) (customer_nic : string)
    (choices : list (option Z)) : selection :=
  match Dict.get customer_nic (users st) with
  | None => SelectionRaised
  | Some customer_data =>
      match owned_or_empty customer_data with
      | [] => NothingOwned
      | [only] => Selected only
      | owned =>
          match prompt_choice owned choices with
          | Some acc_num => Selected acc_num
          | None => SelectionRaised
          end
      end
  end.

(** ** Customer banking operations *)

Definition create_customer_bank_account (customer_nic : string)
    (deposits : list answer) (ts_created ts_tx : string) (st : bank)
  : bank * outcome :=
  match Dict.get customer_nic (users st) with
  | None => (st, InvalidProfile)
  | Some customer_data =>
      if negb (String.eqb (role customer_data) "customer")
      then (st, InvalidProfile)
      else
        match prompt_initial_deposit deposits with
        | None => (st, Raised)
        | Some initial_deposit =>
            match generate_account_number st with
            | None => (st, Raised)
            | Some (GenerateRaised st1) => (st1, Raised)
            | Some (Generated acc_num st1) =>
                let accts1 :=
                  Dict.set acc_num
                    {| owner_nic := customer_nic;
                       balance := initial_deposit;
                       transactions := [];
                       created_at := ts_created |}
                    (accounts st1) in
                let accts2 :=
                  if (0 <? initial_deposit)%float
                  then record_transaction ts_tx acc_num "Initial Deposit"
                         initial_deposit [] accts1
                  else accts1 in
                let customer_data' :=
                  {| name := name customer_data;
                     address := address customer_data;
                     dob := dob customer_data;
                     password_hash := password_hash customer_data;
                     role := role customer_data;
                     owned_accounts :=
                       Some (owned_or_empty customer_data ++ [acc_num])%list |} in
                ({| users := Dict.set customer_nic customer_data' (users st1);
                    accounts := accts2;
                    next_account_number := next_account_number st1 |},
                 Completed)
            end
        end
  end.

Definition make_deposit (customer_nic : string) (choices : list (option Z))
    (amounts : list answer) (ts : string) (st : bank) : bank * outcome :=
  match choose_customer_account st customer_nic choices with
  | SelectionRaised => (st, Raised)
  | NothingOwned => (st, NoAccountSelected)
  | Selected acc_num =>
      if PyStr.is_empty acc_num then (st, NoAccountSelected)
      else
        match Dict.get acc_num (accounts st) with
        | None => (st, AccountDataNotFound)
        | Some account_ =>
            match prompt_positive amounts with
            | None => (st, Raised)
            | Some amount =>
                let accts1 :=
                  Dict.set acc_num
                    (with_balance account_ (balance account_ + amount))
                    (accounts st) in
                (with_accounts st
                   (record_transaction ts acc_num "Deposit" amount []
                      accts1),
                 Completed)
            end
        end
  end.

Definition make_withdrawal (customer_nic : string)
    (choices : list (option Z)) (amounts : list answer) (ts : string)
    (st : bank) : bank * outcome :=
  match choose_customer_account st customer_nic choices with
  | SelectionRaised => (st, Raised)
  | NothingOwned => (st, NoAccountSelected)
  | Selected acc_num =>
      if PyStr.is_empty acc_num then (st, NoAccountSelected)
      else
        match Dict.get acc_num (accounts st) with
        | None => (st, AccountDataNotFound)
        | Some account_ =>
            if (balance account_ =? 0)%float then (st, NoFundsToWithdraw)
            else
              match prompt_positive amounts with
              | None => (st, Raised)
              | Some amount =>
                  if (balance account_ <? amount)%float
                  then (st, InsufficientFunds)
                  else
                    let accts1 :=
                      Dict.set acc_num
                        (with_balance account_ (balance account_ - amount))
                        (accounts st) in
                    (with_accounts st
                       (record_transaction ts acc_num "Withdrawal" amount []
                          accts1),
                     Completed)
              end
        end
  end.

(** [recipient] is the line typed at the recipient prompt. *)
Definition transfer_funds (customer_nic : string)
    (choices : list (option Z)) (recipient : string)
    (amounts : list answer) (ts_sent ts_received : string) (st : bank)
  : bank * outcome :=
  match choose_customer_account st customer_nic choices with
  | SelectionRaised => (st, Raised)
  | NothingOwned => (st, NoAccountSelected)
  | Selected source_acc_num =>
      if PyStr.is_empty source_acc_num then (st, NoAccountSelected)
      else
        match Dict.get source_acc_num (accounts st) with
        | None => (st, AccountDataNotFound)
        | Some source_account =>
            let dest_acc_num := PyStr.strip recipient in
            if PyStr.is_empty dest_acc_num then (st, EmptyRecipient)
            else if String.eqb source_acc_num dest_acc_num
            then (st, SameAccount)
            else
              match Dict.get dest_acc_num (accounts st) with
              | None => (st, RecipientNotFound)
              | Some dest_account =>
                  match prompt_positive amounts with
                  | None => (st, Raised)
                  | Some amount =>
                      if (balance source_account <? amount)%float
                      then (st, InsufficientFunds)
                      else
                        let accts1 :=
                          Dict.set source_acc_num
                            (with_balance source_account
                               (balance source_account - amount))
                            (accounts st) in
                        let accts2 :=
                          Dict.set dest_acc_num
                            (with_balance dest_account
                               (balance dest_account + amount))
                            accts1 in
                        let accts3 :=
                          record_transaction ts_sent source_acc_num
                            "Transfer Sent" amount
                            [("to_account", DStr dest_acc_num)] accts2 in
                        let accts4 :=
                          record_transaction ts_received dest_acc_num
                            "Transfer Received" amount
                            [("from_account", DStr source_acc_num)] accts3 in
                        (with_accounts st accts4, Completed)
                  end
              end
        end
  end.

(** ** Admin operations *)

(** What [apply_interest_to_all_accounts] reports: one of its three
    closing messages; the last prints the two accumulators. *)
Inductive interest_report : Type :=
| NoAccountsInSystem
| NoInterestApplied
| InterestApplied (applied_count : nat) (total_interest_applied : float).

Section Interest.

(** [round(x, 2)] of the Python library. *)
Variable round2 : float -> float.

(** The interest one account earns at [rate], when it earns any. *)
Definition interest_earned (rate : float) (account_data : account)
  : option float :=
  if (0 <? balance account_data)%float
  then
    let interest := round2 (balance account_data * rate) in
    if (0 <? interest)%float then Some interest else None
  else None.

(** The account once [interest] is credited at time [ts]. *)
Definition credit_interest (rate : float) (ts : string) (interest : float)
    (account_data : account) : account :=
  add_transaction
    (new_transaction ts "Interest Applied" interest [("rate", DNum rate)])
    (with_balance account_data (balance account_data + interest)).

(** The loop [for acc_num, account_data in accounts.items()]: each value
    is updated in place, [accounts[acc_num]] in [record_transaction] being
    [account_data] itself.  [clock k] is the timestamp of the call of
    [get_timestamp()] made when [k] accounts have been credited. *)
Fixpoint accrue (rate : float) (clock : nat -> string)
    (items : Dict.t account) (applied_count : nat)
    (total_interest_applied : float) : Dict.t account * (nat * float) :=
  match items with
  | [] => ([], (applied_count, total_interest_applied))
  | (acc_num, account_data) :: rest =>
      match interest_earned rate account_data with
      | Some interest =>
          let (rest', totals) :=
            accrue rate clock rest (S applied_count)
              (total_interest_applied + interest) in
          ((acc_num,
            credit_interest rate (clock applied_count) interest account_data)
             :: rest', totals)
      | None =>
          let (rest', totals) :=
            accrue rate clock rest applied_count total_interest_applied in
          ((acc_num, account_data) :: rest', totals)
      end
  end.

Definition apply_interest_to_all_accounts (clock : nat -> string)
    (st : bank) : bank * interest_report :=
  match accounts st with
  | [] => (st, NoAccountsInSystem)
  | _ =>
      let '(accts, (applied_count, total_interest_applied)) :=
        accrue INTEREST_RATE clock (accounts st) 0 0%float in
      (with_accounts st accts,
       if (0 <? applied_count)%nat
       then InterestApplied applied_count total_interest_applied
       else NoInterestApplied)
  end.

End Interest.

(** ** The effect of one ledger entry on an account

    What each operation is expected to leave in the account it touches:
    the new balance and one more transaction. *)

Definition entry (ts trans_type : string) (amount new_balance : float)
    (details : list (string * detail)) (a : account) : account :=
  {| owner_nic := owner_nic a;
     balance := new_balance;
     transactions :=
       (transactions a ++
        [{| tx_timestamp := ts; tx_type := trans_type;
            tx_amount := amount; tx_details := details |}])%list;
     created_at := created_at a |}.

Definition deposited (ts : string) (amount : float) (a : account) : account :=
  entry ts "Deposit" amount (balance a + amount) [] a.

Definition withdrawn (ts : string) (amount : float) (a : account) : account :=
  entry ts "Withdrawal" amount (balance a - amount) [] a.

Definition transfer_sent (ts dest_acc_num : string) (amount : float)
    (a : account) : account :=
  entry ts "Transfer Sent" amount (balance a - amount)
    [("to_account", DStr dest_acc_num)] a.

Definition transfer_received (ts source_acc_num : string) (amount : float)
    (a : account) : account :=
  entry ts "Transfer Received" amount (balance a + amount)
    [("from_account", DStr source_acc_num)] a.


(** The interests credited by [accrue], in the order of the table. *)
Fixpoint interests (round2 : float -> float) (rate : float)
    (items : Dict.t account) : list float :=
  match items with
  | [] => []
  | (_, account_data) :: rest =>
      match interest_earned round2 rate account_data with
      | Some interest => interest :: interests round2 rate rest
      | None => interests round2 rate rest
      end
  end.

(** ** The ledger of an account *)

(** The amount of a transaction with its sign: what leaves the account
    counts as negative. *)
Definition signed_amount (tx : transaction) : float :=
  if String.eqb (tx_type tx) "Withdrawal"
     || String.eqb (tx_type tx) "Transfer Sent"
  then (- tx_amount tx)%float
  else tx_amount tx.

(** The initial balance plus the signed amounts, added in the order the
    transactions were recorded. *)
Definition ledger_balance (initial : float) (txs : list transaction)
  : float :=
  fold_left (fun b tx => (b + signed_amount tx)%float) txs initial.

(** Two floats are the same number: the same float, or two floats that
    compare equal (the two zeros). *)
Definition same_number (x y : float) : Prop :=
  x = y \/ (x =? y)%float = true.

(** The balance is what the transactions recorded since the account was
    created add up to. *)
Definition ledger_consistent (a : account) : Prop :=
  same_number (balance a) (ledger_balance 0 (transactions a)).

Definition all_consistent (st : bank) : Prop :=
  forall k a, Dict.get k (accounts st) = Some a -> ledger_consistent a.

(** [x >= 0] for every balance of the table. *)
Definition all_nonnegative (st : bank) : bool :=
  forallb (fun item => (0 <=? balance (snd item))%float) (accounts st).

(** One call of a ledger operation, with what the console and the clock
    hand to it. *)
Inductive operation : Type :=
| Create (customer_nic : string) (deposits : list answer)
         (ts_created ts_tx : string)
| Deposit (customer_nic : string) (choices : list (option Z))
          (amounts : list answer) (ts : string)
| Withdraw (customer_nic : string) (choices : list (option Z))
           (amounts : list answer) (ts : string)
| Transfer (customer_nic : string) (choices : list (option Z))
           (recipient : string) (amounts : list answer)
           (ts_sent ts_received : string)
| Interest (clock : nat -> string).

(** The bank after an operation. *)
Definition run (round2 : float -> float) (st : bank) (op : operation)
  : bank :=
  match op with
  | Create nic deposits ts_created ts_tx =>
      fst (create_customer_bank_account nic deposits ts_created ts_tx st)
  | Deposit nic choices amounts ts =>
      fst (make_deposit nic choices amounts ts st)
  | Withdraw nic choices amounts ts =>
      fst (make_withdrawal nic choices amounts ts st)
  | Transfer nic choices recipient amounts ts_sent ts_received =>
      fst (transfer_funds nic choices recipient amounts ts_sent ts_received
             st)
  | Interest clock => fst (apply_interest_to_all_accounts round2 clock st)
  end.

(** Whether an operation ends with its success message: the account
    created, the amount moved, or interest credited to an account. *)
Definition succeeded (round2 : float -> float) (st : bank) (op : operation)
  : bool :=
  let completed (o : outcome) : bool :=
    match o with Completed => true | _ => false end in
  match op with
  | Create nic deposits ts_created ts_tx =>
      completed
        (snd (create_customer_bank_account nic deposits ts_created ts_tx st))
  | Deposit nic choices amounts ts =>
      completed (snd (make_deposit nic choices amounts ts st))
  | Withdraw nic choices amounts ts =>
      completed (snd (make_withdrawal nic choices amounts ts st))
  | Transfer nic choices recipient amounts ts_sent ts_received =>
      completed
        (snd (transfer_funds nic choices recipient amounts ts_sent
                ts_received st))
  | Interest clock =>
      match snd (apply_interest_to_all_accounts round2 clock st) with
      | InterestApplied _ _ => true
      | _ => false
      end
  end.

(** The initial deposit of an operation, when it is a creation and the
    prompt yields one, is at least zero. *)
Definition deposit_is_a_number (op : operation) : Prop :=
  match op with
  | Create _ deposits _ _ =>
      forall d, prompt_initial_deposit deposits = Some d ->
                (0 <=? d)%float = true
  | _ => True
  end.

(** The amounts an operation reads leave balances at or above zero: an
    initial deposit is at least zero, and an amount withdrawn or
    transferred is finite. *)
Definition amounts_in_range (op : operation) : Prop :=
  match op with
  | Create _ deposits _ _ =>
      forall d, prompt_initial_deposit deposits = Some d ->
                (0 <=? d)%float = true
  | Withdraw _ _ amounts _ | Transfer _ _ _ amounts _ _ =>
      forall amount, prompt_positive amounts = Some amount ->
                     (amount <? infinity)%float = true
  | _ => True
  end.

(** A float that is at least zero: a zero, a positive number or [inf]. *)
Definition SFnonneg (f : spec_float) : Prop :=
  SFleb (S754_zero false) f = true.

(** ** What the operations keep *)

(** [a'] is [a] with the same owner and creation time and with its
    transactions followed by others. *)
Definition extends (a a' : account) : Prop :=
  owner_nic a' = owner_nic a /\
  created_at a' = created_at a /\
  exists more, transactions a' = (transactions a ++ more)%list.

(** Every account of [st] is still in [st'], extended, the keys of [st]
    come first and in the same order in [st'], and no user was removed. *)
Definition history_kept (st st' : bank) : Prop :=
  (forall k a, Dict.get k (accounts st) = Some a ->
               exists a', Dict.get k (accounts st') = Some a' /\ extends a a')
  /\ (exists new_keys,
        Dict.keys (accounts st') = (Dict.keys (accounts st) ++ new_keys)%list)
  /\ Dict.keys (users st') = Dict.keys (users st)
  /\ (next_account_number st <= next_account_number st')%N.

(** What a deposit, a withdrawal, a transfer and an interest accrual
    have in common: the users, the counter and the keys of the accounts
    are untouched, and every account is extended. *)
Definition ledger_step (st st' : bank) : Prop :=
  users st' = users st /\
  next_account_number st' = next_account_number st /\
  Dict.keys (accounts st') = Dict.keys (accounts st) /\
  forall k a, Dict.get k (accounts st) = Some a ->
              exists a', Dict.get k (accounts st') = Some a' /\ extends a a'.

(** Every account number a user owns is a key of the accounts table. *)
Definition owned_accounts_are_keys (st : bank) : Prop :=
  forall nic u acc_num,
    Dict.get nic (users st) = Some u ->
    In acc_num (owned_or_empty u) ->
    Dict.mem acc_num (accounts st) = true.

(** Every account number a user owns is a key of the accounts table, of
    an account that names this user as its owner. *)
Definition owned_accounts_exist (st : bank) : Prop :=
  forall nic u acc_num,
    Dict.get nic (users st) = Some u ->
    In acc_num (owned_or_empty u) ->
    exists a, Dict.get acc_num (accounts st) = Some a /\ owner_nic a = nic.

(** Every account is in the list of the user it names as its owner. *)
Definition accounts_are_owned (st : bank) : Prop :=
  forall acc_num a,
    Dict.get acc_num (accounts st) = Some a ->
    exists u, Dict.get (owner_nic a) (users st) = Some u /\
              In acc_num (owned_or_empty u).

(** No user owns an account number twice. *)
Definition owned_once (st : bank) : Prop :=
  forall nic u, Dict.get nic (users st) = Some u -> NoDup (owned_or_empty u).

Definition ownership_consistent (st : bank) : Prop :=
  owned_accounts_exist st /\ accounts_are_owned st /\ owned_once st.

(** The account [create_customer_bank_account] stores. *)
Definition opened (customer_nic ts_created ts_tx : string)
    (initial_deposit : float) : account :=
  {| owner_nic := customer_nic;
     balance := initial_deposit;
     transactions :=
       if (0 <? initial_deposit)%float
       then [{| tx_timestamp := ts_tx; tx_type := "Initial Deposit";
                tx_amount := initial_deposit; tx_details := [] |}]
       else [];
     created_at := ts_created |}.

(** The user once [acc_num] is added to the accounts owned. *)
Definition with_owned (u : user) (acc_num : string) : user :=
  {| name := name u; address := address u; dob := dob u;
     password_hash := password_hash u; role := role u;
     owned_accounts := Some (owned_or_empty u ++ [acc_num])%list |}.

(** ** Well-formed records

    What registration and account creation put into the tables. *)

Definition is_digit (c : ascii) : bool :=
  let n := nat_of_ascii c in ((48 <=? n) && (n <=? 57))%nat.

Definition is_hex_digit (c : ascii) : bool :=
  let n := nat_of_ascii c in
  (is_digit c || (97 <=? n) && (n <=? 102))%nat.

Fixpoint all_chars (p : ascii -> bool) (s : string) : bool :=
  match s with
  | String c r => p c && all_chars p r
  | EmptyString => true
  end.

(** [is_valid_dob]: the pattern [^\d{4}-\d{2}-\d{2}$] on a line of input. *)
Definition is_valid_dob (date_str : string) : bool :=
  match date_str with
  | String y1 (String y2 (String y3 (String y4 (String h1
      (String m1 (String m2 (String h2 (String d1 (String d2
         EmptyString))))))))) =>
      is_digit y1 && is_digit y2 && is_digit y3 && is_digit y4
      && Ascii.eqb h1 "-" && is_digit m1 && is_digit m2
      && Ascii.eqb h2 "-" && is_digit d1 && is_digit d2
  | _ => false
  end.

(** The test [DATA_DELIMITER in s or LIST_DELIMITER in s] of
    [register_user], negated. *)
Definition free_of_delimiters (s : string) : bool :=
  negb (PyStr.contains DATA_DELIMITER s || PyStr.contains LIST_DELIMITER s).

(** [s == s.strip()], as for every line read with [input().strip()]. *)
Definition is_stripped (s : string) : bool := String.eqb (PyStr.strip s) s.

(** What [hash_password] returns: 64 hexadecimal digits. *)
Definition is_sha256_hex (s : string) : bool :=
  (String.length s =? 64)%nat && all_chars is_hex_digit s.

(** What [generate_account_number] returns: a non-empty run of digits. *)
Definition is_account_number (s : string) : bool :=
  negb (PyStr.is_empty s) && all_chars is_digit s.

(** A well-formed user: a non-empty NIC, texts without spaces around
    them that hold neither delimiter, a date of birth in the pattern, a
    digest, and either the role ["customer"] with a list of account
    numbers or the role ["admin"] with no list.  [register_user] and
    [create_customer_bank_account] see to all of it but for the name and
    the address, in which a delimiter only brings a warning. *)
Definition well_formed_user (nic : string) (user_data : user) : bool :=
  negb (PyStr.is_empty nic) && is_stripped nic && free_of_delimiters nic
  && is_stripped (name user_data) && free_of_delimiters (name user_data)
  && is_stripped (address user_data)
  && free_of_delimiters (address user_data)
  && is_valid_dob (dob user_data)
  && is_sha256_hex (password_hash user_data)
  && match owned_accounts user_data with
     | Some l =>
         String.eqb (role user_data) "customer"
         && forallb is_account_number l
     | None => String.eqb (role user_data) "admin"
     end.

(** The character both ends of [DATA_DELIMITER] are made of. *)
Definition bar : ascii := "|"%char.

(** [DATA_DELIMITER] without its last character. *)
Definition DELIMITER_HEAD : string := "|~".

(** A field that holds no delimiter can still run into the one that
    follows it on the line, when it ends with [DELIMITER_HEAD]. *)
Definition clear_of_delimiter (s : string) : bool :=
  negb (PyStr.contains DATA_DELIMITER s)
  && negb (PyStr.endswith DELIMITER_HEAD s).

(** The NIC, the name and the address do not end with
    [DELIMITER_HEAD]. *)
Definition clear_tails_user (nic : string) (user_data : user) : bool :=
  negb (PyStr.endswith DELIMITER_HEAD nic)
  && negb (PyStr.endswith DELIMITER_HEAD (name user_data))
  && negb (PyStr.endswith DELIMITER_HEAD (address user_data)).

(** Followed by [sep], the field [f] shows no [sep] before that one:
    none begins at any of its characters. *)
Fixpoint frames_cleanly (sep f : string) : bool :=
  match f with
  | EmptyString => true
  | String _ r => negb (PyStr.startswith sep (f ++ sep)) && frames_cleanly sep r
  end.

(** The fields of a line: none but the last runs into the separator
    after it, and the last holds no separator. *)
Definition framed (sep : string) (fields : list string) : Prop :=
  fields <> [] /\
  Forall (fun f => frames_cleanly sep f = true) (removelast fields) /\
  PyStr.contains sep (last fields "") = false.

(** No separator begins in [cur] when [cur] is followed by [s]. *)
Fixpoint clear_before (sep cur s : string) : bool :=
  match cur with
  | EmptyString => true
  | String _ r =>
      negb (PyStr.startswith sep (cur ++ s)) && clear_before sep r s
  end.

Definition not_space (c : ascii) : bool := negb (PyStr.is_space c).

(** The last character of a text is a space. *)
Fixpoint last_is_space (s : string) : bool :=
  match s with
  | EmptyString => false
  | String c EmptyString => PyStr.is_space c
  | String _ r => last_is_space r
  end.

(** An account as the operations leave it, for given conversions of
    the Python library: an account number, texts that do not hold
    [DATA_DELIMITER], and a balance and a transaction list that
    [str]/[float] and [json.dumps]/[json.loads] write and read back, in
    texts that do not hold [DATA_DELIMITER]; the JSON text does not end
    with a space. *)
Definition well_formed_account
    (float_str : float -> string) (float_of_str : string -> option float)
    (json_dumps : list transaction -> string)
    (json_loads : string -> json_result)
    (acc_num : string) (acc_data : account) : Prop :=
  is_account_number acc_num = true /\
  PyStr.contains DATA_DELIMITER (owner_nic acc_data) = false /\
  PyStr.contains DATA_DELIMITER (created_at acc_data) = false /\
  PyStr.contains DATA_DELIMITER (float_str (balance acc_data)) = false /\
  PyStr.contains DATA_DELIMITER (json_dumps (transactions acc_data)) = false /\
  last_is_space (json_dumps (transactions acc_data)) = false /\
  float_of_str (float_str (balance acc_data)) = Some (balance acc_data) /\
  json_loads (json_dumps (transactions acc_data))
    = JsonList (transactions acc_data).

(** The owner, the creation time and the text of the balance do not end
    with [DELIMITER_HEAD]. *)
Definition clear_tails_account (float_str : float -> string)
    (acc_data : account) : Prop :=
  PyStr.endswith DELIMITER_HEAD (owner_nic acc_data) = false /\
  PyStr.endswith DELIMITER_HEAD (created_at acc_data) = false /\
  PyStr.endswith DELIMITER_HEAD (float_str (balance acc_data)) = false.

(** ** Registration and login

    The console is a tape of lines, one for each [input] or [getpass]
    call; reading past its end is the [EOFError] of Python. *)

Definition is_lower (c : ascii) : bool :=
  let n := nat_of_ascii c in ((97 <=? n) && (n <=? 122))%nat.

Definition is_upper (c : ascii) : bool :=
  let n := nat_of_ascii c in ((65 <=? n) && (n <=? 90))%nat.

Definition to_upper (c : ascii) : ascii :=
  if is_lower c then ascii_of_nat (nat_of_ascii c - 32) else c.

Definition to_lower (c : ascii) : ascii :=
  if is_upper c then ascii_of_nat (nat_of_ascii c + 32) else c.

(** [s.title()]: a letter that follows a letter is put in lower case,
    any other letter in upper case. *)
Fixpoint title_from (previous_is_cased : bool) (s : string) : string :=
  match s with
  | EmptyString => EmptyString
  | String c r =>
      if is_lower c
      then String (if previous_is_cased then c else to_upper c)
             (title_from true r)
      else if is_upper c
      then String (if previous_is_cased then to_lower c else c)
             (title_from true r)
      else String c (title_from false r)
  end.

Definition title (s : string) : string := title_from false s.

(** How the NIC loop of [register_user] ends: with a NIC and the lines
    left, with [return False] on a NIC that is registered, or with the
    tape read to its end. *)
Inductive nic_answer : Type :=
| NicAccepted (nic : string) (rest : list string)
| NicTaken
| NicRaised.

Fixpoint prompt_nic (registered : Dict.t user) (tape : list string)
  : nic_answer :=
  match tape with
  | [] => NicRaised
  | line :: rest =>
      let nic := PyStr.strip line in
      if PyStr.is_empty nic then prompt_nic registered rest
      else if Dict.mem nic registered then NicTaken
      else if PyStr.contains DATA_DELIMITER nic
              || PyStr.contains LIST_DELIMITER nic
      then prompt_nic registered rest
      else NicAccepted nic rest
  end.

(** The date of birth loop: the first line that matches the pattern
    once stripped, and the lines left. *)
Fixpoint prompt_dob (tape : list string) : option (string * list string) :=
  match tape with
  | [] => None
  | line :: rest =>
      let dob_input := PyStr.strip line in
      if is_valid_dob dob_input then Some (dob_input, rest)
      else prompt_dob rest
  end.

(** The password loop: a password of six characters or more that the
    next line repeats, and the lines left. *)
Fixpoint prompt_password (tape : list string)
  : option (string * list string) :=
  match tape with
  | [] => None
  | pwd1 :: rest =>
      if PyStr.is_empty pwd1 then prompt_password rest
      else if (String.length pwd1 <? 6)%nat then prompt_password rest
      else
        match rest with
        | [] => None
        | pwd2 :: rest' =>
            if String.eqb pwd1 pwd2 then Some (pwd1, rest')
            else prompt_password rest'
        end
  end.

(** What [register_user] returns: [True], [False], or an exception out
    of a prompt. *)
Inductive registration : Type :=
| Registered
| AlreadyRegistered
| RegistrationRaised.

(** What [login_user] returns: the pair [(nic, user_data)], [None] with
    one of its two messages, or an exception out of a prompt. *)
Inductive login : Type :=
| LoggedIn (nic : string) (user_data : user)
| UserNotFound
| AuthenticationFailed
| LoginRaised.

(** The bank [load_data] and [_initialize_fresh_start_with_admin] start
    from. *)
Definition empty_bank : bank :=
  {| users := []; accounts := []; next_account_number := 1001 |}.

Section Authentication.

(** [hashlib.sha256(password.encode()).hexdigest()] *)
Variable hash_password : string -> string.

Definition verify_password (stored_hash provided_password : string)
  : bool :=
  String.eqb stored_hash (hash_password provided_password).

Definition register_user (role : string) (tape : list string) (st : bank)
  : bank * registration :=
  match prompt_nic (users st) tape with
  | NicRaised => (st, RegistrationRaised)
  | NicTaken => (st, AlreadyRegistered)
  | NicAccepted nic rest =>
      match rest with
      | name_line :: address_line :: rest =>
          let name := title (PyStr.strip name_line) in
          let address := PyStr.strip address_line in
          match prompt_dob rest with
          | None => (st, RegistrationRaised)
          | Some (dob, rest) =>
              match prompt_password rest with
              | None => (st, RegistrationRaised)
              | Some (password, _) =>
                  let user_data :=
                    {| name := name;
                       address := address;
                       dob := dob;
                       password_hash := hash_password password;
                       role := role;
                       owned_accounts :=
                         if String.eqb role "customer" then Some []
                         else None |} in
                  ({| users := Dict.set nic user_data (users st);
                      accounts := accounts st;
                      next_account_number := next_account_number st |},
                   Registered)
              end
          end
      | _ => (st, RegistrationRaised)
      end
  end.

Definition create_first_admin (tape : list string) (st : bank)
  : bank * registration :=
  register_user "admin" tape st.

(** The loop [for attempt in range(3, 0, -1)]: [Some true] when a
    password is verified, [Some false] when the attempts are used up. *)
Fixpoint attempt_password (attempts : nat) (stored_hash : string)
    (tape : list string) : option bool :=
  match attempts with
  | O => Some false
  | S attempts' =>
      match tape with
      | [] => None
      | password :: rest =>
          if verify_password stored_hash password then Some true
          else attempt_password attempts' stored_hash rest
      end
  end.

Definition login_user (tape : list string) (st : bank) : login :=
  match tape with
  | [] => LoginRaised
  | line :: rest =>
      let nic := PyStr.strip line in
      match Dict.get nic (users st) with
      | None => UserNotFound
      | Some user_data =>
          match attempt_password 3 (password_hash user_data) rest with
          | Some true => LoggedIn nic user_data
          | Some false => AuthenticationFailed
          | None => LoginRaised
          end
      end
  end.

(** How [_initialize_fresh_start_with_admin] ends: with the bank it
    saves, with [exit()], or with an exception out of a prompt. *)
Inductive fresh_start : Type :=
| FreshStart (st : bank)
| FreshStartExit
| FreshStartRaised.

Definition _initialize_fresh_start_with_admin (tape : list string)
  : fresh_start :=
  match create_first_admin tape empty_bank with
  | (st, Registered) => FreshStart st
  | (_, AlreadyRegistered) => FreshStartExit
  | (_, RegistrationRaised) => FreshStartRaised
  end.

End Authentication.

(** ** Data persistence: the three files

    A file is the text it holds, or [None] when it does not exist or
    cannot be read.  Files are written as on a POSIX system, where
    [write] leaves line feeds as they are, and are always writable. *)

Record files : Type := {
  users_file : option string;
  accounts_file : option string;
  next_acc_num_file : option string
}.

Definition LF : ascii := "010"%char.
Definition CR : ascii := "013"%char.

(** ["\n"] *)
Definition NEWLINE : string := String LF EmptyString.

(** [for line in f] on a file opened in text mode: a line ends at a
    line feed, at a carriage return or at the pair of them, each read as
    one line feed; the text after the last of them, when there is some,
    is the last line.  [cur] holds the line read so far. *)
Fixpoint lines_from (cur s : string) : list string :=
  match s with
  | EmptyString => if PyStr.is_empty cur then [] else [cur]
  | String c r =>
      if Ascii.eqb c LF then (cur ++ NEWLINE) :: lines_from EmptyString r
      else if Ascii.eqb c CR
      then (cur ++ NEWLINE)
           :: match r with
              | String c' r' =>
                  if Ascii.eqb c' LF then lines_from EmptyString r'
                  else lines_from EmptyString r
              | EmptyString => lines_from EmptyString r
              end
      else lines_from (cur ++ String c EmptyString) r
  end.

Definition readlines (text : string) : list string :=
  lines_from EmptyString text.

(** [content.isdigit()] on characters below 128. *)
Definition isdigit (content : string) : bool :=
  negb (PyStr.is_empty content) && all_chars is_digit content.

(** [int(content)] for a text of digits; [None] is [ValueError]. *)
Definition int_of_digits (content : string) : option N :=
  if (MAX_STR_DIGITS <? String.length content)%nat then None
  else option_map N.of_uint (NilEmpty.uint_of_string content).

(** The loop over the lines of the users file: blank lines and lines
    that [_deserialize_user] refuses or that have an empty NIC are
    skipped. *)
Fixpoint load_users (lines : list string) (users : Dict.t user)
  : Dict.t user :=
  match lines with
  | [] => users
  | line :: rest =>
      let line_content := PyStr.strip line in
      if PyStr.is_empty line_content then load_users rest users
      else
        match _deserialize_user line_content with
        | Some (nic, user_data) =>
            if PyStr.is_empty nic then load_users rest users
            else load_users rest (Dict.set nic user_data users)
        | None => load_users rest users
        end
  end.

(** [user_data_val.setdefault('owned_accounts', [])] for a customer. *)
Definition with_default_owned (user_data : user) : user :=
  if String.eqb (role user_data) "customer"
  then match owned_accounts user_data with
       | Some _ => user_data
       | None =>
           {| name := name user_data; address := address user_data;
              dob := dob user_data;
              password_hash := password_hash user_data;
              role := role user_data; owned_accounts := Some [] |}
       end
  else user_data.

(** The text of the counter file, and the counter read from it. *)
Definition counter_text (n : N) : string :=
  match str_of_int n with
  | Some text => text
  | None => EmptyString
  end.

Definition load_counter (file : option string) : N :=
  match file with
  | None => 1001%N
  | Some text =>
      let content := PyStr.strip text in
      if isdigit content
      then match int_of_digits content with
           | Some n => n
           | None => 1001%N
           end
      else 1001%N
  end.

(** How [load_data] ends: with the tables and the files as they are
    then, with [exit()], or with an exception out of a prompt. *)
Inductive loaded : Type :=
| Loaded (st : bank) (fs : files)
| LoadExit
| LoadRaised.

Section Persistence.

Variable float_str : float -> string.
Variable float_of_str : string -> option float.
Variable json_dumps : list transaction -> string.
Variable json_loads : string -> json_result.
Variable hash_password : string -> string.

Definition users_text (users : Dict.t user) : string :=
  String.concat EmptyString
    (map (fun item => _serialize_user (fst item) (snd item) ++ NEWLINE)
         users).

Definition accounts_text (accounts : Dict.t account) : string :=
  String.concat EmptyString
    (map (fun item =>
            _serialize_account float_str json_dumps (fst item) (snd item)
            ++ NEWLINE)
         accounts).

(** Each file is opened for writing, which empties it, and written
    anew; a counter [str] refuses leaves its file empty. *)
Definition save_data (st : bank) : files :=
  {| users_file := Some (users_text (users st));
     accounts_file := Some (accounts_text (accounts st));
     next_acc_num_file := Some (counter_text (next_account_number st)) |}.

(** The loop over the lines of the accounts file: blank lines and
    lines that give [(None, None)] or an empty account number are
    skipped; an exception out of [_deserialize_account] is caught by the
    [except Exception] around the loop, which ends there with the
    accounts read so far. *)
Fixpoint load_accounts (lines : list string) (accounts : Dict.t account)
  : Dict.t account :=
  match lines with
  | [] => accounts
  | line :: rest =>
      let line_content := PyStr.strip line in
      if PyStr.is_empty line_content then load_accounts rest accounts
      else
        match _deserialize_account float_of_str json_loads line_content with
        | AccountRecord acc_num acc_data =>
            if PyStr.is_empty acc_num then load_accounts rest accounts
            else load_accounts rest (Dict.set acc_num acc_data accounts)
        | AccountMalformed => load_accounts rest accounts
        | AccountRaised => accounts
        end
  end.

(** [tape] is the console, read when no user was loaded and the first
    admin is to be registered; the fresh start ends with [save_data]. *)
Definition load_data (tape : list string) (fs : files) : loaded :=
  let users_ :=
    match users_file fs with
    | Some text => load_users (readlines text) []
    | None => []
    end in
  let accounts_ :=
    match accounts_file fs with
    | Some text => load_accounts (readlines text) []
    | None => []
    end in
  let next_account_number_ := load_counter (next_acc_num_file fs) in
  match users_ with
  | [] =>
      match _initialize_fresh_start_with_admin hash_password tape with
      | FreshStart st => Loaded st (save_data st)
      | FreshStartExit => LoadExit
      | FreshStartRaised => LoadRaised
      end
  | _ =>
      Loaded
        {| users :=
             map (fun item => (fst item, with_default_owned (snd item)))
                 users_;
           accounts := accounts_;
           next_account_number := next_account_number_ |}
        fs
  end.

End Persistence.

(** ** What the files can hold *)

(** A text without a line feed or a carriage return. *)
Definition single_line (s : string) : bool :=
  all_chars (fun c => negb (Ascii.eqb c LF || Ascii.eqb c CR)) s.

(** An entry of [users] that one line of the users file holds. *)
Definition storable_user (item : string * user) : Prop :=
  well_formed_user (fst item) (snd item) = true /\
  clear_tails_user (fst item) (snd item) = true /\
  single_line (_serialize_user (fst item) (snd item)) = true.

(** An entry of [accounts] that one line of the accounts file holds. *)
Definition storable_account
    (float_str : float -> string) (float_of_str : string -> option float)
    (json_dumps : list transaction -> string)
    (json_loads : string -> json_result)
    (item : string * account) : Prop :=
  well_formed_account float_str float_of_str json_dumps json_loads
    (fst item) (snd item) /\
  clear_tails_account float_str (snd item) /\
  single_line (_serialize_account float_str json_dumps (fst item) (snd item))
  = true.

(** Every user can be written to the users file, and every key of the
    accounts table is an account number. *)
Definition users_storable (st : bank) : Prop :=
  Forall storable_user (users st) /\
  Forall (fun k => is_account_number k = true) (Dict.keys (accounts st)).

(** An entry of [users] as [load_data] leaves it: a NIC that is not
    empty, and a customer with a list of accounts, none of them the
    empty text, or an admin without a list. *)
Definition loaded_user (item : string * user) : Prop :=
  fst item <> "" /\
  (role (snd item) = "customer" /\
   (exists l, owned_accounts (snd item) = Some l /\ ~ In "" l)
   \/ role (snd item) = "admin" /\ owned_accounts (snd item) = None).

(** A stand-in for the digest, for the examples: the codes of the
    characters in hexadecimal, cut or filled with zeros to 64 digits. *)
Definition hex_digit (n : nat) : ascii :=
  nth n (list_ascii_of_string "0123456789abcdef") "0"%char.

Fixpoint hex_of (s : string) : string :=
  match s with
  | EmptyString => EmptyString
  | String c r =>
      String (hex_digit (nat_of_ascii c / 16))
        (String (hex_digit (nat_of_ascii c mod 16)) (hex_of r))
  end.

Definition demo_hash_password (password : string) : string :=
  substring 0 64
    (hex_of password
     ++ "0000000000000000000000000000000000000000000000000000000000000000").

(** The lines typed to register a third user: a blank NIC, a date in
    another format, a short password and a confirmation that differs are
    each asked again. *)
Definition demo_registration_tape : list string :=
  [""; " Z "; "zoe o'neil-smith"; " 3 High Street"; "15/05/1990";
   "1990-05-15"; "short"; "secret1"; "secret2"; "secret1"; "secret1"].

(** ** A small bank to run the operations on

    Two registered customers; [X] opens an account with 100.00 and [Y]
    one with an empty answer at the deposit prompt. *)

Definition demo_customer (full_name : string) : user :=
  {| name := full_name; address := "1 Main Street"; dob := "1990-05-15";
     password_hash :=
       "5e884898da28047151d0e56f8dc6292773603d0d6aabbdd62a11ef721d1542d8";
     role := "customer"; owned_accounts := Some [] |}.

Definition demo_registered : bank :=
  {| users := [("X", demo_customer "Xavier"); ("Y", demo_customer "Yara")];
     accounts := [];
     next_account_number := 1001 |}.

Definition demo_time : string := "2024-01-01 10:00:00".

Definition demo_bank : bank :=
  fst (create_customer_bank_account "Y" [Blank] demo_time demo_time
         (fst (create_customer_bank_account "X" [Garbage; Number 100]
                 demo_time demo_time demo_registered))).

(** The account [X] holds in [demo_bank]. *)
Definition demo_account_x : account :=
  {| owner_nic := "X"; balance := 100;
     transactions :=
       [{| tx_timestamp := demo_time; tx_type := "Initial Deposit";
           tx_amount := 100; tx_details := [] |}];
     created_at := demo_time |}.

(** The account [Y] holds in [demo_bank]. *)
Definition demo_account_y : account :=
  {| owner_nic := "Y"; balance := 0; transactions := [];
     created_at := demo_time |}.

(** A list of one integer of 4301 digits, which [json.loads] refuses
    to convert: it raises [ValueError]. *)
Definition demo_long_integer_json : string :=
  "[" ++ string_of_list_ascii (repeat "1"%char 4301) ++ "]".

(** The conversions of the Python library on the few values the
    examples need: [str(0.0)] is ["0.0"], [str(100.0)] is ["100.0"],
    [json.dumps([])] is ["[]"], [json.loads("{}")] is not a list and
    [json.loads] raises [ValueError] on [demo_long_integer_json]. *)
Definition demo_float_str (x : float) : string :=
  if (x =? 100)%float then "100.0" else "0.0".

Definition demo_float_of_str (s : string) : option float :=
  if String.eqb s "100.0" then Some 100%float
  else if String.eqb s "0.0" then Some 0%float
  else None.

Definition demo_json_dumps (l : list transaction) : string :=
  match l with
  | [] => "[]"
  | _ => "[...]"
  end.

Definition demo_json_loads (s : string) : json_result :=
  if String.eqb s "[]" then JsonList []
  else if String.eqb s "{}" then JsonNotList
  else if String.eqb s demo_long_integer_json then JsonRaised
  else JsonDecodeError.

(** [Y] opens an account without a deposit. *)
Definition demo_bank_opened : bank :=
  fst (create_customer_bank_account "Y" [Blank] demo_time demo_time
         demo_registered).

(** Files whose users file has no line that can be read, beside an
    accounts file and a counter file that are in order. *)
Definition demo_files_without_users : files :=
  {| users_file := Some (" " ++ NEWLINE ++ "X|~|Xavier" ++ NEWLINE);
     accounts_file :=
       Some ("1001|~|X|~|100.0|~|2024-01-01 10:00:00|~|[]" ++ NEWLINE);
     next_acc_num_file := Some "1002" |}.

(** The lines typed to set up the first admin. *)
Definition demo_admin_tape : list string :=
  ["A1"; "ada"; "2 Main Street"; "1985-12-10"; "secret1"; "secret1"].

(** The user the lines of [demo_registration_tape] register. *)
Definition demo_user_z : user :=
  {| name := "Zoe O'Neil-Smith"; address := "3 High Street";
     dob := "1990-05-15";
     password_hash :=
       "7365637265743100000000000000000000000000000000000000000000000000";
     role := "customer"; owned_accounts := Some [] |}.

(** The bank the lines of [demo_admin_tape] set up. *)
Definition demo_admin_bank : bank :=
  {| users :=
       [("A1",
         {| name := "Ada"; address := "2 Main Street"; dob := "1985-12-10";
            password_hash :=
              "7365637265743100000000000000000000000000000000000000000000000000";
            role := "admin"; owned_accounts := None |})];
     accounts := [];
     next_account_number := 1001 |}.

(** The lines typed to register a NIC that ends with the first two
    characters of the delimiter, and the user they register. *)
Definition demo_tail_tape : list string :=
  ["N1|~"; "xavier"; "1 Main Street"; "1990-05-15"; "secret1"; "secret1"].

Definition demo_user_tail : user :=
  {| name := "Xavier"; address := "1 Main Street"; dob := "1990-05-15";
     password_hash :=
       "7365637265743100000000000000000000000000000000000000000000000000";
     role := "customer"; owned_accounts := Some [] |}.

(** The lines typed to register a name that holds the delimiter, and
    the user they register. *)
Definition demo_delimiter_tape : list string :=
  ["N2"; "a|~|b"; "1 Main Street"; "1990-05-15"; "secret1"; "secret1"].

Definition demo_user_delimiter : user :=
  {| name := "A|~|B"; address := "1 Main Street"; dob := "1990-05-15";
     password_hash :=
       "7365637265743100000000000000000000000000000000000000000000000000";
     role := "customer"; owned_accounts := Some [] |}.

(** [X] opens an account with 1e17 and [Y] one without a deposit; at
    1e17 two neighbouring floats are 16 apart. *)
Definition demo_bank_large : bank :=
  fst (create_customer_bank_account "Y" [Blank] demo_time demo_time
         (fst (create_customer_bank_account "X" [Number 1e17]
                 demo_time demo_time demo_registered))).

(** A customer with two accounts. *)
Definition demo_user_x : user :=
  {| name := "Xavier"; address := "Flat 2 | 1 Main Street";
     dob := "1990-05-15";
     password_hash :=
       "5e884898da28047151d0e56f8dc6292773603d0d6aabbdd62a11ef721d1542d8";
     role := "customer"; owned_accounts := Some ["1001"; "1002"] |}.

(** [X] answers [nan] at the initial-deposit prompt. *)
Definition demo_bank_nan : bank :=
  fst (create_customer_bank_account "X" [Number nan] demo_time demo_time
         demo_registered).

(** [X] deposits [inf] into the account of the demo bank. *)
Definition demo_bank_infinite : bank :=
  fst (make_deposit "X" [] [Number infinity] demo_time demo_bank).

(** ** Rounding to cents, for the examples

    [round(x, 2)] rounds the exact value of [x] to two decimals, ties to
    even, and returns the float nearest to that decimal; zeros, [nan] and
    the infinities round to themselves.  [py_round2] computes this for
    amounts below 2^53 / 100, where the count of cents is a float; the
    properties below hold for any rounding function and do not rest on
    it. *)

(** [n / d] rounded to the nearest integer, ties to even, for [d > 0]. *)
Definition round_half_even_div (n d : Z) : Z :=
  let q := (n / d)%Z in
  match (2 * (n mod d) ?= d)%Z with
  | Lt => q
  | Gt => (q + 1)%Z
  | Eq => if Z.even q then q else (q + 1)%Z
  end.

(** The cents in the absolute value of [x], when [x] has a fraction. *)
Definition hundredths (x : float) : option Z :=
  match Prim2SF x with
  | S754_zero _ => Some 0%Z
  | S754_finite _ m e =>
      if (e <? 0)%Z
      then Some (round_half_even_div (Z.pos m * 100) (2 ^ (- e)))
      else None
  | _ => None
  end.

Definition py_round2 (x : float) : float :=
  match hundredths x with
  | Some n =>
      let q := (PrimFloat.of_uint63 (Uint63.of_Z n) / 100)%float in
      if (x <? 0)%float then (- q)%float
      else match Prim2SF x with
           | S754_zero true => (- q)%float
           | _ => q
           end
  | None => x
  end.

(** The table of the interest example: balances 0, -5 and 1000. *)
Definition demo_interest_bank : bank :=
  {| users := [];
     accounts :=
       [("1001", {| owner_nic := "X"; balance := 0; transactions := [];
                    created_at := demo_time |});
        ("1002", {| owner_nic := "Y"; balance := -5; transactions := [];
                    created_at := demo_time |});
        ("1003", {| owner_nic := "Z"; balance := 1000; transactions := [];
                    created_at := demo_time |})];
     next_account_number := 1004 |}.

(** A session: two accounts are opened, then a deposit, a withdrawal, a
    transfer and an interest accrual follow. *)
Definition demo_operations : list operation :=
  [Create "X" [Garbage; Number 100] demo_time demo_time;
   Create "Y" [Blank] demo_time demo_time;
   Deposit "Y" [] [Number 0; Number 12.5] demo_time;
   Withdraw "X" [] [Number 30] demo_time;
   Transfer "X" [] "1002" [Number 50] demo_time demo_time;
   Interest (fun _ => demo_time)].

(** * Properties *)

(** ** Dictionaries *)

Lemma get_set_same (V : Type) (k : string) (v : V) (d : Dict.t V) :
  Dict.get k (Dict.set k v d) = Some v.
Proof.
  induction d as [|[k' v'] r IH]; simpl.
  - now rewrite String.eqb_refl.
  - destruct (String.eqb k k') eqn:E; simpl; rewrite ?String.eqb_refl, ?E; auto.
Qed.

Lemma get_set_other (V : Type) (k k' : string) (v : V) (d : Dict.t V) :
  k' <> k -> Dict.get k' (Dict.set k v d) = Dict.get k' d.
Proof.
  intros Hne. induction d as [|[k0 v0] r IH]; simpl.
  - destruct (String.eqb_spec k' k); congruence.
  - destruct (String.eqb_spec k k0) as [->|Hk]; simpl.
    + destruct (String.eqb_spec k' k0); congruence.
    + now rewrite IH.
Qed.

(** A second assignment to a key replaces the first. *)
Lemma set_set (V : Type) (k : string) (v w : V) (d : Dict.t V) :
  Dict.set k v (Dict.set k w d) = Dict.set k v d.
Proof.
  induction d as [|[k0 v0] r IH]; simpl.
  - now rewrite String.eqb_refl.
  - destruct (String.eqb k k0) eqn:E; simpl; rewrite ?E, ?String.eqb_refl;
      [reflexivity|now rewrite IH].
Qed.

Lemma keys_set_present (V : Type) (k : string) (v w : V) (d : Dict.t V) :
  Dict.get k d = Some w -> Dict.keys (Dict.set k v d) = Dict.keys d.
Proof.
  induction d as [|[k0 v0] r IH]; simpl; [discriminate|].
  destruct (String.eqb_spec k k0) as [->|Hk]; simpl; intros H.
  - reflexivity.
  - f_equal. now apply IH.
Qed.

Lemma get_some_in_keys (V : Type) (k : string) (v : V) (d : Dict.t V) :
  Dict.get k d = Some v -> In k (Dict.keys d).
Proof.
  induction d as [|[k0 v0] r IH]; simpl; [discriminate|].
  destruct (String.eqb_spec k k0) as [->|Hk]; auto.
Qed.

Lemma mem_true_in_keys (V : Type) (k : string) (d : Dict.t V) :
  Dict.mem k d = true -> In k (Dict.keys d).
Proof.
  unfold Dict.mem. destruct (Dict.get k d) eqn:E; [|discriminate].
  intros _. eapply get_some_in_keys; eauto.
Qed.

Lemma mem_false_get (V : Type) (k : string) (d : Dict.t V) :
  Dict.mem k d = false -> Dict.get k d = None.
Proof. unfold Dict.mem. now destruct (Dict.get k d). Qed.

(** ** Account numbers *)

Lemma of_N_inj (n m : N) : PyStr.of_N n = PyStr.of_N m -> n = m.
Proof.
  unfold PyStr.of_N. intros H.
  apply Unsigned.to_uint_inj.
  assert (Some (N.to_uint n) = Some (N.to_uint m)) as E
      by (rewrite <- !NilEmpty.usu; now rewrite H).
  now inversion E.
Qed.

Lemma str_of_int_some (n : N) (text : string) :
  str_of_int n = Some text ->
  text = PyStr.of_N n /\
  (String.length (PyStr.of_N n) <= MAX_STR_DIGITS)%nat.
Proof.
  unfold str_of_int.
  destruct (MAX_STR_DIGITS <? String.length (PyStr.of_N n))%nat eqn:E;
    [discriminate|].
  intros H. inversion H. split; [reflexivity|]. now apply Nat.ltb_ge in E.
Qed.

Lemma str_of_int_none (n : N) :
  str_of_int n = None ->
  (MAX_STR_DIGITS < String.length (PyStr.of_N n))%nat.
Proof.
  unfold str_of_int.
  destruct (MAX_STR_DIGITS <? String.length (PyStr.of_N n))%nat eqn:E;
    [|discriminate].
  intros _. now apply Nat.ltb_lt in E.
Qed.

Lemma skip_used_not_used (fuel : nat) (accts : Dict.t account) (n m : N)
    (acc_num : string) :
  skip_used fuel accts n = Some (NotUsed m acc_num) ->
  acc_num = PyStr.of_N m /\
  (String.length (PyStr.of_N m) <= MAX_STR_DIGITS)%nat /\
  (n <= m)%N /\ Dict.mem acc_num accts = false /\ all_used accts n m.
Proof.
  revert n. induction fuel as [|fuel IH]; cbn [skip_used]; intros n H;
    [discriminate|].
  destruct (str_of_int n) as [text|] eqn:Es; [|discriminate].
  apply str_of_int_some in Es as [-> Hlen].
  destruct (Dict.mem (PyStr.of_N n) accts) eqn:E.
  - apply IH in H as (Ha & Hl & Hle & Hfree & Hused).
    repeat split; try assumption; try lia.
    intros k Hk. destruct (N.eq_dec k n) as [->|Hne]; [assumption|].
    apply Hused. lia.
  - inversion H; subst. repeat split; try assumption; try lia.
    intros k Hk. lia.
Qed.

Lemma skip_used_raised (fuel : nat) (accts : Dict.t account) (n m : N) :
  skip_used fuel accts n = Some (StrRaised m) ->
  str_of_int m = None /\ (n <= m)%N /\ all_used accts n m.
Proof.
  revert n. induction fuel as [|fuel IH]; cbn [skip_used]; intros n H;
    [discriminate|].
  destruct (str_of_int n) as [text|] eqn:Es.
  - apply str_of_int_some in Es as [-> Hlen].
    destruct (Dict.mem (PyStr.of_N n) accts) eqn:E; [|discriminate].
    apply IH in H as (Hs & Hle & Hused).
    repeat split; try assumption; try lia.
    intros k Hk. destruct (N.eq_dec k n) as [->|Hne]; [assumption|].
    apply Hused. lia.
  - inversion H; subst. repeat split; try assumption; try lia.
    intros k Hk. lia.
Qed.

Lemma skip_used_none (fuel : nat) (accts : Dict.t account) (n : N) :
  skip_used fuel accts n = None ->
  forall i, (i < fuel)%nat ->
            Dict.mem (PyStr.of_N (n + N.of_nat i)) accts = true.
Proof.
  revert n. induction fuel as [|fuel IH]; cbn [skip_used]; intros n H i Hi;
    [lia|].
  destruct (str_of_int n) as [text|] eqn:Es; [|discriminate].
  apply str_of_int_some in Es as [-> _].
  destruct (Dict.mem (PyStr.of_N n) accts) eqn:E; [|discriminate].
  destruct i as [|i].
  - now rewrite N.add_0_r.
  - replace (n + N.of_nat (S i))%N with (N.succ n + N.of_nat i)%N by lia.
    apply IH; [assumption|lia].
Qed.

(** The loop ends within [len(accounts) + 1] tests: that many consecutive
    numbers cannot all be keys. *)
Lemma skip_used_enough (accts : Dict.t account) (n : N) :
  skip_used (S (List.length accts)) accts n <> None.
Proof.
  intros H.
  pose (ks := map (fun i => PyStr.of_N (n + N.of_nat i))
                  (seq 0 (S (List.length accts)))).
  assert (NoDup ks) as Hnd.
  { apply NoDup_map_NoDup_ForallPairs; [|apply seq_NoDup].
    intros i j _ _ Hij. apply of_N_inj in Hij. lia. }
  assert (incl ks (Dict.keys accts)) as Hincl.
  { intros k Hk. apply in_map_iff in Hk as [i [<- Hi]].
    apply in_seq in Hi. apply mem_true_in_keys.
    eapply skip_used_none; [exact H|lia]. }
  pose proof (NoDup_incl_length Hnd Hincl) as Hlen.
  unfold ks, Dict.keys in Hlen.
  rewrite !length_map, length_seq in Hlen. lia.
Qed.

(** C4.  Whatever the accounts table and the counter are (a counter that
    is behind and names an existing key included), allocating an account
    number ends, within one test more than there are accounts.  When it
    returns a number, this is the text of the first number from the
    counter on that is not a key of the accounts table: it is not a key,
    the counter afterwards is the number after it, above the number
    returned and not below its previous value, and both tables are
    untouched.  It returns one unless [str] refuses the counter, a
    number of more than 4300 digits, before a free number is found: then
    it raises, no number is returned, the tables are untouched and the
    counter is left at the number refused, not below its previous
    value. *)
Theorem generate_account_number_fresh (st : bank) :
  match generate_account_number st with
  | Some (Generated acc_num st') =>
      exists n : N,
        acc_num = PyStr.of_N n /\
        Dict.get acc_num (accounts st) = None /\
        all_used (accounts st) (next_account_number st) n /\
        next_account_number st' = N.succ n /\
        (n < next_account_number st')%N /\
        (next_account_number st <= next_account_number st')%N /\
        accounts st' = accounts st /\ users st' = users st
  | Some (GenerateRaised st') =>
      (MAX_STR_DIGITS
       < String.length (PyStr.of_N (next_account_number st')))%nat /\
      all_used (accounts st) (next_account_number st)
        (next_account_number st') /\
      (next_account_number st <= next_account_number st')%N /\
      accounts st' = accounts st /\ users st' = users st
  | None => False
  end.
Proof.
  unfold generate_account_number.
  destruct (skip_used _ (accounts st) (next_account_number st))
    as [[n acc_num|n]|] eqn:E.
  - apply skip_used_not_used in E as (-> & _ & Hle & Hfree & Hused).
    exists n. cbn [next_account_number accounts users].
    repeat split; try assumption; try lia. now apply mem_false_get.
  - apply skip_used_raised in E as (Hs & Hle & Hused).
    cbn [next_account_number accounts users].
    repeat split; try assumption. now apply str_of_int_none.
  - now apply skip_used_enough in E.
Qed.

(** ** Floats *)

(** A balance that compares equal to zero is below every positive amount. *)
Lemma zero_balance_below_positive (b amount : float) :
  (b =? 0)%float = true -> (0 <? amount)%float = true ->
  (b <? amount)%float = true.
Proof.
  rewrite FloatAxioms.eqb_spec, !FloatAxioms.ltb_spec.
  replace (Prim2SF 0) with (S754_zero false) by reflexivity.
  unfold SFeqb, SFltb.
  destruct (Prim2SF b) as [s|s| |s m e]; simpl;
    try discriminate; try (destruct s; discriminate).
  intros _. destruct (Prim2SF amount); simpl; auto.
Qed.

(** ** The console *)

Lemma prompt_positive_positive (tape : list answer) (amount : float) :
  prompt_positive tape = Some amount -> (0 <? amount)%float = true.
Proof.
  induction tape as [|[|x|] rest IH]; simpl; try discriminate; auto.
  destruct (0 <? x)%float eqn:E; auto.
  intros H. inversion H. now subst.
Qed.

(** ** Deposit and withdrawal *)

(** Assigning the balance and then recording a transaction under the same
    key leaves the key with the entry made of both. *)
Lemma record_after_balance (ts acc_num trans_type : string)
    (amount b : float) (details : list (string * detail)) (a : account)
    (accts : Dict.t account) :
  record_transaction ts acc_num trans_type amount details
    (Dict.set acc_num (with_balance a b) accts)
  = Dict.set acc_num (entry ts trans_type amount b details a) accts.
Proof.
  unfold record_transaction. rewrite get_set_same. apply set_set.
Qed.

Lemma make_deposit_run
    (customer_nic : string) (choices : list (option Z))
    (amounts : list answer) (ts : string) (st : bank)
    (acc_num : string) (a : account) (amount : float) :
  choose_customer_account st customer_nic choices = Selected acc_num ->
  acc_num <> "" ->
  Dict.get acc_num (accounts st) = Some a ->
  prompt_positive amounts = Some amount ->
  make_deposit customer_nic choices amounts ts st =
    (with_accounts st (Dict.set acc_num (deposited ts amount a) (accounts st)),
     Completed).
Proof.
  intros Hsel Hne Hget Hamt. unfold make_deposit. rewrite Hsel.
  destruct acc_num as [|c r]; [congruence|]. simpl PyStr.is_empty. cbv iota.
  rewrite Hget, Hamt. now rewrite record_after_balance.
Qed.

Lemma make_withdrawal_run
    (customer_nic : string) (choices : list (option Z))
    (amounts : list answer) (ts : string) (st : bank)
    (acc_num : string) (a : account) (amount : float) :
  choose_customer_account st customer_nic choices = Selected acc_num ->
  acc_num <> "" ->
  Dict.get acc_num (accounts st) = Some a ->
  prompt_positive amounts = Some amount ->
  make_withdrawal customer_nic choices amounts ts st =
    if (balance a =? 0)%float then (st, NoFundsToWithdraw)
    else if (balance a <? amount)%float then (st, InsufficientFunds)
    else
      (with_accounts st
         (Dict.set acc_num (withdrawn ts amount a) (accounts st)),
       Completed).
Proof.
  intros Hsel Hne Hget Hamt. unfold make_withdrawal. rewrite Hsel.
  destruct acc_num as [|c r]; [congruence|]. simpl PyStr.is_empty. cbv iota.
  rewrite Hget, Hamt. now rewrite record_after_balance.
Qed.

(** A deposit that completes selected an account, found it and read an
    amount. *)
Lemma make_deposit_completed
    (customer_nic : string) (choices : list (option Z))
    (amounts : list answer) (ts : string) (st st' : bank) :
  make_deposit customer_nic choices amounts ts st = (st', Completed) ->
  exists acc_num a amount,
    choose_customer_account st customer_nic choices = Selected acc_num /\
    acc_num <> "" /\
    Dict.get acc_num (accounts st) = Some a /\
    prompt_positive amounts = Some amount /\
    st' = with_accounts st
            (Dict.set acc_num (deposited ts amount a) (accounts st)).
Proof.
  unfold make_deposit.
  destruct (choose_customer_account st customer_nic choices)
    as [acc_num| |] eqn:Hsel; try discriminate.
  destruct acc_num as [|c r]; [discriminate|]. simpl PyStr.is_empty. cbv iota.
  destruct (Dict.get (String c r) (accounts st)) as [a|] eqn:Hget;
    [|discriminate].
  destruct (prompt_positive amounts) as [amount|] eqn:Hamt; [|discriminate].
  rewrite record_after_balance. intros H. inversion H.
  exists (String c r), a, amount. repeat split; auto. discriminate.
Qed.

Lemma make_withdrawal_completed
    (customer_nic : string) (choices : list (option Z))
    (amounts : list answer) (ts : string) (st st' : bank) :
  make_withdrawal customer_nic choices amounts ts st = (st', Completed) ->
  exists acc_num a amount,
    choose_customer_account st customer_nic choices = Selected acc_num /\
    acc_num <> "" /\
    Dict.get acc_num (accounts st) = Some a /\
    prompt_positive amounts = Some amount /\
    (balance a <? amount)%float = false /\
    st' = with_accounts st
            (Dict.set acc_num (withdrawn ts amount a) (accounts st)).
Proof.
  unfold make_withdrawal.
  destruct (choose_customer_account st customer_nic choices)
    as [acc_num| |] eqn:Hsel; try discriminate.
  destruct acc_num as [|c r]; [discriminate|]. simpl PyStr.is_empty. cbv iota.
  destruct (Dict.get (String c r) (accounts st)) as [a|] eqn:Hget;
    [|discriminate].
  destruct (balance a =? 0)%float; [discriminate|].
  destruct (prompt_positive amounts) as [amount|] eqn:Hamt; [|discriminate].
  destruct (balance a <? amount)%float eqn:Hlt; [discriminate|].
  rewrite record_after_balance. intros H. inversion H.
  exists (String c r), a, amount. repeat split; auto. discriminate.
Qed.

(** C3, as amended.  A withdrawal of the amount read at the prompt
    (which is positive) from the selected, existing account: when the
    amount exceeds the balance the operation ends with one of its two
    insufficient-funds messages and the bank is unchanged; otherwise
    (equality included) the operation completes, and the account then
    holds, under the same owner and creation time, the binary64
    difference of its old balance and the amount, which is the float
    nearest to the exact difference, and its old transactions followed
    by one Withdrawal of that amount; every other account, the users and
    the counter are as before. *)
Theorem make_withdrawal_checks_funds
    (customer_nic : string) (choices : list (option Z))
    (amounts : list answer) (ts : string) (st : bank)
    (acc_num : string) (a : account) (amount : float) :
  choose_customer_account st customer_nic choices = Selected acc_num ->
  acc_num <> "" ->
  Dict.get acc_num (accounts st) = Some a ->
  prompt_positive amounts = Some amount ->
  (0 <? amount)%float = true /\
  ((balance a <? amount)%float = true ->
   fst (make_withdrawal customer_nic choices amounts ts st) = st /\
   (snd (make_withdrawal customer_nic choices amounts ts st)
      = InsufficientFunds \/
    snd (make_withdrawal customer_nic choices amounts ts st)
      = NoFundsToWithdraw /\ (balance a =? 0)%float = true)) /\
  ((balance a <? amount)%float = false ->
   snd (make_withdrawal customer_nic choices amounts ts st) = Completed /\
   Dict.get acc_num
     (accounts (fst (make_withdrawal customer_nic choices amounts ts st)))
   = Some {| owner_nic := owner_nic a;
             balance := balance a - amount;
             transactions :=
               (transactions a ++
                [{| tx_timestamp := ts; tx_type := "Withdrawal";
                    tx_amount := amount; tx_details := [] |}])%list;
             created_at := created_at a |} /\
   (forall k, k <> acc_num ->
      Dict.get k
        (accounts (fst (make_withdrawal customer_nic choices amounts ts st)))
      = Dict.get k (accounts st)) /\
   users (fst (make_withdrawal customer_nic choices amounts ts st))
   = users st /\
   next_account_number
     (fst (make_withdrawal customer_nic choices amounts ts st))
   = next_account_number st).
Proof.
  intros Hsel Hne Hget Hamt.
  pose proof (prompt_positive_positive _ _ Hamt) as Hpos.
  rewrite (make_withdrawal_run _ _ _ ts _ _ _ _ Hsel Hne Hget Hamt).
  split; [assumption|].
  destruct (balance a =? 0)%float eqn:Ez.
  - split; [simpl; auto|].
    intros Hlt.
    rewrite (zero_balance_below_positive _ _ Ez Hpos) in Hlt. discriminate.
  - split; intros Hlt; rewrite Hlt; [simpl; auto|].
    cbn [fst snd with_accounts accounts users next_account_number].
    repeat split.
    + now rewrite get_set_same.
    + intros k Hk. now rewrite get_set_other.
Qed.

(** C10.  A deposit or a withdrawal that completes was made on one
    selected account: afterwards that account has the owner and the
    creation time it had, every other key of the accounts table holds
    what it held, the keys are the same in the same order, and the users
    table and the counter are untouched. *)
Theorem single_account_frame
    (customer_nic : string) (choices : list (option Z))
    (amounts : list answer) (ts : string) (st st' : bank) :
  make_deposit customer_nic choices amounts ts st = (st', Completed) \/
  make_withdrawal customer_nic choices amounts ts st = (st', Completed) ->
  exists (acc_num : string) (a a' : account),
    choose_customer_account st customer_nic choices = Selected acc_num /\
    Dict.get acc_num (accounts st) = Some a /\
    Dict.get acc_num (accounts st') = Some a' /\
    owner_nic a' = owner_nic a /\
    created_at a' = created_at a /\
    (forall k, k <> acc_num ->
               Dict.get k (accounts st') = Dict.get k (accounts st)) /\
    Dict.keys (accounts st') = Dict.keys (accounts st) /\
    users st' = users st /\
    next_account_number st' = next_account_number st.
Proof.
  intros [H|H].
  - apply make_deposit_completed in H
      as (acc_num & a & amount & Hsel & _ & Hget & _ & ->).
    exists acc_num, a, (deposited ts amount a). simpl.
    rewrite get_set_same. repeat split; auto.
    + intros k Hk. now apply get_set_other.
    + eapply keys_set_present; eauto.
  - apply make_withdrawal_completed in H
      as (acc_num & a & amount & Hsel & _ & Hget & _ & _ & ->).
    exists acc_num, a, (withdrawn ts amount a). simpl.
    rewrite get_set_same. repeat split; auto.
    + intros k Hk. now apply get_set_other.
    + eapply keys_set_present; eauto.
Qed.

(** ** Transfer *)

(** Assignments to two different keys commute when one of them is
    already a key. *)
Lemma set_comm (V : Type) (k k' : string) (v v' w : V) (d : Dict.t V) :
  k <> k' -> Dict.get k d = Some w ->
  Dict.set k v (Dict.set k' v' d) = Dict.set k' v' (Dict.set k v d).
Proof.
  intros Hne. induction d as [|[k0 v0] r IH]; simpl; [discriminate|].
  destruct (String.eqb_spec k k0) as [->|Hk]; intros Hget.
  - destruct (String.eqb_spec k' k0) as [->|Hk']; [congruence|]. simpl.
    rewrite String.eqb_refl.
    destruct (String.eqb_spec k' k0); [congruence|reflexivity].
  - destruct (String.eqb_spec k' k0) as [->|Hk']; simpl.
    + destruct (String.eqb_spec k k0); [congruence|].
      now rewrite String.eqb_refl.
    + destruct (String.eqb_spec k k0); [congruence|].
      destruct (String.eqb_spec k' k0); [congruence|].
      now rewrite IH.
Qed.

Lemma transfer_funds_run
    (customer_nic : string) (choices : list (option Z)) (recipient : string)
    (amounts : list answer) (ts_sent ts_received : string) (st : bank)
    (source_acc_num : string) (source_account : account) :
  choose_customer_account st customer_nic choices = Selected source_acc_num ->
  source_acc_num <> "" ->
  Dict.get source_acc_num (accounts st) = Some source_account ->
  transfer_funds customer_nic choices recipient amounts ts_sent ts_received st
  = let dest_acc_num := PyStr.strip recipient in
    if PyStr.is_empty dest_acc_num then (st, EmptyRecipient)
    else if String.eqb source_acc_num dest_acc_num then (st, SameAccount)
    else
      match Dict.get dest_acc_num (accounts st) with
      | None => (st, RecipientNotFound)
      | Some dest_account =>
          match prompt_positive amounts with
          | None => (st, Raised)
          | Some amount =>
              if (balance source_account <? amount)%float
              then (st, InsufficientFunds)
              else
                (with_accounts st
                   (Dict.set dest_acc_num
                      (transfer_received ts_received source_acc_num amount
                         dest_account)
                      (Dict.set source_acc_num
                         (transfer_sent ts_sent dest_acc_num amount
                            source_account)
                         (accounts st))),
                 Completed)
          end
      end.
Proof.
  intros Hsel Hne Hget. unfold transfer_funds. rewrite Hsel.
  destruct source_acc_num as [|c r]; [congruence|].
  simpl PyStr.is_empty. cbv iota zeta. rewrite Hget.
  set (src := String c r) in *. set (dst := PyStr.strip recipient).
  destruct (PyStr.is_empty dst); [reflexivity|].
  destruct (String.eqb_spec src dst) as [|Hsd]; [reflexivity|].
  destruct (Dict.get dst (accounts st)) as [da|] eqn:Hd; [|reflexivity].
  destruct (prompt_positive amounts) as [amount|]; [|reflexivity].
  destruct (balance source_account <? amount)%float; [reflexivity|].
  f_equal. f_equal.
  rewrite (set_comm _ dst src _ _ da) by auto.
  rewrite record_after_balance.
  rewrite (set_comm _ src dst _ _ source_account) by auto.
  rewrite record_after_balance. reflexivity.
Qed.

(** C2, as amended.  A transfer of the amount read at the prompt (which
    is positive) from the selected, existing source account to the
    account named at the recipient prompt.  It is refused and leaves the
    bank as it was when the recipient is the source, when the recipient
    is not a key of the accounts table, or when the amount exceeds the
    source balance.  Otherwise it completes: the source holds the
    binary64 difference of its old balance and the amount and one more
    transaction, a Transfer Sent naming the recipient; the recipient
    holds the binary64 sum of its old balance and the amount and one
    more transaction, a Transfer Received naming the source; every other
    account and the users table are as before.  The difference and the
    sum are the floats nearest to the exact ones. *)
Theorem transfer_funds_moves_amount
    (customer_nic : string) (choices : list (option Z)) (recipient : string)
    (amounts : list answer) (ts_sent ts_received : string) (st : bank)
    (source_acc_num : string) (source_account : account) (amount : float) :
  choose_customer_account st customer_nic choices = Selected source_acc_num ->
  source_acc_num <> "" ->
  Dict.get source_acc_num (accounts st) = Some source_account ->
  prompt_positive amounts = Some amount ->
  (0 <? amount)%float = true /\
  (source_acc_num = PyStr.strip recipient ->
   transfer_funds customer_nic choices recipient amounts ts_sent ts_received st
   = (st, SameAccount)) /\
  (Dict.get (PyStr.strip recipient) (accounts st) = None ->
   fst (transfer_funds customer_nic choices recipient amounts
          ts_sent ts_received st) = st /\
   snd (transfer_funds customer_nic choices recipient amounts
          ts_sent ts_received st) <> Completed) /\
  ((balance source_account <? amount)%float = true ->
   fst (transfer_funds customer_nic choices recipient amounts
          ts_sent ts_received st) = st /\
   snd (transfer_funds customer_nic choices recipient amounts
          ts_sent ts_received st) <> Completed) /\
  (forall dest_account : account,
     source_acc_num <> PyStr.strip recipient ->
     PyStr.strip recipient <> "" ->
     Dict.get (PyStr.strip recipient) (accounts st) = Some dest_account ->
     (balance source_account <? amount)%float = false ->
     exists st' : bank,
       transfer_funds customer_nic choices recipient amounts
         ts_sent ts_received st = (st', Completed) /\
       Dict.get source_acc_num (accounts st') =
         Some {| owner_nic := owner_nic source_account;
                 balance := balance source_account - amount;
                 transactions :=
                   (transactions source_account ++
                    [{| tx_timestamp := ts_sent;
                        tx_type := "Transfer Sent";
                        tx_amount := amount;
                        tx_details :=
                          [("to_account", DStr (PyStr.strip recipient))] |}])
                   %list;
                 created_at := created_at source_account |} /\
       Dict.get (PyStr.strip recipient) (accounts st') =
         Some {| owner_nic := owner_nic dest_account;
                 balance := balance dest_account + amount;
                 transactions :=
                   (transactions dest_account ++
                    [{| tx_timestamp := ts_received;
                        tx_type := "Transfer Received";
                        tx_amount := amount;
                        tx_details :=
                          [("from_account", DStr source_acc_num)] |}])%list;
                 created_at := created_at dest_account |} /\
       (forall k, k <> source_acc_num -> k <> PyStr.strip recipient ->
                  Dict.get k (accounts st') = Dict.get k (accounts st)) /\
       users st' = users st).
Proof.
  intros Hsel Hne Hget Hamt.
  pose proof (prompt_positive_positive _ _ Hamt) as Hpos.
  rewrite (transfer_funds_run _ _ recipient amounts ts_sent ts_received _ _ _
             Hsel Hne Hget).
  cbv zeta. rewrite Hamt.
  set (dst := PyStr.strip recipient).
  split; [assumption|]. split; [|split; [|split]].
  - intros <-. destruct source_acc_num; [congruence|]. simpl.
    now rewrite Ascii.eqb_refl, String.eqb_refl.
  - intros Hnone. rewrite Hnone.
    destruct (PyStr.is_empty dst); [split; [reflexivity|discriminate]|].
    destruct (String.eqb source_acc_num dst);
      split; simpl; (reflexivity || discriminate).
  - intros Hlt. rewrite Hlt.
    destruct (PyStr.is_empty dst); [split; [reflexivity|discriminate]|].
    destruct (String.eqb source_acc_num dst);
      [split; [reflexivity|discriminate]|].
    destruct (Dict.get dst (accounts st));
      split; simpl; (reflexivity || discriminate).
  - intros da Hsd Hd Hgd Hlt. rewrite Hgd, Hlt.
    destruct dst as [|c r] eqn:Edst; [congruence|]. simpl PyStr.is_empty.
    cbv iota.
    destruct (String.eqb_spec source_acc_num (String c r)); [congruence|].
    eexists. split; [reflexivity|]. simpl.
    repeat split.
    + rewrite get_set_other by auto. now rewrite get_set_same.
    + now rewrite get_set_same.
    + intros k Hk1 Hk2. now rewrite !get_set_other by auto.
Qed.

(** ** The user codec *)

(** [_deserialize_user] by the fields of the stripped line. *)
Lemma deserialize_user_split (line : string) :
  (List.length (PyStr.split DATA_DELIMITER (PyStr.strip line)) <> 7%nat ->
   _deserialize_user line = None) /\
  (forall nic p1 p2 p3 p4 role_ part : string,
     PyStr.split DATA_DELIMITER (PyStr.strip line)
       = [nic; p1; p2; p3; p4; role_; part] ->
     (role_ <> "customer" -> role_ <> "admin" ->
      _deserialize_user line = None) /\
     (role_ = "customer" ->
      _deserialize_user line =
        Some (nic,
              {| name := p1; address := p2; dob := p3; password_hash := p4;
                 role := "customer";
                 owned_accounts :=
                   Some (filter (fun acc => negb (String.eqb acc ""))
                           (PyStr.split LIST_DELIMITER part)) |})) /\
     (role_ = "admin" ->
      _deserialize_user line =
        Some (nic,
              {| name := p1; address := p2; dob := p3; password_hash := p4;
                 role := "admin"; owned_accounts := None |}))) /\
  owned_of_field "" = [].
Proof.
  unfold _deserialize_user. split; [|split; [|reflexivity]].
  - intros Hlen.
    destruct (PyStr.split DATA_DELIMITER (PyStr.strip line))
      as [|a0 [|a1 [|a2 [|a3 [|a4 [|a5 [|a6 [|a7 l]]]]]]]];
      simpl in Hlen; congruence.
  - intros nic p1 p2 p3 p4 role_ part ->. repeat split.
    + intros Hc Ha.
      destruct (String.eqb_spec role_ "customer"); [congruence|].
      destruct (String.eqb_spec role_ "admin"); congruence.
    + intros ->. simpl. do 4 f_equal. unfold owned_of_field.
      apply filter_ext. now intros [|c s].
    + intros ->. reflexivity.
Qed.

(** ** The account codec *)

(** [_deserialize_account] by the fields of the stripped line. *)
Lemma deserialize_account_split
    (float_of_str : string -> option float)
    (json_loads : string -> json_result) (line : string) :
  (List.length (PyStr.split DATA_DELIMITER (PyStr.strip line)) <> 5%nat ->
   _deserialize_account float_of_str json_loads line = AccountMalformed) /\
  (forall acc_num p1 balance_str p3 transactions_json_str : string,
     PyStr.split DATA_DELIMITER (PyStr.strip line)
       = [acc_num; p1; balance_str; p3; transactions_json_str] ->
     (json_loads transactions_json_str = JsonRaised ->
      _deserialize_account float_of_str json_loads line = AccountRaised) /\
     (json_loads transactions_json_str <> JsonRaised ->
      exists acc_data : account,
        _deserialize_account float_of_str json_loads line
          = AccountRecord acc_num acc_data /\
        owner_nic acc_data = p1 /\
        created_at acc_data = p3 /\
        (forall x, float_of_str balance_str = Some x ->
                   balance acc_data = x) /\
        (float_of_str balance_str = None -> balance acc_data = 0%float) /\
        (forall l, json_loads transactions_json_str = JsonList l ->
                   transactions acc_data = l) /\
        (json_loads transactions_json_str = JsonDecodeError ->
         transactions acc_data = []) /\
        (json_loads transactions_json_str = JsonNotList ->
         transactions acc_data = []))).
Proof.
  unfold _deserialize_account. split.
  - intros Hlen.
    destruct (PyStr.split DATA_DELIMITER (PyStr.strip line))
      as [|a0 [|a1 [|a2 [|a3 [|a4 [|a5 l]]]]]];
      simpl in Hlen; congruence.
  - intros acc_num p1 balance_str p3 transactions_json_str ->. split.
    + now intros ->.
    + intros Hr.
      destruct (json_loads transactions_json_str) as [| |l|] eqn:Ej;
        [| | |contradiction];
        (eexists; split; [reflexivity|]; simpl; repeat split;
         try discriminate; try (intros; congruence)).
      * now intros x ->.
      * now intros ->.
      * now intros x ->.
      * now intros ->.
      * now intros x ->.
      * now intros ->.
Qed.

(** ** Interest *)

Lemma nonpositive_not_positive (b : float) :
  (b <=? 0)%float = true -> (0 <? b)%float = false.
Proof.
  rewrite FloatAxioms.leb_spec, FloatAxioms.ltb_spec.
  replace (Prim2SF 0) with (S754_zero false) by reflexivity.
  unfold SFleb, SFltb.
  destruct (Prim2SF b) as [s|s| |s m e]; simpl; auto; destruct s; auto.
Qed.

Section InterestFacts.

Variable round2 : float -> float.
Variable rate : float.
Variable clock : nat -> string.

Lemma accrue_keys (items : Dict.t account) (n : nat) (total : float) :
  Dict.keys (fst (accrue round2 rate clock items n total)) = Dict.keys items.
Proof.
  revert n total. induction items as [|[k a] r IH]; intros n total; simpl.
  - reflexivity.
  - destruct (interest_earned round2 rate a) as [i|].
    + specialize (IH (S n) (total + i)%float).
      destruct (accrue round2 rate clock r (S n) (total + i)).
      simpl in *. now f_equal.
    + specialize (IH n total).
      destruct (accrue round2 rate clock r n total).
      simpl in *. now f_equal.
Qed.

Lemma accrue_totals (items : Dict.t account) (n : nat) (total : float) :
  snd (accrue round2 rate clock items n total)
  = ((n + List.length (interests round2 rate items))%nat,
     fold_left PrimFloat.add (interests round2 rate items) total).
Proof.
  revert n total. induction items as [|[k a] r IH]; intros n total; simpl.
  - now rewrite Nat.add_0_r.
  - destruct (interest_earned round2 rate a) as [i|].
    + specialize (IH (S n) (total + i)%float).
      destruct (accrue round2 rate clock r (S n) (total + i)).
      simpl in *. rewrite IH. f_equal. lia.
    + specialize (IH n total).
      destruct (accrue round2 rate clock r n total). simpl in *. exact IH.
Qed.

Lemma accrue_get (items : Dict.t account) (n : nat) (total : float)
    (k : string) (a : account) :
  Dict.get k items = Some a ->
  match interest_earned round2 rate a with
  | Some interest =>
      exists ts,
        Dict.get k (fst (accrue round2 rate clock items n total))
        = Some (credit_interest rate ts interest a)
  | None =>
      Dict.get k (fst (accrue round2 rate clock items n total)) = Some a
  end.
Proof.
  revert n total.
  induction items as [|[k0 a0] r IH]; intros n total; simpl; [discriminate|].
  destruct (String.eqb_spec k k0) as [->|Hk]; intros Hget.
  - inversion Hget; subst a0.
    destruct (interest_earned round2 rate a) as [i|].
    + destruct (accrue round2 rate clock r (S n) (total + i)). simpl.
      rewrite String.eqb_refl. eauto.
    + destruct (accrue round2 rate clock r n total). simpl.
      now rewrite String.eqb_refl.
  - destruct (interest_earned round2 rate a0) as [i0|].
    + specialize (IH (S n) (total + i0)%float Hget).
      destruct (accrue round2 rate clock r (S n) (total + i0)). simpl in *.
      destruct (String.eqb_spec k k0); [congruence|]. exact IH.
    + specialize (IH n total Hget).
      destruct (accrue round2 rate clock r n total). simpl in *.
      destruct (String.eqb_spec k k0); [congruence|]. exact IH.
Qed.

End InterestFacts.

(** C6.  Whatever [round(., 2)] computes, interest accrual keeps every
    key of the accounts table and leaves the users table alone.  An
    account whose balance is above zero and whose interest
    [round2 (balance * INTEREST_RATE)] is above zero gets that interest
    added to its balance and one Interest Applied transaction of that
    amount carrying the rate; an account whose balance is not above zero
    (in particular one whose balance is zero or negative), or whose
    interest is not above zero, is exactly as before.  The report names
    the number of accounts credited and the sum of their interests in
    table order, when an account was credited. *)
Theorem apply_interest_credits_positive_balances
    (round2 : float -> float) (clock : nat -> string) (st : bank) :
  users (fst (apply_interest_to_all_accounts round2 clock st)) = users st /\
  Dict.keys (accounts (fst (apply_interest_to_all_accounts round2 clock st)))
    = Dict.keys (accounts st) /\
  (forall k a,
     Dict.get k (accounts st) = Some a ->
     (0 <? balance a)%float = true ->
     (0 <? round2 (balance a * INTEREST_RATE))%float = true ->
     exists ts : string,
       Dict.get k
         (accounts (fst (apply_interest_to_all_accounts round2 clock st)))
       = Some {| owner_nic := owner_nic a;
                 balance :=
                   (balance a + round2 (balance a * INTEREST_RATE))%float;
                 transactions :=
                   (transactions a ++
                    [{| tx_timestamp := ts;
                        tx_type := "Interest Applied";
                        tx_amount := round2 (balance a * INTEREST_RATE)%float;
                        tx_details := [("rate", DNum INTEREST_RATE)] |}])
                   %list;
                 created_at := created_at a |}) /\
  (forall k a,
     Dict.get k (accounts st) = Some a ->
     (0 <? balance a)%float = false \/
     (balance a <=? 0)%float = true \/
     (0 <? round2 (balance a * INTEREST_RATE))%float = false ->
     Dict.get k
       (accounts (fst (apply_interest_to_all_accounts round2 clock st)))
     = Some a) /\
  snd (apply_interest_to_all_accounts round2 clock st)
  = match accounts st,
          List.length (interests round2 INTEREST_RATE (accounts st)) with
    | [], _ => NoAccountsInSystem
    | _, O => NoInterestApplied
    | _, S n =>
        InterestApplied (S n)
          (fold_left PrimFloat.add
             (interests round2 INTEREST_RATE (accounts st)) 0%float)
    end.
Proof.
  unfold apply_interest_to_all_accounts.
  destruct (accounts st) as [|e r] eqn:Hacc.
  { simpl. rewrite Hacc. repeat split; auto; intros; discriminate. }
  cbv iota. set (items := e :: r) in *.
  pose proof (accrue_keys round2 INTEREST_RATE clock items 0 0) as Hk.
  pose proof (accrue_totals round2 INTEREST_RATE clock items 0 0) as Ht.
  pose proof (fun k a => accrue_get round2 INTEREST_RATE clock items 0 0 k a)
    as Hg.
  destruct (accrue round2 INTEREST_RATE clock items 0 0)
    as [accts [n total]].
  cbn [fst snd] in Hk, Ht, Hg. apply pair_equal_spec in Ht as [-> ->].
  cbn [fst snd users accounts with_accounts].
  split; [reflexivity|]. split; [exact Hk|]. split; [|split].
  - intros k a Hget Hb Hi. specialize (Hg k a Hget).
    unfold interest_earned in Hg. rewrite Hb, Hi in Hg. exact Hg.
  - intros k a Hget Hcase. specialize (Hg k a Hget).
    unfold interest_earned in Hg.
    destruct Hcase as [Hb|[Hb|Hi]].
    + now rewrite Hb in Hg.
    + now rewrite (nonpositive_not_positive _ Hb) in Hg.
    + rewrite Hi in Hg. now destruct (0 <? balance a)%float.
  - destruct (List.length (interests round2 INTEREST_RATE items));
      subst items; reflexivity.
Qed.

(** ** The operations on the demo bank *)

Example demo_bank_accounts :
  accounts demo_bank = [("1001", demo_account_x); ("1002", demo_account_y)]
  /\ next_account_number demo_bank = 1003%N
  /\ option_map owned_accounts (Dict.get "X" (users demo_bank))
     = Some (Some ["1001"]).
Proof. repeat split. Qed.

(** Withdrawing 30.00 out of 100.00 leaves 70.00. *)
Lemma make_withdrawal_checks_funds_witness :
  snd (make_withdrawal "X" [] [Number 0; Number 30] "2024-01-02 09:00:00"
         demo_bank) = Completed /\
  Dict.get "1001"
    (accounts
       (fst (make_withdrawal "X" [] [Number 0; Number 30]
               "2024-01-02 09:00:00" demo_bank)))
  = Some {| owner_nic := "X"; balance := 70;
            transactions :=
              [{| tx_timestamp := demo_time; tx_type := "Initial Deposit";
                  tx_amount := 100; tx_details := [] |};
               {| tx_timestamp := "2024-01-02 09:00:00";
                  tx_type := "Withdrawal";
                  tx_amount := 30; tx_details := [] |}];
            created_at := demo_time |}.
Proof.
  assert ("1001" <> "") as Hne by discriminate.
  destruct (make_withdrawal_checks_funds "X" [] [Number 0; Number 30]
              "2024-01-02 09:00:00" demo_bank "1001" demo_account_x 30
              eq_refl Hne eq_refl eq_refl)
    as (_ & _ & H).
  destruct (H eq_refl) as (Hc & Hg & _). split; [exact Hc|exact Hg].
Defined.

(** A deposit by [X] leaves the account of [Y] as it was. *)
Lemma single_account_frame_witness :
  Dict.get "1002"
    (accounts (fst (make_deposit "X" [] [Number 25] "2024-01-02 09:00:00"
                      demo_bank)))
  = Some demo_account_y.
Proof.
  destruct (single_account_frame "X" [] [Number 25] "2024-01-02 09:00:00"
              demo_bank
              (fst (make_deposit "X" [] [Number 25] "2024-01-02 09:00:00"
                      demo_bank))
              (or_introl eq_refl))
    as (acc_num & a & a' & Hsel & _ & _ & _ & _ & Hother & _).
  rewrite Hother.
  - reflexivity.
  - intros <-. discriminate Hsel.
Defined.

(** Moving 50.00 from the account of [X] to the account of [Y]. *)
Lemma transfer_funds_moves_amount_witness :
  exists st' : bank,
    transfer_funds "X" [] " 1002 " [Blank; Number 50]
      "2024-01-02 09:00:00" "2024-01-02 09:00:01" demo_bank
    = (st', Completed) /\
    option_map balance (Dict.get "1001" (accounts st')) = Some 50%float /\
    option_map balance (Dict.get "1002" (accounts st')) = Some 50%float.
Proof.
  assert ("1001" <> "") as Hne by discriminate.
  destruct (transfer_funds_moves_amount "X" [] " 1002 " [Blank; Number 50]
              "2024-01-02 09:00:00" "2024-01-02 09:00:01" demo_bank
              "1001" demo_account_x 50 eq_refl Hne eq_refl eq_refl)
    as (_ & _ & _ & _ & H).
  assert ("1001" <> PyStr.strip " 1002 ") as Hsd by discriminate.
  assert (PyStr.strip " 1002 " <> "") as Hd by discriminate.
  destruct (H demo_account_y Hsd Hd eq_refl eq_refl)
    as (st' & Hrun & Hsrc & Hdst & _).
  exists st'. split; [exact Hrun|].
  change (PyStr.strip " 1002 ") with "1002" in Hdst.
  rewrite Hsrc, Hdst. split; reflexivity.
Defined.

(** ** Splitting what was joined *)

Lemma append_assoc (a b c : string) : (a ++ b) ++ c = a ++ (b ++ c).
Proof. induction a as [|x a IH]; simpl; [reflexivity|now rewrite IH]. Qed.

Lemma append_empty_r (a : string) : a ++ "" = a.
Proof. induction a as [|x a IH]; simpl; [reflexivity|now rewrite IH]. Qed.

Lemma startswith_append (p rest : string) :
  PyStr.startswith p (p ++ rest) = true.
Proof.
  induction p as [|x p IH]; simpl; [reflexivity|].
  now rewrite Ascii.eqb_refl.
Qed.

Lemma startswith_long (p a b : string) :
  (String.length p <= String.length a)%nat ->
  PyStr.startswith p (a ++ b) = PyStr.startswith p a.
Proof.
  revert a. induction p as [|x p IH]; intros a H; [reflexivity|].
  destruct a as [|y a]; simpl in *; [lia|].
  rewrite IH by lia. reflexivity.
Qed.

Lemma startswith_more (p s t : string) :
  PyStr.startswith p s = true -> PyStr.startswith p (s ++ t) = true.
Proof.
  revert s. induction p as [|a p IH]; intros s H; [reflexivity|].
  destruct s as [|b s]; [discriminate|]. simpl in *.
  apply andb_true_iff in H as [-> H]. simpl. now apply IH.
Qed.

Lemma append_length (a b : string) :
  String.length (a ++ b) = (String.length a + String.length b)%nat.
Proof. induction a as [|x a IH]; simpl; [reflexivity|now rewrite IH]. Qed.

Lemma startswith_prefix (p s : string) :
  PyStr.startswith p s = true -> exists rest, s = p ++ rest.
Proof.
  revert s. induction p as [|a p IH]; intros s H.
  - now exists s.
  - destruct s as [|b s]; [discriminate|]. simpl in H.
    apply andb_true_iff in H as [Hab H].
    apply Ascii.eqb_eq in Hab as ->.
    destruct (IH s H) as [rest ->]. now exists rest.
Qed.

Section SplitJoin.

(** A separator that begins with [c0]. *)
Variable c0 : ascii.
Variable sep' : string.

Let sep : string := String c0 sep'.

(** While a separator is passed over, nothing is added to the field. *)
Lemma split_from_skip (p cur rest : string) :
  PyStr.split_from sep (String.length p) cur (p ++ rest)
  = PyStr.split_from sep 0 cur rest.
Proof.
  induction p as [|x p IH]; simpl.
  - now destruct rest.
  - exact IH.
Qed.

(** A separator ends the field. *)
Lemma split_from_separator (cur rest : string) :
  PyStr.split_from sep 0 cur (sep ++ rest)
  = cur :: PyStr.split_from sep 0 "" rest.
Proof.
  unfold sep. simpl. rewrite Ascii.eqb_refl, startswith_append. simpl.
  rewrite Nat.sub_0_r. now rewrite split_from_skip.
Qed.

(** A field that frames cleanly is read up to the separator that
    follows it. *)
Lemma split_from_framed (f cur rest : string) :
  frames_cleanly sep f = true ->
  PyStr.split_from sep 0 cur (f ++ sep ++ rest)
  = (cur ++ f) :: PyStr.split_from sep 0 "" rest.
Proof.
  revert cur. induction f as [|x f IH]; intros cur Hf.
  - rewrite append_empty_r. apply split_from_separator.
  - change (frames_cleanly sep (String x f))
      with (negb (PyStr.startswith sep (String x f ++ sep))
            && frames_cleanly sep f) in Hf.
    apply andb_true_iff in Hf as [Hx Hf]. apply negb_true_iff in Hx.
    change (String x f ++ sep ++ rest) with (String x (f ++ sep ++ rest)).
    cbn [PyStr.split_from].
    replace (PyStr.startswith sep (String x (f ++ sep ++ rest))) with false.
    + rewrite IH by assumption. now rewrite append_assoc.
    + rewrite <- Hx.
      change (String x (f ++ sep ++ rest))
        with (String x f ++ (sep ++ rest)).
      rewrite <- append_assoc. symmetry. apply startswith_long.
      rewrite append_length. simpl. lia.
Qed.

(** A field that frames cleanly holds no separator. *)
Lemma frames_cleanly_contains (f : string) :
  frames_cleanly sep f = true -> PyStr.contains sep f = false.
Proof.
  induction f as [|x f IH]; [reflexivity|].
  change (frames_cleanly sep (String x f))
    with (negb (PyStr.startswith sep (String x f ++ sep))
          && frames_cleanly sep f).
  intros H. apply andb_true_iff in H as [Hx Hf]. apply negb_true_iff in Hx.
  change (PyStr.contains sep (String x f))
    with (PyStr.startswith sep (String x f) || PyStr.contains sep f).
  rewrite (IH Hf), orb_false_r.
  destruct (PyStr.startswith sep (String x f)) eqn:E; [|reflexivity].
  rewrite <- Hx. symmetry. now apply startswith_more.
Qed.

(** The last field is read to the end of the line. *)
Lemma split_from_last (f cur : string) :
  PyStr.contains sep f = false ->
  PyStr.split_from sep 0 cur f = [cur ++ f].
Proof.
  revert cur. induction f as [|x f IH]; intros cur Hf.
  - now rewrite append_empty_r.
  - change (PyStr.contains sep (String x f))
      with (PyStr.startswith sep (String x f) || PyStr.contains sep f) in Hf.
    apply orb_false_iff in Hf as [Hx Hf].
    cbn [PyStr.split_from]. rewrite Hx, IH by assumption.
    now rewrite append_assoc.
Qed.

Lemma split_join (fields : list string) :
  fields <> [] ->
  Forall (fun f => frames_cleanly sep f = true) fields ->
  PyStr.split sep (PyStr.join sep fields) = fields.
Proof.
  unfold PyStr.split. intros Hne Hall.
  induction Hall as [|f [|g r] Hf Hall IH]; [congruence| |].
  - simpl. now rewrite split_from_last by (now apply frames_cleanly_contains).
  - change (PyStr.join sep (f :: g :: r))
      with (f ++ sep ++ PyStr.join sep (g :: r)).
    rewrite split_from_framed by assumption. simpl append.
    f_equal. apply IH. discriminate.
Qed.

(** The same when the last field merely holds no separator. *)
Lemma split_join_open (fields : list string) :
  fields <> [] ->
  Forall (fun f => frames_cleanly sep f = true) (removelast fields) ->
  PyStr.contains sep (last fields "") = false ->
  PyStr.split sep (PyStr.join sep fields) = fields.
Proof.
  unfold PyStr.split. intros Hne.
  induction fields as [|f [|g r] IH]; [congruence| |]; intros Hall Hlast.
  - simpl in *. now rewrite split_from_last.
  - change (PyStr.join sep (f :: g :: r))
      with (f ++ sep ++ PyStr.join sep (g :: r)).
    change (removelast (f :: g :: r)) with (f :: removelast (g :: r)) in Hall.
    change (last (f :: g :: r) "") with (last (g :: r) "") in Hlast.
    inversion Hall; subst.
    rewrite split_from_framed by assumption. simpl append.
    f_equal. apply IH; [discriminate|assumption|assumption].
Qed.

(** A field without the first character of the separator frames
    cleanly. *)
Lemma has_char_frames (f : string) :
  PyStr.has_char c0 f = false -> frames_cleanly sep f = true.
Proof.
  induction f as [|x f IH]; [reflexivity|].
  simpl. intros H. apply orb_false_iff in H as [Hx Hf].
  rewrite Ascii.eqb_sym in Hx. rewrite Hx. simpl. now apply IH.
Qed.

Lemma clear_before_frames (cur rest : string) :
  clear_before sep cur (sep ++ rest) = true -> frames_cleanly sep cur = true.
Proof.
  induction cur as [|x cur IH]; [reflexivity|].
  cbn [clear_before frames_cleanly]. intros H.
  apply andb_true_iff in H as [Hx H]. rewrite (IH H), andb_true_r.
  rewrite <- Hx. f_equal. rewrite <- append_assoc. symmetry.
  apply startswith_long. rewrite append_length. simpl. lia.
Qed.

Lemma clear_before_contains (cur : string) :
  clear_before sep cur "" = true -> PyStr.contains sep cur = false.
Proof.
  induction cur as [|x cur IH]; [reflexivity|].
  cbn [clear_before]. intros H. apply andb_true_iff in H as [Hx H].
  rewrite append_empty_r in Hx. apply negb_true_iff in Hx.
  change (PyStr.contains sep (String x cur))
    with (PyStr.startswith sep (String x cur) || PyStr.contains sep cur).
  now rewrite Hx, (IH H).
Qed.

Lemma clear_before_snoc (cur : string) (c : ascii) (r : string) :
  PyStr.startswith sep (String c r) = false ->
  clear_before sep cur (String c r) = true ->
  clear_before sep (cur ++ String c "") r = true.
Proof.
  intros Hc. induction cur as [|x cur IH].
  - intros _. cbn [append clear_before]. now rewrite Hc.
  - cbn [clear_before append]. intros H.
    apply andb_true_iff in H as [Hx H]. rewrite (IH H), andb_true_r.
    rewrite <- Hx. f_equal.
    change (String x (cur ++ String c "") ++ r)
      with (String x ((cur ++ String c "") ++ r)).
    now rewrite append_assoc.
Qed.

Lemma join_cons (x : string) (l : list string) :
  l <> [] -> PyStr.join sep (x :: l) = x ++ sep ++ PyStr.join sep l.
Proof. destruct l; [congruence|reflexivity]. Qed.

(** What [split_from] reads is framed, and joined again it is what was
    read. *)
Lemma split_from_framed_fields (n : nat) (s cur : string) :
  (String.length s <= n)%nat ->
  clear_before sep cur s = true ->
  framed sep (PyStr.split_from sep 0 cur s) /\
  PyStr.join sep (PyStr.split_from sep 0 cur s) = cur ++ s.
Proof.
  revert s cur. induction n as [|n IH]; intros s cur Hn Hcur.
  - destruct s; [|simpl in Hn; lia]. simpl.
    rewrite append_empty_r. split; [|reflexivity].
    split; [discriminate|]. split; [constructor|].
    now apply clear_before_contains.
  - destruct s as [|c r].
    + simpl. rewrite append_empty_r. split; [|reflexivity].
      split; [discriminate|]. split; [constructor|].
      now apply clear_before_contains.
    + destruct (PyStr.startswith sep (String c r)) eqn:Hs.
      * destruct (startswith_prefix _ _ Hs) as [rest E]. rewrite E in *.
        rewrite split_from_separator.
        assert (String.length rest <= n)%nat as Hrest.
        { rewrite append_length in Hn. unfold sep in Hn. simpl in Hn. lia. }
        destruct (IH rest "" Hrest eq_refl) as ((Hne & Hall & Hlast) & Hj).
        split.
        -- split; [discriminate|].
           destruct (PyStr.split_from sep 0 "" rest) as [|f fs] eqn:Ef;
             [congruence|].
           split; [|exact Hlast].
           change (removelast (cur :: f :: fs))
             with (cur :: removelast (f :: fs)).
           constructor; [|exact Hall].
           now apply (clear_before_frames cur rest).
        -- rewrite join_cons by assumption. now rewrite Hj.
      * cbn [PyStr.split_from]. rewrite Hs.
        assert (String.length r <= n)%nat as Hr by (simpl in Hn; lia).
        destruct (IH r (cur ++ String c "") Hr
                    (clear_before_snoc cur c r Hs Hcur)) as (Hf & Hj).
        split; [exact Hf|]. rewrite Hj. now rewrite append_assoc.
Qed.

(** Every text is its fields joined, and its fields are framed. *)
Lemma split_framed (s : string) :
  framed sep (PyStr.split sep s) /\ PyStr.join sep (PyStr.split sep s) = s.
Proof.
  exact (split_from_framed_fields (String.length s) s "" (le_n _) eq_refl).
Qed.

End SplitJoin.

(** A field that holds no [DATA_DELIMITER] and does not end with
    [DELIMITER_HEAD] frames cleanly. *)
Lemma clear_of_delimiter_frames (f : string) :
  clear_of_delimiter f = true -> frames_cleanly DATA_DELIMITER f = true.
Proof.
  unfold clear_of_delimiter. intros H.
  apply andb_true_iff in H as [Hc He]. apply negb_true_iff in Hc, He.
  induction f as [|x f IH]; [reflexivity|].
  change (PyStr.contains DATA_DELIMITER (String x f))
    with (PyStr.startswith DATA_DELIMITER (String x f)
          || PyStr.contains DATA_DELIMITER f) in Hc.
  apply orb_false_iff in Hc as [Hx Hc].
  change (PyStr.endswith DELIMITER_HEAD (String x f))
    with (String.eqb DELIMITER_HEAD (String x f)
          || PyStr.endswith DELIMITER_HEAD f) in He.
  apply orb_false_iff in He as [Hex He].
  change (frames_cleanly DATA_DELIMITER (String x f))
    with (negb (PyStr.startswith DATA_DELIMITER
                  (String x f ++ DATA_DELIMITER))
          && frames_cleanly DATA_DELIMITER f).
  rewrite (IH Hc He), andb_true_r. apply negb_true_iff.
  destruct f as [|y [|z f]].
  - unfold DATA_DELIMITER. cbn [append PyStr.startswith].
    destruct (Ascii.eqb "|" x); reflexivity.
  - unfold DATA_DELIMITER. cbn [append PyStr.startswith].
    destruct (Ascii.eqb_spec "|"%char x) as [<-|Hn]; [|reflexivity].
    destruct (Ascii.eqb_spec "~"%char y) as [<-|Hn']; [|reflexivity].
    vm_compute in Hex. discriminate Hex.
  - rewrite <- Hx.
    change (String x (String y (String z f)) ++ DATA_DELIMITER)
      with (String x (String y (String z "")) ++ (f ++ DATA_DELIMITER)).
    change (String x (String y (String z f)))
      with (String x (String y (String z "")) ++ f).
    now rewrite !startswith_long by (simpl; lia).
Qed.

(** ** Characters of a text *)

Lemma all_chars_append (p : ascii -> bool) (a b : string) :
  all_chars p (a ++ b) = all_chars p a && all_chars p b.
Proof.
  induction a as [|x a IH]; simpl; [reflexivity|].
  now rewrite IH, andb_assoc.
Qed.

Lemma all_chars_impl (p q : ascii -> bool) (s : string) :
  (forall c, p c = true -> q c = true) ->
  all_chars p s = true -> all_chars q s = true.
Proof.
  intros Hpq. induction s as [|x s IH]; simpl; [reflexivity|].
  intros H. apply andb_true_iff in H as [Hx Hs].
  now rewrite (Hpq _ Hx), IH.
Qed.

Lemma all_chars_join (p : ascii -> bool) (sep : string) (l : list string) :
  all_chars p sep = true ->
  Forall (fun f => all_chars p f = true) l ->
  all_chars p (PyStr.join sep l) = true.
Proof.
  intros Hsep Hall. induction Hall as [|f [|g r] Hf Hall IH]; simpl; auto.
  rewrite !all_chars_append, Hf, Hsep. exact IH.
Qed.

(** A text made of characters other than [c] does not hold [c]. *)
Lemma all_chars_has_char (p : ascii -> bool) (c : ascii) (s : string) :
  p c = false -> all_chars p s = true -> PyStr.has_char c s = false.
Proof.
  intros Hc. induction s as [|x s IH]; simpl; [reflexivity|].
  intros H. apply andb_true_iff in H as [Hx Hs].
  rewrite (IH Hs), orb_false_r.
  destruct (Ascii.eqb_spec x c) as [->|]; congruence.
Qed.

Lemma digit_not_space (c : ascii) : is_digit c = true -> not_space c = true.
Proof.
  unfold is_digit, not_space, PyStr.is_space.
  intros H. apply andb_true_iff in H as [H1 H2].
  apply Nat.leb_le in H1, H2. apply negb_true_iff, orb_false_iff.
  split; apply andb_false_iff.
  - right. apply Nat.leb_gt. lia.
  - right. apply Nat.leb_gt. lia.
Qed.

Lemma hex_digit_not_bar (c : ascii) :
  is_hex_digit c = true -> Ascii.eqb c bar = false.
Proof.
  intros H. destruct (Ascii.eqb_spec c bar) as [->|]; [|reflexivity].
  discriminate H.
Qed.

Lemma digit_is_hex (c : ascii) : is_digit c = true -> is_hex_digit c = true.
Proof. unfold is_hex_digit. now intros ->. Qed.

(** ** Stripping what needs no stripping *)

Lemma rstrip_fixed (s : string) : last_is_space s = false -> PyStr.rstrip s = s.
Proof.
  induction s as [|c r IH]; [reflexivity|].
  destruct r as [|d r'].
  - simpl. now intros ->.
  - intros H. change (last_is_space (String d r') = false) in H.
    change (PyStr.rstrip (String c (String d r')))
      with (match PyStr.rstrip (String d r') with
            | EmptyString =>
                if PyStr.is_space c then EmptyString
                else String c EmptyString
            | r0 => String c r0
            end).
    now rewrite (IH H).
Qed.

Lemma last_is_space_append (a b : string) :
  b <> "" -> last_is_space (a ++ b) = last_is_space b.
Proof.
  intros Hb. induction a as [|x a IH]; [reflexivity|].
  simpl append.
  destruct (a ++ b) as [|y t] eqn:E.
  - destruct a; [simpl in E; congruence|discriminate].
  - exact IH.
Qed.

Lemma no_space_last (s : string) :
  all_chars not_space s = true -> last_is_space s = false.
Proof.
  induction s as [|c r IH]; [reflexivity|].
  simpl. intros H. apply andb_true_iff in H as [Hc Hr].
  destruct r; [now apply negb_true_iff|auto].
Qed.

Lemma rstrip_length (s : string) :
  (String.length (PyStr.rstrip s) <= String.length s)%nat.
Proof.
  induction s as [|c r IH]; simpl; [lia|].
  destruct (PyStr.rstrip r); [destruct (PyStr.is_space c)|]; simpl in *; lia.
Qed.

Lemma lstrip_length (s : string) :
  (String.length (PyStr.lstrip s) <= String.length s)%nat.
Proof.
  induction s as [|c r IH]; simpl; [lia|].
  destruct (PyStr.is_space c); simpl; lia.
Qed.

(** A stripped text does not begin with a space. *)
Lemma stripped_first (c : ascii) (r : string) :
  is_stripped (String c r) = true -> PyStr.is_space c = false.
Proof.
  unfold is_stripped, PyStr.strip. intros H. apply String.eqb_eq in H.
  destruct (PyStr.is_space c) eqn:E; [|reflexivity].
  apply (f_equal String.length) in H. simpl in H. rewrite E in H.
  pose proof (rstrip_length (PyStr.lstrip r)).
  pose proof (lstrip_length r). lia.
Qed.

(** A line that begins with a character that is not a space, and does
    not end with a space, is its own [strip]. *)
Lemma strip_fixed (c : ascii) (r : string) :
  PyStr.is_space c = false -> last_is_space (String c r) = false ->
  PyStr.strip (String c r) = String c r.
Proof.
  intros Hc Hl. unfold PyStr.strip. simpl PyStr.lstrip. rewrite Hc.
  now apply rstrip_fixed.
Qed.

Lemma join_not_empty (sep : string) (x y : string) (l : list string) :
  sep <> "" -> PyStr.join sep (x :: y :: l) <> "".
Proof.
  intros Hsep H. change (x ++ sep ++ PyStr.join sep (y :: l) = "") in H.
  destruct x; [|discriminate]. destruct sep; [congruence|discriminate].
Qed.

(** A line of two fields or more ends as its separator and last field do. *)
Lemma last_is_space_join (sep : string) (x y : string) (l : list string) :
  sep <> "" -> all_chars not_space sep = true ->
  last_is_space (last (y :: l) "") = false ->
  last_is_space (PyStr.join sep (x :: y :: l)) = false.
Proof.
  intros Hsep Hns. revert x y. induction l as [|z l IH]; intros x y Hlast.
  - change (PyStr.join sep [x; y]) with (x ++ sep ++ y).
    rewrite last_is_space_append by (destruct sep; [congruence|discriminate]).
    destruct y as [|d y].
    + rewrite append_empty_r. now apply no_space_last.
    + rewrite last_is_space_append by discriminate. exact Hlast.
  - change (PyStr.join sep (x :: y :: z :: l))
      with (x ++ sep ++ PyStr.join sep (y :: z :: l)).
    rewrite last_is_space_append by (destruct sep; [congruence|discriminate]).
    rewrite last_is_space_append by (now apply join_not_empty).
    apply IH. exact Hlast.
Qed.

(** ** The user codec, round trip *)

Lemma valid_dob_bar_free (s : string) :
  is_valid_dob s = true -> PyStr.has_char bar s = false.
Proof.
  unfold is_valid_dob.
  do 10 (destruct s as [|? s]; [discriminate|]).
  destruct s; [|discriminate].
  intros H. do 9 (apply andb_true_iff in H as [H ?]).
  simpl.
  repeat match goal with
         | E : is_digit ?c = true |- context [Ascii.eqb ?c bar] =>
             rewrite (hex_digit_not_bar c (digit_is_hex c E))
         | E : Ascii.eqb ?c "-" = true |- context [Ascii.eqb ?c bar] =>
             apply Ascii.eqb_eq in E; subst c
         end.
  reflexivity.
Qed.

Lemma account_number_facts (s : string) :
  is_account_number s = true ->
  s <> "" /\ PyStr.has_char ";" s = false /\ PyStr.has_char bar s = false
  /\ all_chars not_space s = true.
Proof.
  unfold is_account_number. intros H. apply andb_true_iff in H as [Hne Hd].
  repeat split.
  - intros ->. discriminate.
  - now apply (all_chars_has_char is_digit).
  - now apply (all_chars_has_char is_digit).
  - eapply all_chars_impl; [apply digit_not_space|assumption].
Qed.

(** The owned-accounts field decodes to the list it was made of. *)
Lemma owned_of_field_join (l : list string) :
  forallb is_account_number l = true ->
  owned_of_field (PyStr.join LIST_DELIMITER l) = l.
Proof.
  intros H. rewrite forallb_forall in H.
  destruct l as [|x l]; [reflexivity|].
  unfold owned_of_field, LIST_DELIMITER.
  rewrite (split_join ";" "") by
    (try discriminate; apply Forall_forall; intros f Hf;
     now apply has_char_frames, account_number_facts, H).
  apply forallb_filter_id. apply forallb_forall. intros f Hf.
  destruct (account_number_facts f (H f Hf)) as [Hne _].
  now destruct f.
Qed.

(** The owned-accounts field holds neither a [|] nor a space. *)
Lemma owned_field_chars (l : list string) :
  forallb is_account_number l = true ->
  PyStr.has_char bar (PyStr.join LIST_DELIMITER l) = false /\
  all_chars not_space (PyStr.join LIST_DELIMITER l) = true.
Proof.
  intros H. rewrite forallb_forall in H. split.
  - apply (all_chars_has_char
             (fun c => negb (Ascii.eqb c bar))); [reflexivity|].
    apply all_chars_join; [reflexivity|].
    apply Forall_forall. intros f Hf.
    destruct (account_number_facts f (H f Hf)) as (_ & _ & Hb & _).
    clear - Hb. induction f as [|c f IH]; [reflexivity|]. simpl in *.
    apply orb_false_iff in Hb as [-> Hb]. simpl. auto.
  - apply all_chars_join; [reflexivity|].
    apply Forall_forall. intros f Hf.
    now apply account_number_facts, H.
Qed.

(** Two fields or more that frame cleanly, the first beginning with a
    character that is not a space and the last not ending with one, are
    read back from their line. *)
Lemma data_line_fields (c : ascii) (r : string) (rest : list string)
    (y : string) (l : list string) :
  rest = y :: l ->
  PyStr.is_space c = false ->
  Forall (fun f => frames_cleanly DATA_DELIMITER f = true)
    (removelast (String c r :: rest)) ->
  PyStr.contains DATA_DELIMITER (last rest "") = false ->
  last_is_space (last rest "") = false ->
  PyStr.split DATA_DELIMITER
    (PyStr.strip (PyStr.join DATA_DELIMITER (String c r :: rest)))
  = String c r :: rest.
Proof.
  intros -> Hc Hframes Hopen Hlast.
  assert (PyStr.strip (PyStr.join DATA_DELIMITER (String c r :: y :: l))
          = PyStr.join DATA_DELIMITER (String c r :: y :: l)) as ->.
  { change (PyStr.join DATA_DELIMITER (String c r :: y :: l))
      with (String c (r ++ DATA_DELIMITER
                        ++ PyStr.join DATA_DELIMITER (y :: l))).
    apply strip_fixed; [assumption|].
    change (String c (r ++ DATA_DELIMITER
                        ++ PyStr.join DATA_DELIMITER (y :: l)))
      with (PyStr.join DATA_DELIMITER (String c r :: y :: l)).
    apply last_is_space_join; [discriminate|reflexivity|assumption]. }
  apply (split_join_open bar "~|"); [discriminate|assumption|assumption].
Qed.

Lemma bar_free_frames (f : string) :
  PyStr.has_char bar f = false -> frames_cleanly DATA_DELIMITER f = true.
Proof. apply (has_char_frames bar "~|"). Qed.

Lemma clear_frames (f : string) :
  free_of_delimiters f = true ->
  PyStr.endswith DELIMITER_HEAD f = false ->
  frames_cleanly DATA_DELIMITER f = true.
Proof.
  unfold free_of_delimiters. intros H He.
  apply negb_true_iff, orb_false_iff in H as [Hc _].
  apply clear_of_delimiter_frames. unfold clear_of_delimiter.
  now rewrite Hc, He.
Qed.

Lemma user_round_trip (nic : string) (user_data : user) :
  well_formed_user nic user_data = true ->
  clear_tails_user nic user_data = true ->
  _deserialize_user (_serialize_user nic user_data) = Some (nic, user_data).
Proof.
  destruct user_data as [nm ad db ph rl ow].
  unfold well_formed_user, clear_tails_user. simpl.
  intros Hwf Htail.
  do 2 (apply andb_true_iff in Htail as [Htail ?]).
  do 9 (apply andb_true_iff in Hwf as [Hwf ?]).
  repeat match goal with
         | E : negb _ = true |- _ => apply negb_true_iff in E
         end.
  destruct nic as [|c r]; [discriminate|].
  assert (PyStr.is_space c = false) as Hc
      by (eapply stripped_first; eassumption).
  assert (frames_cleanly DATA_DELIMITER (String c r) = true) as Fnic
      by (now apply clear_frames).
  assert (frames_cleanly DATA_DELIMITER nm = true) as Fnm
      by (now apply clear_frames).
  assert (frames_cleanly DATA_DELIMITER ad = true) as Fad
      by (now apply clear_frames).
  assert (frames_cleanly DATA_DELIMITER db = true) as Fdb
      by (now apply bar_free_frames, valid_dob_bar_free).
  assert (frames_cleanly DATA_DELIMITER ph = true) as Fph.
  { apply bar_free_frames.
    match goal with
    | E : is_sha256_hex ph = true |- _ =>
        apply andb_true_iff in E as [_ E];
        now apply (all_chars_has_char is_hex_digit)
    end. }
  unfold _serialize_user, _deserialize_user. simpl role.
  destruct ow as [l|].
  - match goal with
    | E : _ && forallb _ _ = true |- _ => apply andb_true_iff in E as [Er El]
    end.
    apply String.eqb_eq in Er. subst rl.
    simpl String.eqb. cbv iota. unfold owned_or_empty. simpl owned_accounts.
    destruct (owned_field_chars l El) as [Hob Hos].
    apply no_space_last in Hos.
    apply bar_free_frames, (frames_cleanly_contains bar "~|") in Hob.
    rewrite (data_line_fields c r _ nm
               [ad; db; ph; "customer"; PyStr.join LIST_DELIMITER l])
      by (auto; repeat constructor; auto).
    simpl String.eqb. cbv iota.
    now rewrite (owned_of_field_join l El).
  - match goal with
    | E : String.eqb rl "admin" = true |- _ => apply String.eqb_eq in E
    end.
    subst rl. simpl String.eqb. cbv iota.
    rewrite (data_line_fields c r _ nm [ad; db; ph; "admin"; ""])
      by (auto; repeat constructor; auto).
    reflexivity.
Qed.

(** ** The account codec, round trip *)

Lemma account_round_trip
    (float_str : float -> string) (float_of_str : string -> option float)
    (json_dumps : list transaction -> string)
    (json_loads : string -> json_result)
    (acc_num : string) (acc_data : account) :
  well_formed_account float_str float_of_str json_dumps json_loads
    acc_num acc_data ->
  clear_tails_account float_str acc_data ->
  _deserialize_account float_of_str json_loads
    (_serialize_account float_str json_dumps acc_num acc_data)
  = AccountRecord acc_num acc_data.
Proof.
  destruct acc_data as [ow b txs cr].
  unfold well_formed_account, clear_tails_account. simpl.
  intros (Hnum & Hco & Hcc & Hcf & Hcj & Hlast & Hfloat & Hjson)
         (Heo & Hec & Hef).
  destruct (account_number_facts acc_num Hnum) as (Hne & _ & Hbn & Hns).
  destruct acc_num as [|c r]; [congruence|].
  assert (PyStr.is_space c = false) as Hc.
  { simpl in Hns. apply andb_true_iff in Hns as [Hns _].
    now apply negb_true_iff. }
  assert (forall f, PyStr.contains DATA_DELIMITER f = false ->
                    PyStr.endswith DELIMITER_HEAD f = false ->
                    frames_cleanly DATA_DELIMITER f = true) as Hframes.
  { intros f H1 H2. apply clear_of_delimiter_frames.
    unfold clear_of_delimiter. now rewrite H1, H2. }
  unfold _serialize_account, _deserialize_account.
  cbn [owner_nic balance transactions created_at].
  assert (PyStr.split DATA_DELIMITER
            (PyStr.strip
               (PyStr.join DATA_DELIMITER
                  [String c r; ow; float_str b; cr; json_dumps txs]))
          = [String c r; ow; float_str b; cr; json_dumps txs]) as ->.
  { apply (data_line_fields c r _ ow [float_str b; cr; json_dumps txs]);
      auto.
    repeat constructor; auto. now apply bar_free_frames. }
  now rewrite Hfloat, Hjson.
Qed.

(** The round trip of a customer with two accounts, and of the empty
    account of the demo bank. *)
Example codec_round_trip_examples :
  _deserialize_user (_serialize_user "X" demo_user_x)
  = Some ("X", demo_user_x) /\
  _deserialize_account demo_float_of_str demo_json_loads
    (_serialize_account demo_float_str demo_json_dumps "1002" demo_account_y)
  = AccountRecord "1002" demo_account_y.
Proof.
  split.
  - apply user_round_trip; reflexivity.
  - apply account_round_trip; repeat split.
Qed.

(** ** Registered, and not read back *)

(** C5, at the inputs where the program departs from it.  The NIC
    [N1|~] passes the tests of [register_user], which only look for a
    whole delimiter: it is not empty and holds neither [|~|] nor [;].
    The user is registered, and has every property of a well-formed
    record.  On the line the NIC runs into the delimiter that follows
    it: the line splits two characters early, and what is read back is
    another NIC with another name.  A name that holds the delimiter is
    registered too, after a warning; its line has eight fields and is
    read back as nothing.  Saved and loaded, the bank has the first user
    under the NIC [N1] and has lost the second. *)
Theorem registered_nic_breaks_round_trip :
  PyStr.contains DATA_DELIMITER "N1|~" = false /\
  PyStr.contains LIST_DELIMITER "N1|~" = false /\
  register_user demo_hash_password "customer" demo_tail_tape demo_registered
  = ({| users := (users demo_registered ++ [("N1|~", demo_user_tail)])%list;
        accounts := accounts demo_registered;
        next_account_number := next_account_number demo_registered |},
     Registered) /\
  well_formed_user "N1|~" demo_user_tail = true /\
  _serialize_user "N1|~" demo_user_tail
  = "N1|~|~|Xavier|~|1 Main Street|~|1990-05-15|~|7365637265743100000000000000000000000000000000000000000000000000|~|customer|~|" /\
  _deserialize_user (_serialize_user "N1|~" demo_user_tail)
  = Some ("N1",
          {| name := "~|Xavier"; address := address demo_user_tail;
             dob := dob demo_user_tail;
             password_hash := password_hash demo_user_tail;
             role := "customer"; owned_accounts := Some [] |}) /\
  _deserialize_user (_serialize_user "N1|~" demo_user_tail)
  <> Some ("N1|~", demo_user_tail) /\
  register_user demo_hash_password "customer" demo_delimiter_tape
    demo_registered
  = ({| users :=
          (users demo_registered ++ [("N2", demo_user_delimiter)])%list;
        accounts := accounts demo_registered;
        next_account_number := next_account_number demo_registered |},
     Registered) /\
  name demo_user_delimiter = "A|~|B" /\
  _deserialize_user (_serialize_user "N2" demo_user_delimiter) = None /\
  option_map Dict.keys
    (option_map (fun text => load_users (readlines text) [])
       (users_file
          (save_data demo_float_str demo_json_dumps
             {| users :=
                  (users demo_registered
                   ++ [("N1|~", demo_user_tail);
                       ("N2", demo_user_delimiter)])%list;
                accounts := accounts demo_registered;
                next_account_number :=
                  next_account_number demo_registered |})))
  = Some ["X"; "Y"; "N1"].
Proof.
  repeat split; try (vm_compute; reflexivity).
  vm_compute. discriminate.
Qed.

(** ** Amounts a balance cannot show

    Near 1e17 two neighbouring floats are 16 apart: one unit taken from
    1e17 or added to it gives 1e17 again. *)

(** C3, as stated, fails.  The account of [X] holds 1e17.  A withdrawal
    of 1 is positive and not above the balance: it completes and records
    a Withdrawal of 1, and the balance is 1e17 as before.  It has not
    decreased by the amount. *)
Lemma make_withdrawal_inexact_counterexample :
  choose_customer_account demo_bank_large "X" [] = Selected "1001" /\
  option_map balance (Dict.get "1001" (accounts demo_bank_large))
  = Some 1e17%float /\
  prompt_positive [Number 1] = Some 1%float /\
  (0 <? 1)%float = true /\
  (1e17 <? 1)%float = false /\
  snd (make_withdrawal "X" [] [Number 1] "2024-01-02 09:00:00"
         demo_bank_large) = Completed /\
  Dict.get "1001"
    (accounts
       (fst (make_withdrawal "X" [] [Number 1] "2024-01-02 09:00:00"
               demo_bank_large)))
  = Some {| owner_nic := "X"; balance := 1e17;
            transactions :=
              [{| tx_timestamp := demo_time; tx_type := "Initial Deposit";
                  tx_amount := 1e17; tx_details := [] |};
               {| tx_timestamp := "2024-01-02 09:00:00";
                  tx_type := "Withdrawal";
                  tx_amount := 1; tx_details := [] |}];
            created_at := demo_time |} /\
  (1e17 - 1)%float = 1e17%float /\
  (1e17 - 1e17)%float <> 1%float.
Proof.
  repeat split; try (vm_compute; reflexivity).
  vm_compute. discriminate.
Qed.

(** C2, as stated, fails.  [X] holds 1e17 and [Y] holds nothing.  A
    transfer of 1 from [X] to [Y] is positive and not above the balance
    of [X]: it completes and records the two transactions of 1.  [Y]
    then holds 1 and [X] holds 1e17 as before: the source balance has
    not decreased by the amount.  Sent back from a source that holds 1
    to a recipient that holds 1e17, the unit leaves the source and the
    recipient balance does not increase. *)
Lemma transfer_funds_inexact_counterexample :
  choose_customer_account demo_bank_large "X" [] = Selected "1001" /\
  option_map balance (Dict.get "1001" (accounts demo_bank_large))
  = Some 1e17%float /\
  option_map balance (Dict.get "1002" (accounts demo_bank_large))
  = Some 0%float /\
  prompt_positive [Number 1] = Some 1%float /\
  (1e17 <? 1)%float = false /\
  snd (transfer_funds "X" [] "1002" [Number 1] "2024-01-02 09:00:00"
         "2024-01-02 09:00:01" demo_bank_large) = Completed /\
  Dict.get "1001"
    (accounts
       (fst (transfer_funds "X" [] "1002" [Number 1] "2024-01-02 09:00:00"
               "2024-01-02 09:00:01" demo_bank_large)))
  = Some {| owner_nic := "X"; balance := 1e17;
            transactions :=
              [{| tx_timestamp := demo_time; tx_type := "Initial Deposit";
                  tx_amount := 1e17; tx_details := [] |};
               {| tx_timestamp := "2024-01-02 09:00:00";
                  tx_type := "Transfer Sent";
                  tx_amount := 1;
                  tx_details := [("to_account", DStr "1002")] |}];
            created_at := demo_time |} /\
  Dict.get "1002"
    (accounts
       (fst (transfer_funds "X" [] "1002" [Number 1] "2024-01-02 09:00:00"
               "2024-01-02 09:00:01" demo_bank_large)))
  = Some {| owner_nic := "Y"; balance := 1;
            transactions :=
              [{| tx_timestamp := "2024-01-02 09:00:01";
                  tx_type := "Transfer Received";
                  tx_amount := 1;
                  tx_details := [("from_account", DStr "1001")] |}];
            created_at := demo_time |} /\
  option_map balance
    (Dict.get "1001"
       (accounts
          (fst (transfer_funds "Y" [] "1001" [Number 1]
                  "2024-01-02 09:00:02" "2024-01-02 09:00:03"
                  (fst (transfer_funds "X" [] "1002" [Number 1]
                          "2024-01-02 09:00:00" "2024-01-02 09:00:01"
                          demo_bank_large))))))
  = Some 1e17%float /\
  option_map balance
    (Dict.get "1002"
       (accounts
          (fst (transfer_funds "Y" [] "1001" [Number 1]
                  "2024-01-02 09:00:02" "2024-01-02 09:00:03"
                  (fst (transfer_funds "X" [] "1002" [Number 1]
                          "2024-01-02 09:00:00" "2024-01-02 09:00:01"
                          demo_bank_large))))))
  = Some 0%float /\
  (1e17 - 1)%float = 1e17%float /\ (1e17 + 1)%float = 1e17%float.
Proof. repeat split; vm_compute; reflexivity. Qed.

(** ** Answers that are not numbers *)

(** C1, at the input where the program departs from it.  [float("nan")]
    is a float, and [nan < MIN_INITIAL_DEPOSIT] is false, so the prompt
    accepts it: the account is created with the balance [nan] and, since
    [nan > 0] is false too, with no transaction.  The balance is not what
    the recorded transactions add up to. *)
Theorem create_with_nan_breaks_ledger :
  prompt_initial_deposit [Number nan] = Some nan /\
  create_customer_bank_account "X" [Number nan] demo_time demo_time
    demo_registered = (demo_bank_nan, Completed) /\
  Dict.get "1001" (accounts demo_bank_nan)
  = Some {| owner_nic := "X"; balance := nan; transactions := [];
            created_at := demo_time |} /\
  ledger_balance 0 [] = 0%float /\
  (nan =? ledger_balance 0 [])%float = false /\
  ~ all_consistent demo_bank_nan.
Proof.
  repeat split.
  intros H. destruct (H "1001" _ eq_refl) as [E|E]; discriminate E.
Qed.

(** C9, at the input where the program departs from it.  [float("inf")]
    is above zero, so the deposit prompt accepts it and the balance
    becomes [inf]; every balance is still at least zero.  A withdrawal of
    [inf] is then above zero and not above the balance, so it completes,
    and the balance becomes [inf - inf], which is [nan] and not at least
    zero. *)
Theorem withdraw_infinity_breaks_nonnegative :
  all_nonnegative demo_bank = true /\
  make_deposit "X" [] [Number infinity] demo_time demo_bank
  = (demo_bank_infinite, Completed) /\
  all_nonnegative demo_bank_infinite = true /\
  option_map balance (Dict.get "1001" (accounts demo_bank_infinite))
  = Some infinity /\
  prompt_positive [Number infinity] = Some infinity /\
  (infinity <=? infinity)%float = true /\
  snd (make_withdrawal "X" [] [Number infinity] demo_time demo_bank_infinite)
  = Completed /\
  option_map balance
    (Dict.get "1001"
       (accounts (fst (make_withdrawal "X" [] [Number infinity] demo_time
                         demo_bank_infinite))))
  = Some nan /\
  all_nonnegative
    (fst (make_withdrawal "X" [] [Number infinity] demo_time
            demo_bank_infinite)) = false.
Proof. repeat split. Qed.

(** ** The ledger of an account adds up *)

Lemma sub_add_opp (x y : float) : (x - y = x + - y)%float.
Proof.
  apply Prim2SF_inj.
  rewrite FloatAxioms.sub_spec, FloatAxioms.add_spec, FloatAxioms.opp_spec.
  unfold SF64sub, SF64add, SFsub, SFadd.
  destruct (Prim2SF x) as [sx|sx| |sx mx ex],
           (Prim2SF y) as [sy|sy| |sy my ey];
    cbn [SFopp]; try reflexivity; destruct sx, sy; reflexivity.
Qed.

Lemma zero_add_positive (d : float) :
  (0 <? d)%float = true -> (0 + d = d)%float.
Proof.
  intros H. apply Prim2SF_inj. rewrite FloatAxioms.add_spec.
  rewrite FloatAxioms.ltb_spec in H. revert H.
  replace (Prim2SF 0) with (S754_zero false) by reflexivity.
  unfold SF64add, SFadd, SFltb.
  destruct (Prim2SF d) as [s|s| |s m e]; simpl; try discriminate; reflexivity.
Qed.

Lemma ledger_balance_snoc (b0 : float) (txs : list transaction)
    (tx : transaction) :
  ledger_balance b0 (txs ++ [tx])
  = (ledger_balance b0 txs + signed_amount tx)%float.
Proof. unfold ledger_balance. now rewrite fold_left_app. Qed.

(** Floats that compare equal are the same float, or are both zeros. *)
Lemma SFeqb_true (a b : spec_float) :
  SFeqb a b = true ->
  a = b \/ exists s1 s2, a = S754_zero s1 /\ b = S754_zero s2.
Proof.
  unfold SFeqb.
  destruct a as [s1|s1| |s1 m1 e1], b as [s2|s2| |s2 m2 e2]; simpl;
    try discriminate; eauto;
    try (destruct s1; discriminate); try (destruct s2; discriminate);
    destruct s1, s2; try discriminate; auto;
    (destruct (e1 ?= e2)%Z eqn:E; try discriminate;
     apply Z.compare_eq in E; subst e2;
     destruct (Pos.compare_cont Eq m1 m2) eqn:C; try discriminate;
     apply Pos.compare_eq in C; subst; auto).
Qed.

(** Adding the same amount to the same number gives the same number. *)
Lemma same_number_add (x y s : float) :
  same_number x y -> same_number (x + s) (y + s).
Proof.
  intros [->|H]; [now left|].
  rewrite FloatAxioms.eqb_spec in H.
  apply SFeqb_true in H as [H|(s1 & s2 & H1 & H2)].
  - left. apply Prim2SF_inj in H. now subst.
  - unfold same_number.
    rewrite FloatAxioms.eqb_spec, !FloatAxioms.add_spec, H1, H2.
    destruct (Prim2SF s) as [s3|s3| |s3 m3 e3] eqn:Es.
    + right. destruct s1, s2, s3; reflexivity.
    + left. apply Prim2SF_inj.
      now rewrite !FloatAxioms.add_spec, H1, H2, Es.
    + left. apply Prim2SF_inj.
      now rewrite !FloatAxioms.add_spec, H1, H2, Es.
    + left. apply Prim2SF_inj.
      now rewrite !FloatAxioms.add_spec, H1, H2, Es.
Qed.

(** A float that is at least zero and not above zero is a zero. *)
Lemma zero_of_bounds (d : float) :
  (0 <=? d)%float = true -> (0 <? d)%float = false ->
  (d =? 0)%float = true.
Proof.
  rewrite FloatAxioms.leb_spec, FloatAxioms.ltb_spec, FloatAxioms.eqb_spec.
  replace (Prim2SF 0) with (S754_zero false) by reflexivity.
  unfold SFleb, SFltb, SFeqb.
  destruct (Prim2SF d) as [s|s| |s m e]; simpl; try discriminate; auto;
    destruct s; discriminate.
Qed.

(** An entry that adds its amount to the balance keeps the ledger
    consistent. *)
Lemma consistent_credit (ts trans_type : string) (amount : float)
    (details : list (string * detail)) (a : account) :
  String.eqb trans_type "Withdrawal" || String.eqb trans_type "Transfer Sent"
  = false ->
  ledger_consistent a ->
  ledger_consistent
    (entry ts trans_type amount (balance a + amount) details a).
Proof.
  unfold ledger_consistent, entry. simpl. intros Ht H.
  rewrite ledger_balance_snoc. unfold signed_amount. simpl.
  rewrite Ht. now apply same_number_add.
Qed.

(** An entry that takes its amount from the balance keeps the ledger
    consistent. *)
Lemma consistent_debit (ts trans_type : string) (amount : float)
    (details : list (string * detail)) (a : account) :
  String.eqb trans_type "Withdrawal" || String.eqb trans_type "Transfer Sent"
  = true ->
  ledger_consistent a ->
  ledger_consistent
    (entry ts trans_type amount (balance a - amount) details a).
Proof.
  unfold ledger_consistent, entry. simpl. intros Ht H.
  rewrite ledger_balance_snoc. unfold signed_amount. simpl.
  rewrite Ht, sub_add_opp. now apply same_number_add.
Qed.

Lemma consistent_set (acc_num : string) (a' : account)
    (accts : Dict.t account) :
  (forall k a, Dict.get k accts = Some a -> ledger_consistent a) ->
  ledger_consistent a' ->
  forall k a, Dict.get k (Dict.set acc_num a' accts) = Some a ->
              ledger_consistent a.
Proof.
  intros Hall Ha' k a. destruct (String.eqb_spec k acc_num) as [->|Hk].
  - rewrite get_set_same. intros H. now inversion H; subst.
  - rewrite get_set_other by assumption. apply Hall.
Qed.

Lemma in_keys_get (V : Type) (k : string) (d : Dict.t V) :
  In k (Dict.keys d) -> exists v, Dict.get k d = Some v.
Proof.
  induction d as [|[k0 v0] r IH]; simpl; [tauto|].
  intros [->|H].
  - rewrite String.eqb_refl. eauto.
  - destruct (String.eqb k k0); eauto.
Qed.

Lemma generate_account_number_tables (st st1 : bank) (acc_num : string) :
  generate_account_number st = Some (Generated acc_num st1) ->
  accounts st1 = accounts st /\ users st1 = users st.
Proof.
  unfold generate_account_number.
  destruct (skip_used _ _ _) as [[n text|n]|]; try discriminate.
  intros H. inversion H. subst. auto.
Qed.

(** The counter of a call that raised, and the tables it left alone. *)
Lemma generate_account_number_raised (st st1 : bank) :
  generate_account_number st = Some (GenerateRaised st1) ->
  accounts st1 = accounts st /\ users st1 = users st /\
  (next_account_number st <= next_account_number st1)%N /\
  str_of_int (next_account_number st1) = None.
Proof.
  unfold generate_account_number.
  destruct (skip_used _ _ _) as [[n text|n]|] eqn:E; try discriminate.
  intros H. inversion H. subst. simpl.
  apply skip_used_raised in E as (Hs & Hle & _). auto.
Qed.

Section LedgerSteps.

Variable round2 : float -> float.

Lemma consistent_after_deposit (nic : string) (choices : list (option Z))
    (amounts : list answer) (ts : string) (st : bank) :
  all_consistent st ->
  all_consistent (fst (make_deposit nic choices amounts ts st)).
Proof.
  intros Hst.
  destruct (make_deposit nic choices amounts ts st) as [st' o] eqn:E.
  destruct o;
    try (unfold make_deposit in E;
         repeat match type of E with
                | context [match ?x with _ => _ end] => destruct x
                end; inversion E; subst; exact Hst).
  apply make_deposit_completed in E
    as (acc_num & a & amount & _ & _ & Hget & _ & ->).
  simpl. unfold all_consistent. simpl. apply consistent_set; [exact Hst|].
  apply consistent_credit; [reflexivity|]. eapply Hst; eauto.
Qed.

Lemma consistent_after_withdrawal (nic : string)
    (choices : list (option Z)) (amounts : list answer) (ts : string)
    (st : bank) :
  all_consistent st ->
  all_consistent (fst (make_withdrawal nic choices amounts ts st)).
Proof.
  intros Hst.
  destruct (make_withdrawal nic choices amounts ts st) as [st' o] eqn:E.
  destruct o;
    try (unfold make_withdrawal in E;
         repeat match type of E with
                | context [match ?x with _ => _ end] => destruct x
                end; inversion E; subst; exact Hst).
  apply make_withdrawal_completed in E
    as (acc_num & a & amount & _ & _ & Hget & _ & _ & ->).
  simpl. unfold all_consistent. simpl. apply consistent_set; [exact Hst|].
  apply consistent_debit; [reflexivity|]. eapply Hst; eauto.
Qed.

End LedgerSteps.

(** A transfer that completes found two different accounts and read an
    amount. *)
Lemma transfer_funds_completed
    (customer_nic : string) (choices : list (option Z)) (recipient : string)
    (amounts : list answer) (ts_sent ts_received : string) (st st' : bank) :
  transfer_funds customer_nic choices recipient amounts ts_sent ts_received st
  = (st', Completed) ->
  exists source_acc_num source_account dest_account amount,
    choose_customer_account st customer_nic choices
      = Selected source_acc_num /\
    source_acc_num <> PyStr.strip recipient /\
    Dict.get source_acc_num (accounts st) = Some source_account /\
    Dict.get (PyStr.strip recipient) (accounts st) = Some dest_account /\
    prompt_positive amounts = Some amount /\
    (balance source_account <? amount)%float = false /\
    st' = with_accounts st
            (Dict.set (PyStr.strip recipient)
               (transfer_received ts_received source_acc_num amount
                  dest_account)
               (Dict.set source_acc_num
                  (transfer_sent ts_sent (PyStr.strip recipient) amount
                     source_account)
                  (accounts st))).
Proof.
  intros H. pose proof H as H0. unfold transfer_funds in H0.
  destruct (choose_customer_account st customer_nic choices)
    as [src| |] eqn:Hsel; try discriminate.
  destruct src as [|c r]; [discriminate|].
  simpl PyStr.is_empty in H0. cbv iota in H0.
  destruct (Dict.get (String c r) (accounts st)) as [sa|] eqn:Hget;
    [|discriminate].
  clear H0.
  assert (String c r <> "") as Hne by discriminate.
  rewrite (transfer_funds_run _ _ recipient amounts ts_sent ts_received _ _ _
             Hsel Hne Hget) in H.
  cbv zeta in H.
  destruct (PyStr.is_empty (PyStr.strip recipient)); [discriminate|].
  destruct (String.eqb_spec (String c r) (PyStr.strip recipient));
    [discriminate|].
  destruct (Dict.get (PyStr.strip recipient) (accounts st)) as [da|] eqn:Hd;
    [|discriminate].
  destruct (prompt_positive amounts) as [amount|] eqn:Hamt; [|discriminate].
  destruct (balance sa <? amount)%float eqn:Hlt; [discriminate|].
  inversion H. exists (String c r), sa, da, amount. repeat split; auto.
Qed.

Section LedgerSequence.

Variable round2 : float -> float.

Lemma consistent_after_transfer (nic : string) (choices : list (option Z))
    (recipient : string) (amounts : list answer)
    (ts_sent ts_received : string) (st : bank) :
  all_consistent st ->
  all_consistent
    (fst (transfer_funds nic choices recipient amounts ts_sent ts_received
            st)).
Proof.
  intros Hst.
  destruct (transfer_funds nic choices recipient amounts ts_sent ts_received
              st) as [st' o] eqn:E.
  destruct o;
    try (unfold transfer_funds in E;
         repeat match type of E with
                | context [match ?x with _ => _ end] => destruct x
                | context [if ?x then _ else _] => destruct x
                end; inversion E; subst; exact Hst).
  apply transfer_funds_completed in E
    as (src & sa & da & amount & _ & _ & Hs & Hd & _ & _ & ->).
  simpl. unfold all_consistent. simpl.
  apply consistent_set; [apply consistent_set; [exact Hst|]|].
  - apply consistent_debit; [reflexivity|]. eapply Hst; eauto.
  - apply consistent_credit; [reflexivity|]. eapply Hst; eauto.
Qed.

Lemma consistent_after_interest (clock : nat -> string) (st : bank) :
  all_consistent st ->
  all_consistent (fst (apply_interest_to_all_accounts round2 clock st)).
Proof.
  intros Hst. unfold apply_interest_to_all_accounts.
  destruct (accounts st) as [|e r] eqn:Hacc; [exact Hst|].
  cbv iota. set (items := e :: r) in *.
  pose proof (accrue_keys round2 INTEREST_RATE clock items 0 0) as Hk.
  pose proof (fun k a => accrue_get round2 INTEREST_RATE clock items 0 0 k a)
    as Hg.
  destruct (accrue round2 INTEREST_RATE clock items 0 0) as [accts [n total]].
  cbn [fst snd] in Hk, Hg. simpl. intros k a' Hget. simpl in Hget.
  destruct (in_keys_get _ k items) as [a Ha].
  { rewrite <- Hk. eapply get_some_in_keys; eauto. }
  specialize (Hg k a Ha).
  assert (ledger_consistent a) as Hc.
  { apply (Hst k). now rewrite Hacc. }
  destruct (interest_earned round2 INTEREST_RATE a) as [i|].
  - destruct Hg as [ts Hg]. rewrite Hg in Hget. inversion Hget; subst a'.
    exact (consistent_credit ts "Interest Applied" i
             [("rate", DNum INTEREST_RATE)] a eq_refl Hc).
  - rewrite Hg in Hget. now inversion Hget; subst.
Qed.

Lemma consistent_after_creation (nic : string) (deposits : list answer)
    (ts_created ts_tx : string) (st : bank) :
  all_consistent st ->
  deposit_is_a_number (Create nic deposits ts_created ts_tx) ->
  all_consistent
    (fst (create_customer_bank_account nic deposits ts_created ts_tx st)).
Proof.
  intros Hst Hd. unfold create_customer_bank_account.
  destruct (Dict.get nic (users st)) as [u|]; [|exact Hst].
  destruct (negb (String.eqb (role u) "customer")); [exact Hst|].
  destruct (prompt_initial_deposit deposits) as [d|] eqn:Hp; [|exact Hst].
  destruct (generate_account_number st) as [[acc_num st1|st1]|] eqn:Hg;
    [| |exact Hst].
  2:{ apply generate_account_number_raised in Hg as [Ha _].
      unfold all_consistent. simpl. now rewrite Ha. }
  apply generate_account_number_tables in Hg as [Ha _].
  unfold all_consistent. simpl. rewrite Ha.
  destruct (0 <? d)%float eqn:Hpos.
  - unfold record_transaction. rewrite get_set_same, set_set.
    apply consistent_set; [exact Hst|].
    unfold ledger_consistent, ledger_balance, signed_amount. simpl.
    left. symmetry. now apply zero_add_positive.
  - apply consistent_set; [exact Hst|].
    right. simpl. apply zero_of_bounds; [now apply Hd|assumption].
Qed.

Lemma consistent_after_run (op : operation) (st : bank) :
  all_consistent st -> deposit_is_a_number op ->
  all_consistent (run round2 st op).
Proof.
  intros Hst Hop. destruct op; simpl.
  - now apply consistent_after_creation.
  - now apply consistent_after_deposit.
  - now apply consistent_after_withdrawal.
  - now apply consistent_after_transfer.
  - now apply consistent_after_interest.
Qed.

End LedgerSequence.

(** X1.  The ledger invariant.  From a bank in which every balance is
    what the account's transactions add up to from zero (an empty bank,
    for one), every finite sequence of creations, deposits, withdrawals,
    transfers and interest accruals, refused or completed, whose initial
    deposits are at least zero, leads to such a bank: each balance is
    the sum, in the order of recording, of the amounts of the account's
    transactions, Withdrawal and Transfer Sent counting as negative. *)
Theorem ledger_consistent_after_operations
    (round2 : float -> float) (ops : list operation) (st : bank) :
  all_consistent st ->
  Forall deposit_is_a_number ops ->
  all_consistent (fold_left (run round2) ops st).
Proof.
  revert st. induction ops as [|op ops IH]; intros st Hst Hops; simpl.
  - exact Hst.
  - inversion Hops; subst. apply IH; [|assumption].
    now apply consistent_after_run.
Qed.

(** The ledger adds up after the demo session. *)
Lemma ledger_consistent_after_operations_witness :
  all_consistent (fold_left (run py_round2) demo_operations demo_registered).
Proof.
  apply ledger_consistent_after_operations.
  - intros k a H. discriminate H.
  - unfold demo_operations.
    repeat (apply Forall_cons; [|]); try apply Forall_nil; try exact I.
    + intros d H. inversion H. reflexivity.
    + intros d H. inversion H. reflexivity.
Defined.

(** ** Examples *)

Example py_round2_examples :
  py_round2 (1000 * 0.015) = 15%float /\
  py_round2 2.675 = 2.67%float /\
  py_round2 0.125 = 0.12%float /\
  py_round2 (0.3 * 0.015) = 0%float.
Proof. repeat split. Qed.

(** Balances 0, -5 and 1000 at the rate 0.015: one account is credited,
    with 15.00, and the other two are untouched. *)
Example interest_example :
  apply_interest_to_all_accounts py_round2 (fun _ => "2024-12-31 23:59:59")
    demo_interest_bank
  = (with_accounts demo_interest_bank
       [("1001", {| owner_nic := "X"; balance := 0; transactions := [];
                    created_at := demo_time |});
        ("1002", {| owner_nic := "Y"; balance := -5; transactions := [];
                    created_at := demo_time |});
        ("1003",
         {| owner_nic := "Z"; balance := 1015;
            transactions :=
              [{| tx_timestamp := "2024-12-31 23:59:59";
                  tx_type := "Interest Applied"; tx_amount := 15;
                  tx_details := [("rate", DNum INTEREST_RATE)] |}];
            created_at := demo_time |})],
     InterestApplied 1 15).
Proof. reflexivity. Qed.

(** A counter that is behind: 1001 and 1002 are taken, 1003 is handed
    out and the counter moves to 1004. *)
Example stale_counter_example :
  generate_account_number
    {| users := users demo_bank; accounts := accounts demo_bank;
       next_account_number := 1001 |}
  = Some (Generated "1003"
            {| users := users demo_bank; accounts := accounts demo_bank;
               next_account_number := 1004 |}).
Proof. vm_compute. reflexivity. Qed.

(** ** Balances at or above zero

    The sign of a rounded sum or difference, read off the definitions of
    the IEEE operations. *)

Lemma SFnonneg_cases (f : spec_float) :
  SFnonneg f <->
  (exists s, f = S754_zero s) \/ f = S754_infinity false \/
  (exists m e, f = S754_finite false m e).
Proof.
  unfold SFnonneg, SFleb. split.
  - destruct f as [s|s| |s m e]; simpl; try discriminate; eauto;
      destruct s; try discriminate; eauto.
  - intros [[s ->]|[->|(m & e & ->)]]; reflexivity.
Qed.

Section Rounding.
Variables prec emax : Z.

Lemma shr_1_nonneg (mrs : shr_record) :
  (0 <= shr_m mrs)%Z -> (0 <= shr_m (shr_1 mrs))%Z.
Proof.
  destruct mrs as [m r s]. simpl.
  destruct m as [|p|p]; simpl; [lia| |lia].
  destruct p; simpl; lia.
Qed.

Lemma iter_pos_shr_1_nonneg (p : positive) (mrs : shr_record) :
  (0 <= shr_m mrs)%Z -> (0 <= shr_m (SpecFloat.iter_pos shr_1 p mrs))%Z.
Proof.
  revert mrs. induction p as [p IH|p IH|]; intros mrs H; simpl.
  - apply IH, IH. now apply shr_1_nonneg.
  - now apply IH, IH.
  - now apply shr_1_nonneg.
Qed.

Lemma shr_fexp_nonneg (m e : Z) (l : location) :
  (0 <= m)%Z -> (0 <= shr_m (fst (shr_fexp prec emax m e l)))%Z.
Proof.
  intros H. unfold shr_fexp, shr.
  assert (0 <= shr_m (shr_record_of_loc m l))%Z as H0
      by (destruct l as [|[| |]]; exact H).
  destruct (fexp prec emax (Zdigits2 m + e) - e)%Z; simpl; auto.
  now apply iter_pos_shr_1_nonneg.
Qed.

Lemma round_nearest_even_nonneg (m : Z) (l : location) :
  (0 <= m)%Z -> (0 <= round_nearest_even m l)%Z.
Proof.
  intros H. unfold round_nearest_even.
  destruct l as [|[| |]]; try lia. destruct (Z.even m); lia.
Qed.

Lemma binary_round_aux_nonneg (mx ex : Z) (lx : location) :
  (0 <= mx)%Z -> SFnonneg (binary_round_aux prec emax false mx ex lx).
Proof.
  intros H. unfold binary_round_aux.
  pose proof (shr_fexp_nonneg mx ex lx H) as H1.
  destruct (shr_fexp prec emax mx ex lx) as [mrs' e']. simpl in H1.
  pose proof (shr_fexp_nonneg
                (round_nearest_even (shr_m mrs') (loc_of_shr_record mrs'))
                e' loc_Exact (round_nearest_even_nonneg _ _ H1)) as H2.
  destruct (shr_fexp prec emax _ e' loc_Exact) as [mrs'' e'']. simpl in H2.
  destruct (shr_m mrs'') as [|m|m]; [reflexivity| |lia].
  destruct (e'' <=? emax - prec)%Z; reflexivity.
Qed.

Lemma binary_normalize_nonneg (m e : Z) :
  (0 <= m)%Z -> SFnonneg (binary_normalize prec emax m e false).
Proof.
  intros H. unfold binary_normalize.
  destruct m as [|p|p]; [reflexivity| |lia].
  unfold binary_round.
  destruct (shl_align p e _) as [mz ez].
  apply binary_round_aux_nonneg. lia.
Qed.
End Rounding.

Lemma digits2_pos_bounds (m : positive) :
  (2 ^ (Z.pos (digits2_pos m) - 1) <= Z.pos m < 2 ^ Z.pos (digits2_pos m))%Z.
Proof.
  induction m as [m IH|m IH|]; simpl digits2_pos.
  - rewrite Pos2Z.inj_succ.
    replace (Z.succ (Z.pos (digits2_pos m)) - 1)%Z
      with (Z.succ (Z.pos (digits2_pos m) - 1))%Z by lia.
    rewrite !Z.pow_succ_r by lia. lia.
  - rewrite Pos2Z.inj_succ.
    replace (Z.succ (Z.pos (digits2_pos m)) - 1)%Z
      with (Z.succ (Z.pos (digits2_pos m) - 1))%Z by lia.
    rewrite !Z.pow_succ_r by lia. lia.
  - simpl. lia.
Qed.

Lemma iter_xO_value (m d : positive) :
  Z.pos (Pos.iter xO m d) = (Z.pos m * 2 ^ Z.pos d)%Z.
Proof.
  induction d using Pos.peano_ind.
  - simpl. lia.
  - rewrite Pos.iter_succ, Pos2Z.inj_succ, Z.pow_succ_r by lia.
    rewrite Pos2Z.inj_xO, IHd. lia.
Qed.

Lemma shl_align_value (m : positive) (e ez : Z) :
  (ez <= e)%Z ->
  Z.pos (fst (shl_align m e ez)) = (Z.pos m * 2 ^ (e - ez))%Z.
Proof.
  intros H. unfold shl_align.
  destruct (ez - e)%Z as [|d|d] eqn:E; cbn [fst].
  - replace (e - ez)%Z with 0%Z by lia. rewrite Z.pow_0_r. lia.
  - lia.
  - rewrite iter_xO_value. f_equal. f_equal. lia.
Qed.

Section Order.
Variables prec emax : Z.
Hypothesis prec_pos : (0 < prec)%Z.

(** Of two canonical mantissas, the one with the larger exponent is the
    larger number. *)
Lemma canonical_exponent_order (mx my : positive) (ex ey : Z) :
  canonical_mantissa prec emax mx ex = true ->
  canonical_mantissa prec emax my ey = true ->
  (ey < ex)%Z ->
  (Z.pos my <= Z.pos mx * 2 ^ (ex - ey))%Z.
Proof.
  unfold canonical_mantissa, fexp. intros Hx Hy Hlt.
  apply Z.eqb_eq in Hx, Hy.
  pose proof (digits2_pos_bounds mx) as [Hx1 _].
  pose proof (digits2_pos_bounds my) as [_ Hy2].
  assert (Z.pos (digits2_pos mx) = prec) as Dx by lia.
  assert (Z.pos (digits2_pos my) <= prec)%Z as Dy by lia.
  rewrite Dx in Hx1.
  assert (2 ^ Z.pos (digits2_pos my) <= 2 ^ prec)%Z
    by (apply Z.pow_le_mono_r; lia).
  assert (2 ^ 1 <= 2 ^ (ex - ey))%Z by (apply Z.pow_le_mono_r; lia).
  assert (2 ^ prec = 2 ^ (prec - 1) * 2 ^ 1)%Z as E
      by (rewrite <- Z.pow_add_r by lia; f_equal; lia).
  assert (0 < 2 ^ (prec - 1))%Z by (apply Z.pow_pos_nonneg; lia).
  nia.
Qed.

Lemma SFadd_nonneg (x y : spec_float) :
  SFnonneg x -> SFltb (S754_zero false) y = true ->
  SFnonneg (SFadd prec emax x y).
Proof.
  intros Hx Hy. apply SFnonneg_cases in Hx.
  assert (y = S754_infinity false \/ exists m e, y = S754_finite false m e)
    as Hy'.
  { revert Hy. unfold SFltb.
    destruct y as [s|s| |s m e]; simpl; try discriminate;
      destruct s; try discriminate; eauto. }
  destruct Hx as [[s ->]|[->|(m & e & ->)]];
    destruct Hy' as [->|(m' & e' & ->)]; try reflexivity.
  cbv beta iota zeta delta [SFadd]. apply binary_normalize_nonneg.
  cbn [cond_Zopp]. lia.
Qed.

Lemma SFsub_nonneg (x y : spec_float) :
  SpecFloat.valid_binary prec emax x = true ->
  SpecFloat.valid_binary prec emax y = true ->
  SFnonneg x -> SFltb (S754_zero false) y = true ->
  SFltb x y = false ->
  SFltb y (S754_infinity false) = true ->
  SFnonneg (SFsub prec emax x y).
Proof.
  intros Vx Vy Hx Hy Hlt Hfin. apply SFnonneg_cases in Hx.
  assert (exists m e, y = S754_finite false m e) as (my & ey & ->).
  { revert Hy Hfin. unfold SFltb.
    destruct y as [s|s| |s m e]; simpl; try discriminate;
      destruct s; try discriminate; eauto. }
  destruct Hx as [[s ->]|[->|(mx & ex & ->)]].
  - discriminate Hlt.
  - reflexivity.
  - cbv beta iota zeta delta [SFsub]. apply binary_normalize_nonneg.
    simpl in Vx, Vy. unfold bounded in Vx, Vy.
    apply andb_true_iff in Vx as [Cx _], Vy as [Cy _].
    unfold SFltb in Hlt. simpl in Hlt.
    rewrite !shl_align_value by lia. cbn [cond_Zopp].
    destruct (ex ?= ey)%Z eqn:E.
    + apply Z.compare_eq in E. subst ey.
      rewrite Z.min_id, Z.sub_diag, Z.pow_0_r.
      destruct (Pos.compare_cont Eq mx my) eqn:C; try discriminate.
      * apply Pos.compare_eq in C. subst. lia.
      * change (Pos.compare_cont Eq mx my) with (Pos.compare mx my) in C.
        apply Pos.compare_gt_iff in C. lia.
    + discriminate.
    + apply Z.compare_gt_iff in E.
      rewrite Z.min_r by lia. rewrite Z.sub_diag, Z.pow_0_r.
      pose proof (canonical_exponent_order mx my ex ey Cx Cy E). lia.
Qed.
End Order.

Lemma add_nonneg (b a : float) :
  (0 <=? b)%float = true -> (0 <? a)%float = true ->
  (0 <=? b + a)%float = true.
Proof.
  rewrite !FloatAxioms.leb_spec, FloatAxioms.ltb_spec, FloatAxioms.add_spec.
  replace (Prim2SF 0) with (S754_zero false) by reflexivity.
  apply SFadd_nonneg.
Qed.

Lemma sub_nonneg (b a : float) :
  (0 <=? b)%float = true -> (0 <? a)%float = true ->
  (b <? a)%float = false -> (a <? infinity)%float = true ->
  (0 <=? b - a)%float = true.
Proof.
  rewrite !FloatAxioms.leb_spec, !FloatAxioms.ltb_spec, FloatAxioms.sub_spec.
  replace (Prim2SF 0) with (S754_zero false) by reflexivity.
  replace (Prim2SF infinity) with (S754_infinity false) by reflexivity.
  apply SFsub_nonneg; try apply Prim2SF_valid. reflexivity.
Qed.

Lemma forallb_set (V : Type) (P : string * V -> bool) (k : string) (v : V)
    (d : Dict.t V) :
  forallb P d = true -> P (k, v) = true -> forallb P (Dict.set k v d) = true.
Proof.
  intros Hd Hv. induction d as [|[k0 v0] r IH]; simpl in *.
  - now rewrite Hv.
  - apply andb_true_iff in Hd as [H0 Hr].
    destruct (String.eqb k k0); simpl.
    + now rewrite Hv, Hr.
    + now rewrite H0, IH.
Qed.

Lemma forallb_get (V : Type) (P : string * V -> bool) (k : string) (v : V)
    (d : Dict.t V) :
  forallb P d = true -> Dict.get k d = Some v -> P (k, v) = true.
Proof.
  induction d as [|[k0 v0] r IH]; simpl; [discriminate|].
  intros Hd. apply andb_true_iff in Hd as [H0 Hr].
  destruct (String.eqb_spec k k0) as [->|]; auto.
  intros H. now inversion H; subst.
Qed.

Section NonNegativeSteps.

Variable round2 : float -> float.

Lemma nonnegative_after_deposit (nic : string) (choices : list (option Z))
    (amounts : list answer) (ts : string) (st : bank) :
  all_nonnegative st = true ->
  all_nonnegative (fst (make_deposit nic choices amounts ts st)) = true.
Proof.
  intros Hst.
  destruct (make_deposit nic choices amounts ts st) as [st' o] eqn:E.
  destruct o;
    try (unfold make_deposit in E;
         repeat match type of E with
                | context [match ?x with _ => _ end] => destruct x
                end; inversion E; subst; exact Hst).
  apply make_deposit_completed in E
    as (acc_num & a & amount & _ & _ & Hget & Hamt & ->).
  unfold all_nonnegative in *. simpl. apply forallb_set; [exact Hst|]. simpl.
  apply add_nonneg.
  - exact (forallb_get _ _ _ _ _ Hst Hget).
  - eapply prompt_positive_positive; eauto.
Qed.

Lemma nonnegative_after_withdrawal (nic : string)
    (choices : list (option Z)) (amounts : list answer) (ts : string)
    (st : bank) :
  all_nonnegative st = true ->
  amounts_in_range (Withdraw nic choices amounts ts) ->
  all_nonnegative (fst (make_withdrawal nic choices amounts ts st)) = true.
Proof.
  intros Hst Hfin.
  destruct (make_withdrawal nic choices amounts ts st) as [st' o] eqn:E.
  destruct o;
    try (unfold make_withdrawal in E;
         repeat match type of E with
                | context [match ?x with _ => _ end] => destruct x
                end; inversion E; subst; exact Hst).
  apply make_withdrawal_completed in E
    as (acc_num & a & amount & _ & _ & Hget & Hamt & Hlt & ->).
  unfold all_nonnegative in *. simpl. apply forallb_set; [exact Hst|]. simpl.
  apply sub_nonneg; auto.
  - exact (forallb_get _ _ _ _ _ Hst Hget).
  - eapply prompt_positive_positive; eauto.
Qed.

Lemma nonnegative_after_transfer (nic : string)
    (choices : list (option Z)) (recipient : string)
    (amounts : list answer) (ts_sent ts_received : string) (st : bank) :
  all_nonnegative st = true ->
  amounts_in_range
    (Transfer nic choices recipient amounts ts_sent ts_received) ->
  all_nonnegative
    (fst (transfer_funds nic choices recipient amounts ts_sent ts_received
            st)) = true.
Proof.
  intros Hst Hfin.
  destruct (transfer_funds nic choices recipient amounts ts_sent ts_received
              st) as [st' o] eqn:E.
  destruct o;
    try (unfold transfer_funds in E;
         repeat match type of E with
                | context [match ?x with _ => _ end] => destruct x
                | context [if ?x then _ else _] => destruct x
                end; inversion E; subst; exact Hst).
  apply transfer_funds_completed in E
    as (src & sa & da & amount & _ & _ & Hs & Hd & Hamt & Hlt & ->).
  pose proof (prompt_positive_positive _ _ Hamt) as Hpos.
  unfold all_nonnegative in *. simpl.
  apply forallb_set; [apply forallb_set; [exact Hst|]|]; simpl.
  - apply sub_nonneg; auto. exact (forallb_get _ _ _ _ _ Hst Hs).
  - apply add_nonneg; auto. exact (forallb_get _ _ _ _ _ Hst Hd).
Qed.

Lemma nonnegative_after_accrue (rate : float) (clock : nat -> string)
    (items : Dict.t account) (n : nat) (total : float) :
  forallb (fun item => (0 <=? balance (snd item))%float) items = true ->
  forallb (fun item => (0 <=? balance (snd item))%float)
    (fst (accrue round2 rate clock items n total)) = true.
Proof.
  revert n total. induction items as [|[k a] r IH]; intros n total; simpl.
  - reflexivity.
  - intros H. apply andb_true_iff in H as [Ha Hr].
    destruct (interest_earned round2 rate a) as [i|] eqn:Hi.
    + specialize (IH (S n) (total + i)%float Hr).
      destruct (accrue round2 rate clock r (S n) (total + i)). simpl in *.
      rewrite IH, andb_true_r. apply add_nonneg; [exact Ha|].
      unfold interest_earned in Hi.
      destruct (0 <? balance a)%float; [|discriminate].
      destruct (0 <? round2 (balance a * rate))%float eqn:Hp; [|discriminate].
      now inversion Hi; subst.
    + specialize (IH n total Hr).
      destruct (accrue round2 rate clock r n total). simpl in *.
      now rewrite Ha, IH.
Qed.

Lemma nonnegative_after_interest (clock : nat -> string) (st : bank) :
  all_nonnegative st = true ->
  all_nonnegative (fst (apply_interest_to_all_accounts round2 clock st))
  = true.
Proof.
  intros Hst. unfold apply_interest_to_all_accounts.
  destruct (accounts st) as [|e r] eqn:Hacc; [exact Hst|].
  cbv iota. set (items := e :: r) in *.
  pose proof (nonnegative_after_accrue INTEREST_RATE clock items 0 0) as H.
  destruct (accrue round2 INTEREST_RATE clock items 0 0) as [accts [n total]].
  unfold all_nonnegative in *. rewrite Hacc in Hst. exact (H Hst).
Qed.

Lemma nonnegative_after_creation (nic : string) (deposits : list answer)
    (ts_created ts_tx : string) (st : bank) :
  all_nonnegative st = true ->
  amounts_in_range (Create nic deposits ts_created ts_tx) ->
  all_nonnegative
    (fst (create_customer_bank_account nic deposits ts_created ts_tx st))
  = true.
Proof.
  intros Hst Hd. unfold create_customer_bank_account.
  destruct (Dict.get nic (users st)) as [u|]; [|exact Hst].
  destruct (negb (String.eqb (role u) "customer")); [exact Hst|].
  destruct (prompt_initial_deposit deposits) as [d|] eqn:Hp; [|exact Hst].
  destruct (generate_account_number st) as [[acc_num st1|st1]|] eqn:Hg;
    [| |exact Hst].
  2:{ apply generate_account_number_raised in Hg as [Ha _].
      unfold all_nonnegative in *. simpl. now rewrite Ha. }
  apply generate_account_number_tables in Hg as [Ha _].
  unfold all_nonnegative in *. simpl. rewrite Ha.
  specialize (Hd d Hp).
  destruct (0 <? d)%float.
  - unfold record_transaction. rewrite get_set_same, set_set.
    now apply forallb_set.
  - now apply forallb_set.
Qed.

Lemma nonnegative_after_run (op : operation) (st : bank) :
  all_nonnegative st = true -> amounts_in_range op ->
  all_nonnegative (run round2 st op) = true.
Proof.
  intros Hst Hop. destruct op; simpl.
  - now apply nonnegative_after_creation.
  - now apply nonnegative_after_deposit.
  - now apply nonnegative_after_withdrawal.
  - now apply nonnegative_after_transfer.
  - now apply nonnegative_after_interest.
Qed.

End NonNegativeSteps.

(** X2.  Balances stay at or above zero.  From a bank in which every balance
    is at least zero, every finite sequence of creations with an initial
    deposit of at least zero, deposits, withdrawals and transfers of a
    finite amount, and interest accruals, refused or completed, leads to
    a bank in which every balance is at least zero, for any rounding of
    the interest. *)
Theorem nonnegative_after_operations
    (round2 : float -> float) (ops : list operation) (st : bank) :
  all_nonnegative st = true ->
  Forall amounts_in_range ops ->
  all_nonnegative (fold_left (run round2) ops st) = true.
Proof.
  revert st. induction ops as [|op ops IH]; intros st Hst Hops; simpl.
  - exact Hst.
  - inversion Hops; subst. apply IH; [|assumption].
    now apply nonnegative_after_run.
Qed.

(** Every balance is at least zero after the demo session. *)
Lemma nonnegative_after_operations_witness :
  all_nonnegative (fold_left (run py_round2) demo_operations demo_registered)
  = true.
Proof.
  apply nonnegative_after_operations.
  - reflexivity.
  - unfold demo_operations.
    repeat (apply Forall_cons; [|]); try apply Forall_nil; try exact I;
      intros d H; inversion H; reflexivity.
Defined.

(** An account opened with 100.00, a withdrawal of 30.00, then a transfer
    of 50.00 to an account that holds nothing: the withdrawal leaves
    70.00, and the transfer, which asks for less than that, completes
    and leaves 20.00 and 50.00. *)
Example scenario_example :
  option_map balance
    (Dict.get "1001"
       (accounts (fst (make_withdrawal "X" [] [Number 30] demo_time
                         demo_bank))))
  = Some 70%float /\
  snd (transfer_funds "X" [] "1002" [Number 50] demo_time demo_time
         (fst (make_withdrawal "X" [] [Number 30] demo_time demo_bank)))
  = Completed /\
  map (fun item => (fst item, balance (snd item)))
    (accounts
       (fst (transfer_funds "X" [] "1002" [Number 50] demo_time demo_time
               (fst (make_withdrawal "X" [] [Number 30] demo_time
                       demo_bank)))))
  = [("1001", 20%float); ("1002", 50%float)] /\
  snd (transfer_funds "Y" [] "1001" [Number 50] demo_time demo_time
         demo_bank)
  = InsufficientFunds.
Proof. repeat split. Qed.

(** ** Refused operations *)

Lemma make_deposit_refused (nic : string) (choices : list (option Z))
    (amounts : list answer) (ts : string) (st : bank) :
  snd (make_deposit nic choices amounts ts st) <> Completed ->
  fst (make_deposit nic choices amounts ts st) = st.
Proof.
  unfold make_deposit.
  repeat match goal with
         | |- context [match ?x with _ => _ end] => destruct x
         end; simpl; congruence.
Qed.

Lemma make_withdrawal_refused (nic : string) (choices : list (option Z))
    (amounts : list answer) (ts : string) (st : bank) :
  snd (make_withdrawal nic choices amounts ts st) <> Completed ->
  fst (make_withdrawal nic choices amounts ts st) = st.
Proof.
  unfold make_withdrawal.
  repeat match goal with
         | |- context [match ?x with _ => _ end] => destruct x
         end; simpl; congruence.
Qed.

Lemma transfer_funds_refused (nic : string) (choices : list (option Z))
    (recipient : string) (amounts : list answer)
    (ts_sent ts_received : string) (st : bank) :
  snd (transfer_funds nic choices recipient amounts ts_sent ts_received st)
  <> Completed ->
  fst (transfer_funds nic choices recipient amounts ts_sent ts_received st)
  = st.
Proof.
  unfold transfer_funds.
  repeat match goal with
         | |- context [match ?x with _ => _ end] => destruct x
         end; simpl; congruence.
Qed.

(** A creation that does not complete leaves the two tables alone, and
    the counter too unless [str] refused it in
    [generate_account_number]: then the counter is where the loop had
    brought it. *)
Lemma create_refused (nic : string) (deposits : list answer)
    (ts_created ts_tx : string) (st : bank) :
  snd (create_customer_bank_account nic deposits ts_created ts_tx st)
  <> Completed ->
  users (fst (create_customer_bank_account nic deposits ts_created ts_tx st))
  = users st /\
  accounts
    (fst (create_customer_bank_account nic deposits ts_created ts_tx st))
  = accounts st /\
  (next_account_number st
   <= next_account_number
        (fst (create_customer_bank_account nic deposits ts_created ts_tx
                st)))%N /\
  (fst (create_customer_bank_account nic deposits ts_created ts_tx st) = st
   \/ snd (create_customer_bank_account nic deposits ts_created ts_tx st)
      = Raised /\
      str_of_int
        (next_account_number
           (fst (create_customer_bank_account nic deposits ts_created ts_tx
                   st))) = None).
Proof.
  unfold create_customer_bank_account.
  destruct (Dict.get nic (users st)) as [u|];
    [|intros _; cbn [fst snd]; repeat split; [lia|now left]].
  destruct (negb (String.eqb (role u) "customer"));
    [intros _; cbn [fst snd]; repeat split; [lia|now left]|].
  destruct (prompt_initial_deposit deposits) as [d|];
    [|intros _; cbn [fst snd]; repeat split; [lia|now left]].
  destruct (generate_account_number st) as [[acc_num st1|st1]|] eqn:Hg.
  - intros H. now contradiction H.
  - intros _. apply generate_account_number_raised in Hg
      as (Ha & Hu & Hle & Hs).
    cbn [fst snd]. repeat split; try assumption. right. now split.
  - intros _. cbn [fst snd]. repeat split; [lia|now left].
Qed.

(** What [generate_account_number] hands out and leaves behind. *)
Lemma generate_account_number_result (st st1 : bank) (acc_num : string) :
  generate_account_number st = Some (Generated acc_num st1) ->
  exists n : N,
    acc_num = PyStr.of_N n /\
    Dict.get acc_num (accounts st) = None /\
    (next_account_number st <= n)%N /\
    st1 = {| users := users st; accounts := accounts st;
             next_account_number := N.succ n |}.
Proof.
  unfold generate_account_number.
  destruct (skip_used _ _ _) as [[n text|n]|] eqn:E; try discriminate.
  intros H. inversion H. subst. exists n.
  apply skip_used_not_used in E as (-> & _ & Hle & Hfree & _).
  repeat split; auto. now apply mem_false_get.
Qed.

(** A creation that completes was asked by a customer, read a deposit and
    took a number that was free. *)
Lemma create_completed (nic : string) (deposits : list answer)
    (ts_created ts_tx : string) (st st' : bank) :
  create_customer_bank_account nic deposits ts_created ts_tx st
  = (st', Completed) ->
  exists (u : user) (d : float) (n : N),
    Dict.get nic (users st) = Some u /\
    role u = "customer" /\
    prompt_initial_deposit deposits = Some d /\
    Dict.get (PyStr.of_N n) (accounts st) = None /\
    (next_account_number st <= n)%N /\
    st' = {| users := Dict.set nic (with_owned u (PyStr.of_N n)) (users st);
             accounts :=
               Dict.set (PyStr.of_N n) (opened nic ts_created ts_tx d)
                 (accounts st);
             next_account_number := N.succ n |}.
Proof.
  unfold create_customer_bank_account.
  destruct (Dict.get nic (users st)) as [u|] eqn:Hu; [|discriminate].
  destruct (String.eqb_spec (role u) "customer") as [Hr|]; [|discriminate].
  simpl negb. cbv iota.
  destruct (prompt_initial_deposit deposits) as [d|] eqn:Hd; [|discriminate].
  destruct (generate_account_number st) as [[acc_num st1|st1]|] eqn:Hg;
    try discriminate.
  apply generate_account_number_result in Hg
    as (n & -> & Hfree & Hle & ->).
  intros H. inversion H. clear H.
  exists u, d, n. repeat split; auto.
  simpl. unfold with_owned, opened. f_equal.
  destruct (0 <? d)%float; [|reflexivity].
  unfold record_transaction. now rewrite get_set_same, set_set.
Qed.

(** ** Accounts are only ever extended *)

Lemma extends_refl (a : account) : extends a a.
Proof.
  repeat split. exists []. now rewrite app_nil_r.
Qed.

Lemma extends_trans (a b c : account) :
  extends a b -> extends b c -> extends a c.
Proof.
  intros (Ho & Hc & m & Hm) (Ho' & Hc' & m' & Hm').
  repeat split; try congruence.
  exists (m ++ m')%list. now rewrite Hm', Hm, app_assoc.
Qed.

Lemma extends_entry (ts trans_type : string) (amount b : float)
    (details : list (string * detail)) (a : account) :
  extends a (entry ts trans_type amount b details a).
Proof. repeat split. eexists. reflexivity. Qed.

Lemma ledger_step_refl (st : bank) : ledger_step st st.
Proof.
  repeat split. intros k a H. exists a. split; [assumption|].
  apply extends_refl.
Qed.

(** Rewriting one account into an extension of itself is a ledger step. *)
Lemma ledger_step_set (st : bank) (acc_num : string) (a a' : account) :
  Dict.get acc_num (accounts st) = Some a -> extends a a' ->
  ledger_step st (with_accounts st (Dict.set acc_num a' (accounts st))).
Proof.
  intros Hget Hext. repeat split; simpl.
  - eapply keys_set_present; eauto.
  - intros k b Hk. destruct (String.eqb_spec k acc_num) as [->|Hne].
    + rewrite get_set_same. exists a'. split; [reflexivity|]. congruence.
    + rewrite get_set_other by assumption. exists b. split; [assumption|].
      apply extends_refl.
Qed.

Lemma ledger_step_trans (st1 st2 st3 : bank) :
  ledger_step st1 st2 -> ledger_step st2 st3 -> ledger_step st1 st3.
Proof.
  intros (Hu & Hn & Hk & Ha) (Hu' & Hn' & Hk' & Ha').
  repeat split; try congruence.
  intros k a H. destruct (Ha k a H) as (b & Hb & Hab).
  destruct (Ha' k b Hb) as (c & Hc & Hbc).
  exists c. split; [assumption|]. eapply extends_trans; eauto.
Qed.

Lemma extends_credit (rate : float) (ts : string) (interest : float)
    (a : account) :
  extends a (credit_interest rate ts interest a).
Proof. repeat split. eexists. reflexivity. Qed.

Lemma make_deposit_step (nic : string) (choices : list (option Z))
    (amounts : list answer) (ts : string) (st : bank) :
  ledger_step st (fst (make_deposit nic choices amounts ts st)).
Proof.
  pose proof (make_deposit_refused nic choices amounts ts st) as Hr.
  destruct (make_deposit nic choices amounts ts st) as [st' o] eqn:E.
  destruct o;
    try (simpl in *; rewrite Hr by discriminate; apply ledger_step_refl).
  apply make_deposit_completed in E
    as (acc_num & a & amount & _ & _ & Hget & _ & ->).
  simpl. apply (ledger_step_set st acc_num a); [assumption|].
  apply extends_entry.
Qed.

Lemma make_withdrawal_step (nic : string) (choices : list (option Z))
    (amounts : list answer) (ts : string) (st : bank) :
  ledger_step st (fst (make_withdrawal nic choices amounts ts st)).
Proof.
  pose proof (make_withdrawal_refused nic choices amounts ts st) as Hr.
  destruct (make_withdrawal nic choices amounts ts st) as [st' o] eqn:E.
  destruct o;
    try (simpl in *; rewrite Hr by discriminate; apply ledger_step_refl).
  apply make_withdrawal_completed in E
    as (acc_num & a & amount & _ & _ & Hget & _ & _ & ->).
  simpl. apply (ledger_step_set st acc_num a); [assumption|].
  apply extends_entry.
Qed.

Lemma transfer_funds_step (nic : string) (choices : list (option Z))
    (recipient : string) (amounts : list answer)
    (ts_sent ts_received : string) (st : bank) :
  ledger_step st
    (fst (transfer_funds nic choices recipient amounts ts_sent ts_received
            st)).
Proof.
  pose proof (transfer_funds_refused nic choices recipient amounts ts_sent
                ts_received st) as Hr.
  destruct (transfer_funds nic choices recipient amounts ts_sent ts_received
              st) as [st' o] eqn:E.
  destruct o;
    try (simpl in *; rewrite Hr by discriminate; apply ledger_step_refl).
  apply transfer_funds_completed in E
    as (src & sa & da & amount & _ & Hne & Hs & Hd & _ & _ & ->).
  simpl.
  apply (ledger_step_trans st
           (with_accounts st
              (Dict.set src
                 (transfer_sent ts_sent (PyStr.strip recipient) amount sa)
                 (accounts st)))).
  - apply (ledger_step_set st src sa); [assumption|]. apply extends_entry.
  - apply (ledger_step_set
             (with_accounts st
                (Dict.set src
                   (transfer_sent ts_sent (PyStr.strip recipient) amount sa)
                   (accounts st)))
             (PyStr.strip recipient) da).
    + simpl. rewrite get_set_other by congruence. assumption.
    + apply extends_entry.
Qed.

Lemma apply_interest_step (round2 : float -> float) (clock : nat -> string)
    (st : bank) :
  ledger_step st (fst (apply_interest_to_all_accounts round2 clock st)).
Proof.
  unfold apply_interest_to_all_accounts.
  destruct (accounts st) as [|e r] eqn:Hacc; [apply ledger_step_refl|].
  cbv iota. set (items := e :: r) in *.
  pose proof (accrue_keys round2 INTEREST_RATE clock items 0 0) as Hk.
  pose proof (fun k a => accrue_get round2 INTEREST_RATE clock items 0 0 k a)
    as Hg.
  destruct (accrue round2 INTEREST_RATE clock items 0 0) as [accts [n total]].
  cbn [fst snd] in Hk, Hg. repeat split; simpl.
  - now rewrite Hacc.
  - rewrite Hacc. intros k a Ha. specialize (Hg k a Ha).
    destruct (interest_earned round2 INTEREST_RATE a) as [i|].
    + destruct Hg as [ts Hg]. eexists. split; [exact Hg|].
      apply extends_credit.
    + exists a. split; [assumption|apply extends_refl].
Qed.

Lemma keys_set_fresh (V : Type) (k : string) (v : V) (d : Dict.t V) :
  Dict.get k d = None -> Dict.keys (Dict.set k v d) = (Dict.keys d ++ [k])%list.
Proof.
  induction d as [|[k0 v0] r IH]; simpl; [reflexivity|].
  destruct (String.eqb k k0); [discriminate|].
  intros H. simpl. f_equal. now apply IH.
Qed.

Lemma history_kept_of_step (st st' : bank) :
  ledger_step st st' -> history_kept st st'.
Proof.
  intros (Hu & Hn & Hk & Ha). repeat split; auto.
  - exists []. now rewrite app_nil_r.
  - now rewrite Hu.
  - rewrite Hn. lia.
Qed.

Lemma history_kept_trans (st1 st2 st3 : bank) :
  history_kept st1 st2 -> history_kept st2 st3 -> history_kept st1 st3.
Proof.
  intros (Ha & (m & Hk) & Hu & Hn) (Ha' & (m' & Hk') & Hu' & Hn').
  repeat split; try congruence.
  - intros k a H. destruct (Ha k a H) as (b & Hb & Hab).
    destruct (Ha' k b Hb) as (c & Hc & Hbc).
    exists c. split; [assumption|]. eapply extends_trans; eauto.
  - exists (m ++ m')%list. now rewrite Hk', Hk, app_assoc.
  - lia.
Qed.

(** Equal tables and a counter that has not decreased keep the
    history. *)
Lemma history_kept_tables (st st' : bank) :
  users st' = users st -> accounts st' = accounts st ->
  (next_account_number st <= next_account_number st')%N ->
  history_kept st st'.
Proof.
  intros Hu Ha Hn. repeat split.
  - intros k a H. exists a. rewrite Ha. split; [assumption|].
    apply extends_refl.
  - exists []. now rewrite Ha, app_nil_r.
  - now rewrite Hu.
  - assumption.
Qed.

Lemma create_keeps_history (nic : string) (deposits : list answer)
    (ts_created ts_tx : string) (st : bank) :
  history_kept st
    (fst (create_customer_bank_account nic deposits ts_created ts_tx st)).
Proof.
  pose proof (create_refused nic deposits ts_created ts_tx st) as Hr.
  destruct (create_customer_bank_account nic deposits ts_created ts_tx st)
    as [st' o] eqn:E.
  destruct o;
    try (cbn [fst snd] in *;
         destruct Hr as (Hu & Ha & Hn & _); [discriminate|];
         now apply history_kept_tables).
  clear Hr. apply create_completed in E
    as (u & d & n & Hu & _ & _ & Hfree & Hle & ->).
  repeat split; simpl.
  - intros k a Hk. exists a. split; [|apply extends_refl].
    rewrite get_set_other; [assumption|]. congruence.
  - eexists. now apply keys_set_fresh.
  - eapply keys_set_present; eauto.
  - lia.
Qed.

Lemma run_keeps_history (round2 : float -> float) (st : bank)
    (op : operation) :
  history_kept st (run round2 st op).
Proof.
  destruct op; simpl.
  - apply create_keeps_history.
  - apply history_kept_of_step, make_deposit_step.
  - apply history_kept_of_step, make_withdrawal_step.
  - apply history_kept_of_step, transfer_funds_step.
  - apply history_kept_of_step, apply_interest_step.
Qed.

(** X3.  Nothing is ever removed or rewritten.  After any finite
    sequence of operations, every account that existed still exists
    under its number, with the owner and the creation time it had and
    with the transactions it had followed by the new ones; the account
    numbers that existed come first, in the same order; the users are
    the same; the counter has not decreased. *)
Theorem history_kept_after_operations
    (round2 : float -> float) (ops : list operation) (st : bank) :
  history_kept st (fold_left (run round2) ops st).
Proof.
  revert st. induction ops as [|op ops IH]; intros st; simpl.
  - apply history_kept_of_step, ledger_step_refl.
  - eapply history_kept_trans; [apply run_keeps_history|apply IH].
Qed.

(** ** Operations that fail change nothing *)

Lemma accrue_nothing (round2 : float -> float) (rate : float)
    (clock : nat -> string) (items : Dict.t account) (n : nat)
    (total : float) :
  interests round2 rate items = [] ->
  fst (accrue round2 rate clock items n total) = items.
Proof.
  revert n total. induction items as [|[k a] r IH]; intros n total; simpl.
  - reflexivity.
  - destruct (interest_earned round2 rate a) as [i|]; [discriminate|].
    intros H. specialize (IH n total H).
    destruct (accrue round2 rate clock r n total). simpl in *. now rewrite IH.
Qed.

Lemma with_accounts_same (st : bank) : with_accounts st (accounts st) = st.
Proof. now destruct st. Qed.

Lemma apply_interest_nothing (round2 : float -> float)
    (clock : nat -> string) (st : bank) :
  (forall n total,
     snd (apply_interest_to_all_accounts round2 clock st)
     <> InterestApplied n total) ->
  fst (apply_interest_to_all_accounts round2 clock st) = st.
Proof.
  unfold apply_interest_to_all_accounts.
  destruct (accounts st) as [|e r] eqn:Hacc; [reflexivity|].
  cbv iota. set (items := e :: r) in *.
  pose proof (accrue_totals round2 INTEREST_RATE clock items 0 0) as Ht.
  pose proof (accrue_nothing round2 INTEREST_RATE clock items 0 0) as Hn.
  destruct (accrue round2 INTEREST_RATE clock items 0 0) as [accts [n total]].
  cbn [fst snd] in *. apply pair_equal_spec in Ht as [Hc _].
  destruct (interests round2 INTEREST_RATE items) as [|i l].
  - intros _. rewrite Hn by reflexivity. rewrite <- Hacc.
    apply with_accounts_same.
  - intros H. exfalso. subst n. simpl in H. now apply (H (S (List.length l)) total).
Qed.

(** X4.  There are no partial updates of the tables.  An operation
    that does not end with its success message (the prompt was
    abandoned, the profile or the account was not found, the funds were
    insufficient, the recipient was refused, no account earned interest,
    or [str] refused the counter) leaves the users and the accounts
    exactly as they were, and the counter not below what it was.  The
    counter too is as it was, with one exception: an account creation
    in which [str] refuses the counter, a number of more than 4300
    digits, leaves the counter at the number refused, to which the loop
    of [generate_account_number] may have advanced it. *)
Theorem failed_operation_changes_nothing
    (round2 : float -> float) (st : bank) (op : operation) :
  succeeded round2 st op = false ->
  users (run round2 st op) = users st /\
  accounts (run round2 st op) = accounts st /\
  (next_account_number st <= next_account_number (run round2 st op))%N /\
  (run round2 st op = st
   \/ (exists nic deposits ts_created ts_tx,
         op = Create nic deposits ts_created ts_tx) /\
      str_of_int (next_account_number (run round2 st op)) = None).
Proof.
  assert (forall st' : bank,
            st' = st ->
            users st' = users st /\ accounts st' = accounts st /\
            (next_account_number st <= next_account_number st')%N /\
            (st' = st
             \/ (exists nic deposits ts_created ts_tx,
                   op = Create nic deposits ts_created ts_tx) /\
                str_of_int (next_account_number st') = None)) as Hsame.
  { intros st' ->. repeat split; [lia|now left]. }
  destruct op; cbn [run succeeded]; intros H.
  - destruct (create_refused customer_nic deposits ts_created ts_tx st)
      as (Hu & Ha & Hn & Hc).
    { intros E. now rewrite E in H. }
    repeat split; try assumption.
    destruct Hc as [Hc|[_ Hc]]; [now left|right].
    split; [|assumption]. now exists customer_nic, deposits, ts_created, ts_tx.
  - apply Hsame, make_deposit_refused. intros E. now rewrite E in H.
  - apply Hsame, make_withdrawal_refused. intros E. now rewrite E in H.
  - apply Hsame, transfer_funds_refused. intros E. now rewrite E in H.
  - apply Hsame, apply_interest_nothing. intros n total E. now rewrite E in H.
Qed.

(** [X] holds 100 and asks for 500: the withdrawal is refused and the
    bank is the same. *)
Lemma failed_operation_changes_nothing_witness :
  users (run py_round2 demo_bank (Withdraw "X" [] [Number 500] demo_time))
  = users demo_bank /\
  accounts (run py_round2 demo_bank (Withdraw "X" [] [Number 500] demo_time))
  = accounts demo_bank /\
  (next_account_number demo_bank
   <= next_account_number
        (run py_round2 demo_bank
           (Withdraw "X" [] [Number 500] demo_time)))%N /\
  (run py_round2 demo_bank (Withdraw "X" [] [Number 500] demo_time)
   = demo_bank
   \/ (exists nic deposits ts_created ts_tx,
         Withdraw "X" [] [Number 500] demo_time
         = Create nic deposits ts_created ts_tx) /\
      str_of_int
        (next_account_number
           (run py_round2 demo_bank
              (Withdraw "X" [] [Number 500] demo_time))) = None).
Proof.
  apply (failed_operation_changes_nothing py_round2 demo_bank
           (Withdraw "X" [] [Number 500] demo_time)).
  vm_compute. reflexivity.
Defined.

(** ** Users and their accounts *)

(** A ledger step leaves each account with its owner. *)
Lemma ledger_step_back (st st' : bank) (k : string) (a' : account) :
  ledger_step st st' ->
  Dict.get k (accounts st') = Some a' ->
  exists a, Dict.get k (accounts st) = Some a /\ extends a a'.
Proof.
  intros (_ & _ & Hk & Ha) H.
  apply get_some_in_keys in H as Hin. rewrite Hk in Hin.
  apply in_keys_get in Hin as [a Hget].
  destruct (Ha k a Hget) as (a'' & Hget' & Hext).
  exists a. split; [assumption|]. congruence.
Qed.

Lemma ledger_step_ownership (st st' : bank) :
  ledger_step st st' -> ownership_consistent st -> ownership_consistent st'.
Proof.
  intros Hstep (Hex & Hown & Honce). pose proof Hstep as (Hu & _ & _ & Ha).
  repeat split.
  - intros nic u acc_num Hget Hin. rewrite Hu in Hget.
    destruct (Hex nic u acc_num Hget Hin) as (a & Hacc & Ho).
    destruct (Ha acc_num a Hacc) as (a' & Hacc' & (Ho' & _)).
    exists a'. split; [assumption|congruence].
  - intros acc_num a' Hget.
    destruct (ledger_step_back st st' acc_num a' Hstep Hget)
      as (a & Hacc & (Ho & _)).
    rewrite Hu, Ho. now apply Hown.
  - intros nic u Hget. rewrite Hu in Hget. now apply (Honce nic u).
Qed.

Lemma owned_with_owned (u : user) (acc_num : string) :
  owned_or_empty (with_owned u acc_num)
  = (owned_or_empty u ++ [acc_num])%list.
Proof. reflexivity. Qed.

(** The agreement of the two tables is a property of the tables. *)
Lemma ownership_tables (st st' : bank) :
  users st' = users st -> accounts st' = accounts st ->
  ownership_consistent st -> ownership_consistent st'.
Proof.
  unfold ownership_consistent, owned_accounts_exist, accounts_are_owned,
    owned_once.
  intros -> ->. tauto.
Qed.

Lemma create_keeps_ownership (nic : string) (deposits : list answer)
    (ts_created ts_tx : string) (st : bank) :
  ownership_consistent st ->
  ownership_consistent
    (fst (create_customer_bank_account nic deposits ts_created ts_tx st)).
Proof.
  intros Hc.
  pose proof (create_refused nic deposits ts_created ts_tx st) as Hr.
  destruct (create_customer_bank_account nic deposits ts_created ts_tx st)
    as [st' o] eqn:E.
  destruct o;
    try (cbn [fst snd] in *;
         destruct Hr as (Hu & Ha & _); [discriminate|];
         now apply (ownership_tables st st')).
  clear Hr. destruct Hc as (Hex & Hown & Honce).
  apply create_completed in E
    as (u & d & n & Hu & _ & _ & Hfree & _ & ->).
  set (acc := PyStr.of_N n) in *. cbn [fst].
  repeat split; cbn [users accounts].
  - intros nic' u' acc_num Hget Hin. cbn [users accounts] in *.
    destruct (String.eqb_spec nic' nic) as [->|Hne].
    + rewrite get_set_same in Hget. inversion Hget; subst u'.
      rewrite owned_with_owned in Hin. apply in_app_or in Hin as [Hin|Hin].
      * destruct (Hex nic u acc_num Hu Hin) as (a & Ha & Ho).
        exists a. split; [|assumption].
        rewrite get_set_other; [assumption|]. congruence.
      * destruct Hin as [<-|[]]. rewrite get_set_same.
        eexists. split; reflexivity.
    + rewrite get_set_other in Hget by assumption.
      destruct (Hex nic' u' acc_num Hget Hin) as (a & Ha & Ho).
      exists a. split; [|assumption].
      rewrite get_set_other; [assumption|]. congruence.
  - intros acc_num a Hget. cbn [users accounts] in *.
    destruct (String.eqb_spec acc_num acc) as [->|Hne].
    + rewrite get_set_same in Hget. inversion Hget; subst a.
      cbn [owner_nic opened]. rewrite get_set_same.
      eexists. split; [reflexivity|].
      rewrite owned_with_owned. apply in_or_app. right. now left.
    + rewrite get_set_other in Hget by assumption.
      destruct (Hown acc_num a Hget) as (u0 & Hu0 & Hin).
      destruct (String.eqb_spec (owner_nic a) nic) as [Heq|Hneq].
      * rewrite Heq in *. rewrite get_set_same.
        eexists. split; [reflexivity|].
        rewrite owned_with_owned. apply in_or_app. left. congruence.
      * rewrite get_set_other by assumption. eauto.
  - intros nic' u' Hget. cbn [users accounts] in *.
    destruct (String.eqb_spec nic' nic) as [->|Hne].
    + rewrite get_set_same in Hget. inversion Hget; subst u'.
      rewrite owned_with_owned. apply NoDup_app.
      * now apply (Honce nic u).
      * repeat constructor. intros [].
      * intros x Hin [<-|[]].
        destruct (Hex nic u acc Hu Hin) as (a & Ha & _). congruence.
    + rewrite get_set_other in Hget by assumption.
      now apply (Honce nic' u').
Qed.

Lemma run_keeps_ownership (round2 : float -> float) (st : bank)
    (op : operation) :
  ownership_consistent st -> ownership_consistent (run round2 st op).
Proof.
  destruct op; simpl.
  - apply create_keeps_ownership.
  - apply ledger_step_ownership, make_deposit_step.
  - apply ledger_step_ownership, make_withdrawal_step.
  - apply ledger_step_ownership, transfer_funds_step.
  - apply ledger_step_ownership, apply_interest_step.
Qed.

(** X5.  The two tables stay in agreement.  If every account number in
    a user's list is an account that names this user as its owner, every
    account is in the list of its owner, and no list holds a number
    twice, then the same is true after any finite sequence of account
    creations, deposits, withdrawals, transfers and interest accruals. *)
Theorem ownership_consistent_after_operations
    (round2 : float -> float) (ops : list operation) (st : bank) :
  ownership_consistent st ->
  ownership_consistent (fold_left (run round2) ops st).
Proof.
  revert st. induction ops as [|op ops IH]; intros st H; simpl.
  - assumption.
  - apply IH. now apply run_keeps_ownership.
Qed.

Lemma registered_ownership : ownership_consistent demo_registered.
Proof.
  repeat split.
  - intros nic u acc_num Hget Hin. simpl in Hget.
    destruct (String.eqb nic "X"); [inversion Hget; subst; destruct Hin|].
    destruct (String.eqb nic "Y"); [inversion Hget; subst; destruct Hin|].
    discriminate.
  - intros acc_num a Hget. discriminate.
  - intros nic u Hget. simpl in Hget.
    destruct (String.eqb nic "X"); [inversion Hget; subst; constructor|].
    destruct (String.eqb nic "Y"); [inversion Hget; subst; constructor|].
    discriminate.
Qed.

Lemma ownership_consistent_after_operations_witness :
  ownership_consistent (fold_left (run py_round2) demo_operations
                          demo_registered).
Proof.
  apply (ownership_consistent_after_operations py_round2 demo_operations
           demo_registered).
  exact registered_ownership.
Defined.

(** ** The selected account *)

Lemma prompt_choice_owned (owned : list string) (tape : list (option Z))
    (acc_num : string) :
  prompt_choice owned tape = Some acc_num -> In acc_num owned.
Proof.
  induction tape as [|[choice|] rest IH]; simpl; try discriminate; auto.
  destruct ((1 <=? choice) && (choice <=? Z.of_nat (List.length owned)))%Z;
    auto.
  apply nth_error_In.
Qed.

Lemma choose_customer_account_owned (st : bank) (nic : string)
    (choices : list (option Z)) (acc_num : string) :
  choose_customer_account st nic choices = Selected acc_num ->
  exists u, Dict.get nic (users st) = Some u /\
            In acc_num (owned_or_empty u).
Proof.
  unfold choose_customer_account.
  destruct (Dict.get nic (users st)) as [u|]; [|discriminate].
  destruct (owned_or_empty u) as [|x [|y l]] eqn:Ho; [discriminate| |].
  - intros H. inversion H. exists u. split; [reflexivity|].
    rewrite Ho. now left.
  - destruct (prompt_choice (x :: y :: l) choices) as [k|] eqn:Hp;
      [|discriminate].
    intros H. inversion H; subst k. exists u. split; [reflexivity|].
    rewrite Ho. now apply prompt_choice_owned in Hp.
Qed.

(** X6.  The account a customer selects is one of the accounts of
    this customer: a number of the list [owned_accounts] of the user
    found under the NIC.  When every number a user owns is a key of the
    accounts table, a deposit, a withdrawal or a transfer therefore
    never ends in the internal error that reports the selected account
    as missing from the accounts table. *)
Theorem selected_account_is_found (st : bank) (nic : string)
    (choices : list (option Z)) :
  (forall acc_num,
     choose_customer_account st nic choices = Selected acc_num ->
     exists user_data,
       Dict.get nic (users st) = Some user_data /\
       In acc_num (owned_or_empty user_data))
  /\ (owned_accounts_are_keys st ->
      (forall amounts ts,
         snd (make_deposit nic choices amounts ts st)
         <> AccountDataNotFound)
      /\ (forall amounts ts,
            snd (make_withdrawal nic choices amounts ts st)
            <> AccountDataNotFound)
      /\ (forall recipient amounts ts_sent ts_received,
            snd (transfer_funds nic choices recipient amounts ts_sent
                   ts_received st) <> AccountDataNotFound)).
Proof.
  split; [intros acc_num; apply choose_customer_account_owned|].
  intros Hkeys.
  assert (forall acc_num,
            choose_customer_account st nic choices = Selected acc_num ->
            exists a, Dict.get acc_num (accounts st) = Some a) as Hsel.
  { intros acc_num H.
    apply choose_customer_account_owned in H as (u & Hu & Hin).
    specialize (Hkeys nic u acc_num Hu Hin). unfold Dict.mem in Hkeys.
    destruct (Dict.get acc_num (accounts st)) as [a|]; [eauto|discriminate]. }
  repeat split; intros.
  - unfold make_deposit.
    destruct (choose_customer_account st nic choices) as [acc| |];
      try discriminate.
    destruct (Hsel acc eq_refl) as (a & ->).
    repeat match goal with
           | |- context [match ?x with _ => _ end] => destruct x
           end; discriminate.
  - unfold make_withdrawal.
    destruct (choose_customer_account st nic choices) as [acc| |];
      try discriminate.
    destruct (Hsel acc eq_refl) as (a & ->).
    repeat match goal with
           | |- context [match ?x with _ => _ end] => destruct x
           end; discriminate.
  - unfold transfer_funds.
    destruct (choose_customer_account st nic choices) as [acc| |];
      try discriminate.
    destruct (Hsel acc eq_refl) as (a & ->).
    repeat match goal with
           | |- context [match ?x with _ => _ end] => destruct x
           end; discriminate.
Qed.

Lemma demo_bank_ownership : ownership_consistent demo_bank.
Proof.
  unfold demo_bank. do 2 apply create_keeps_ownership.
  exact registered_ownership.
Qed.

(** Owned numbers that are accounts of their user are keys. *)
Lemma owned_accounts_exist_keys (st : bank) :
  owned_accounts_exist st -> owned_accounts_are_keys st.
Proof.
  intros H nic u acc_num Hu Hin.
  destruct (H nic u acc_num Hu Hin) as (a & Ha & _).
  unfold Dict.mem. now rewrite Ha.
Qed.

(** On the demo bank [X] has one account, which is selected and
    found. *)
Lemma selected_account_is_found_witness :
  (exists user_data,
     Dict.get "X" (users demo_bank) = Some user_data /\
     In "1001" (owned_or_empty user_data))
  /\ snd (make_deposit "X" [] [] demo_time demo_bank)
     <> AccountDataNotFound
  /\ snd (make_withdrawal "X" [] [] demo_time demo_bank)
     <> AccountDataNotFound
  /\ snd (transfer_funds "X" [] "1002" [] demo_time demo_time demo_bank)
     <> AccountDataNotFound.
Proof.
  destruct (selected_account_is_found demo_bank "X" []) as [Hsel Hfound].
  split; [exact (Hsel "1001" eq_refl)|].
  destruct (Hfound (owned_accounts_exist_keys demo_bank
                      (proj1 demo_bank_ownership)))
    as (Hd & Hw & Ht).
  split; [apply Hd|split; [apply Hw|apply Ht]].
Defined.

(** ** Successive account numbers *)

(** X7.  No number is handed out twice.  When a call of
    [generate_account_number] has returned a number, a later call that
    returns one, on any bank whose counter is not below the one the
    first call left (whatever its accounts table holds, the first number
    stored in it or not), returns another number, the text of a greater
    one; each is not a key of the accounts table its call saw. *)
Theorem generate_account_number_twice
    (st st1 later st2 : bank) (first second : string) :
  generate_account_number st = Some (Generated first st1) ->
  (next_account_number st1 <= next_account_number later)%N ->
  generate_account_number later = Some (Generated second st2) ->
  exists n m : N,
    first = PyStr.of_N n /\ second = PyStr.of_N m /\ (n < m)%N /\
    first <> second /\
    Dict.get first (accounts st) = None /\
    Dict.get second (accounts later) = None.
Proof.
  intros H1 Hlater H2.
  apply generate_account_number_result in H1 as (n & -> & Hn & _ & ->).
  apply generate_account_number_result in H2 as (m & -> & Hm & Hle & _).
  simpl in Hlater. exists n, m. repeat split; auto; try lia.
  intros E. apply of_N_inj in E. lia.
Qed.

(** On the demo bank the next number is 1003; once an account was
    opened under it, the next is 1004. *)
Lemma generate_account_number_twice_witness :
  exists n m : N,
    "1003" = PyStr.of_N n /\ "1004" = PyStr.of_N m /\ (n < m)%N /\
    "1003" <> "1004" /\
    Dict.get "1003" (accounts demo_bank) = None /\
    Dict.get "1004"
      (accounts
         (fst (create_customer_bank_account "X" [Blank] demo_time demo_time
                 demo_bank))) = None.
Proof.
  apply (generate_account_number_twice demo_bank
           {| users := users demo_bank; accounts := accounts demo_bank;
              next_account_number := 1004 |}
           (fst (create_customer_bank_account "X" [Blank] demo_time
                   demo_time demo_bank))
           {| users :=
                users
                  (fst (create_customer_bank_account "X" [Blank] demo_time
                          demo_time demo_bank));
              accounts :=
                accounts
                  (fst (create_customer_bank_account "X" [Blank] demo_time
                          demo_time demo_bank));
              next_account_number := 1005 |}
           "1003" "1004").
  - vm_compute. reflexivity.
  - vm_compute. discriminate.
  - vm_compute. reflexivity.
Defined.

(** ** Registration *)

Lemma rstrip_first (c : ascii) (r : string) :
  PyStr.is_space c = false ->
  PyStr.rstrip (String c r) = String c (PyStr.rstrip r).
Proof.
  intros Hc. simpl. rewrite Hc. now destruct (PyStr.rstrip r).
Qed.

Lemma rstrip_idempotent (s : string) :
  PyStr.rstrip (PyStr.rstrip s) = PyStr.rstrip s.
Proof.
  induction s as [|c r IH]; [reflexivity|].
  simpl. destruct (PyStr.rstrip r) as [|c' r'] eqn:E.
  - destruct (PyStr.is_space c) eqn:Hc; [reflexivity|].
    simpl. now rewrite Hc.
  - change (PyStr.rstrip (String c (String c' r'))) with
      (match PyStr.rstrip (String c' r') with
       | EmptyString =>
           if PyStr.is_space c then EmptyString else String c EmptyString
       | r'' => String c r''
       end).
    now rewrite IH.
Qed.

Lemma lstrip_first (s : string) :
  match PyStr.lstrip s with
  | EmptyString => True
  | String c _ => PyStr.is_space c = false
  end.
Proof.
  induction s as [|c r IH]; simpl; [exact I|].
  destruct (PyStr.is_space c) eqn:Hc; [assumption|]. simpl. assumption.
Qed.

(** [s.strip().strip() == s.strip()] *)
Lemma strip_idempotent (s : string) :
  PyStr.strip (PyStr.strip s) = PyStr.strip s.
Proof.
  unfold PyStr.strip. pose proof (lstrip_first s) as H.
  destruct (PyStr.lstrip s) as [|c r]; [reflexivity|].
  rewrite (rstrip_first c r H).
  cbn [PyStr.lstrip]. rewrite H.
  rewrite (rstrip_first c _ H). now rewrite rstrip_idempotent.
Qed.

Lemma strip_is_stripped (s : string) : is_stripped (PyStr.strip s) = true.
Proof. unfold is_stripped. rewrite strip_idempotent. apply String.eqb_refl. Qed.

Lemma set_fresh (V : Type) (k : string) (v : V) (d : Dict.t V) :
  Dict.get k d = None -> Dict.set k v d = (d ++ [(k, v)])%list.
Proof.
  induction d as [|[k0 v0] r IH]; simpl; [reflexivity|].
  destruct (String.eqb k k0); [discriminate|].
  intros H. f_equal. now apply IH.
Qed.

Lemma prompt_nic_accepted (registered : Dict.t user) (tape : list string)
    (nic : string) (rest : list string) :
  prompt_nic registered tape = NicAccepted nic rest ->
  nic <> "" /\ is_stripped nic = true /\ free_of_delimiters nic = true /\
  Dict.get nic registered = None /\
  exists line, In line tape /\ nic = PyStr.strip line.
Proof.
  induction tape as [|line tape IH]; simpl; [discriminate|].
  destruct (PyStr.strip line) as [|c r] eqn:Hs.
  - simpl. intros H. destruct (IH H) as (? & ? & ? & ? & l & ? & ?).
    repeat split; eauto.
  - cbn [PyStr.is_empty].
    destruct (Dict.mem (String c r) registered) eqn:Hm; [discriminate|].
    destruct (PyStr.contains DATA_DELIMITER (String c r)
              || PyStr.contains LIST_DELIMITER (String c r)) eqn:Hd.
    + intros H. destruct (IH H) as (? & ? & ? & ? & l & ? & ?).
      repeat split; eauto.
    + intros H. inversion H; subst nic rest. repeat split.
      * discriminate.
      * rewrite <- Hs. apply strip_is_stripped.
      * unfold free_of_delimiters. now rewrite Hd.
      * now apply mem_false_get.
      * exists line. split; [now left|now rewrite Hs].
Qed.

(** A registered NIC stops the registration, wherever it comes on the
    tape. *)
Lemma prompt_nic_taken (registered : Dict.t user) (tape : list string) :
  prompt_nic registered tape = NicTaken ->
  exists line, In line tape /\
               Dict.mem (PyStr.strip line) registered = true.
Proof.
  induction tape as [|line tape IH]; simpl; [discriminate|].
  destruct (PyStr.is_empty (PyStr.strip line)).
  - intros H. destruct (IH H) as (l & ? & ?). eauto.
  - destruct (Dict.mem (PyStr.strip line) registered) eqn:Hm.
    + intros _. exists line. split; [now left|assumption].
    + destruct (PyStr.contains DATA_DELIMITER (PyStr.strip line)
                || PyStr.contains LIST_DELIMITER (PyStr.strip line));
        [|discriminate].
      intros H. destruct (IH H) as (l & ? & ?). eauto.
Qed.

Lemma prompt_dob_valid (tape : list string) (dob_input : string)
    (rest : list string) :
  prompt_dob tape = Some (dob_input, rest) -> is_valid_dob dob_input = true.
Proof.
  induction tape as [|line tape IH]; simpl; [discriminate|].
  destruct (is_valid_dob (PyStr.strip line)) eqn:Hv; [|assumption].
  intros H. inversion H. now subst.
Qed.

Lemma prompt_password_bounded (n : nat) (tape : list string)
    (password : string) (rest : list string) :
  (List.length tape <= n)%nat ->
  prompt_password tape = Some (password, rest) ->
  (6 <= String.length password)%nat /\
  exists before, tape = (before ++ password :: password :: rest)%list.
Proof.
  revert tape. induction n as [|n IH]; intros tape Hn.
  - destruct tape; [discriminate|simpl in Hn; lia].
  - destruct tape as [|pwd1 tape]; [discriminate|].
    simpl in Hn. simpl.
    destruct (PyStr.is_empty pwd1).
    { intros H. apply IH in H as (Hl & before & ->); [|lia].
      split; [assumption|]. now exists (pwd1 :: before). }
    destruct (String.length pwd1 <? 6)%nat eqn:Hlen.
    { intros H. apply IH in H as (Hl & before & ->); [|lia].
      split; [assumption|]. now exists (pwd1 :: before). }
    destruct tape as [|pwd2 tape]; [discriminate|]. simpl in Hn.
    destruct (String.eqb_spec pwd1 pwd2) as [<-|Hne].
    + intros H. inversion H; subst. split.
      * now apply Nat.ltb_ge in Hlen.
      * now exists [].
    + intros H. apply IH in H as (Hl & before & ->); [|lia].
      split; [assumption|]. now exists (pwd1 :: pwd2 :: before).
Qed.

(** The password kept has six characters or more and was typed twice in
    a row. *)
Lemma prompt_password_confirmed (tape : list string) (password : string)
    (rest : list string) :
  prompt_password tape = Some (password, rest) ->
  (6 <= String.length password)%nat /\
  exists before, tape = (before ++ password :: password :: rest)%list.
Proof. apply (prompt_password_bounded (List.length tape)). lia. Qed.

(** The loops hand over the end of the tape they were given. *)
Lemma prompt_nic_tail (registered : Dict.t user) (tape : list string)
    (nic : string) (rest : list string) :
  prompt_nic registered tape = NicAccepted nic rest ->
  exists before, tape = (before ++ rest)%list.
Proof.
  induction tape as [|line tape IH]; simpl; [discriminate|].
  assert (prompt_nic registered tape = NicAccepted nic rest ->
          exists before, line :: tape = (before ++ rest)%list) as Hnext.
  { intros H. destruct (IH H) as (b & ->). now exists (line :: b). }
  destruct (PyStr.is_empty (PyStr.strip line)); [assumption|].
  destruct (Dict.mem (PyStr.strip line) registered); [discriminate|].
  destruct (PyStr.contains DATA_DELIMITER (PyStr.strip line)
            || PyStr.contains LIST_DELIMITER (PyStr.strip line));
    [assumption|].
  intros H. inversion H; subst. now exists [line].
Qed.

Lemma prompt_nic_line (registered : Dict.t user) (tape : list string)
    (nic : string) (rest : list string) :
  prompt_nic registered tape = NicAccepted nic rest ->
  exists before nic_line,
    tape = (before ++ nic_line :: rest)%list /\ nic = PyStr.strip nic_line.
Proof.
  induction tape as [|line tape IH]; simpl; [discriminate|].
  assert (prompt_nic registered tape = NicAccepted nic rest ->
          exists before nic_line,
            line :: tape = (before ++ nic_line :: rest)%list /\
            nic = PyStr.strip nic_line) as Hnext.
  { intros H. destruct (IH H) as (b & l & -> & Hl).
    now exists (line :: b), l. }
  destruct (PyStr.is_empty (PyStr.strip line)); [assumption|].
  destruct (Dict.mem (PyStr.strip line) registered); [discriminate|].
  destruct (PyStr.contains DATA_DELIMITER (PyStr.strip line)
            || PyStr.contains LIST_DELIMITER (PyStr.strip line));
    [assumption|].
  intros H. inversion H; subst. now exists [], line.
Qed.

Lemma prompt_dob_tail (tape : list string) (dob_input : string)
    (rest : list string) :
  prompt_dob tape = Some (dob_input, rest) ->
  exists before, tape = (before ++ rest)%list.
Proof.
  induction tape as [|line tape IH]; simpl; [discriminate|].
  destruct (is_valid_dob (PyStr.strip line)).
  - intros H. inversion H; subst. now exists [line].
  - intros H. destruct (IH H) as (b & ->). now exists (line :: b).
Qed.

Section AuthenticationFacts.

Variable hash_password : string -> string.

Lemma register_user_registered (user_role : string) (tape : list string)
    (st st' : bank) :
  register_user hash_password user_role tape st = (st', Registered) ->
  exists nic name_line address_line dob_input password rest rest',
    prompt_nic (users st) tape
    = NicAccepted nic (name_line :: address_line :: rest) /\
    prompt_dob rest = Some (dob_input, rest') /\
    (exists rest'', prompt_password rest' = Some (password, rest'')) /\
    st' = {| users :=
               Dict.set nic
                 {| name := title (PyStr.strip name_line);
                    address := PyStr.strip address_line;
                    dob := dob_input;
                    password_hash := hash_password password;
                    role := user_role;
                    owned_accounts :=
                      if String.eqb user_role "customer" then Some []
                      else None |}
                 (users st);
             accounts := accounts st;
             next_account_number := next_account_number st |}.
Proof.
  unfold register_user.
  destruct (prompt_nic (users st) tape) as [nic rest| |] eqn:Hn;
    try discriminate.
  destruct rest as [|name_line [|address_line rest]]; try discriminate.
  destruct (prompt_dob rest) as [[dob_input rest']|] eqn:Hd;
    [|discriminate].
  destruct (prompt_password rest') as [[password rest'']|] eqn:Hp;
    [|discriminate].
  intros H. inversion H.
  exists nic, name_line, address_line, dob_input, password, rest, rest'.
  repeat split; eauto.
Qed.

Lemma register_user_refused (user_role : string) (tape : list string)
    (st : bank) :
  snd (register_user hash_password user_role tape st) <> Registered ->
  fst (register_user hash_password user_role tape st) = st.
Proof.
  unfold register_user.
  repeat match goal with
         | |- context [match ?x with _ => _ end] => destruct x
         end; simpl; congruence.
Qed.

Lemma attempt_password_verified (attempts : nat) (stored_hash : string)
    (tape : list string) :
  attempt_password hash_password attempts stored_hash tape = Some true <->
  exists k password,
    (k < attempts)%nat /\ nth_error tape k = Some password /\
    stored_hash = hash_password password.
Proof.
  revert tape. induction attempts as [|n IH]; intros tape; simpl.
  - split; [discriminate|]. intros (k & p & Hk & _). lia.
  - destruct tape as [|password rest].
    + split; [discriminate|]. intros (k & p & _ & Hk & _).
      now destruct k.
    + unfold verify_password.
      destruct (String.eqb_spec stored_hash (hash_password password))
        as [He|Hne].
      * split; [|reflexivity]. intros _. exists 0%nat, password.
        repeat split; [lia|assumption].
      * rewrite IH. split.
        -- intros (k & p & Hk & Hnth & Hh). exists (S k), p.
           repeat split; [lia|assumption|assumption].
        -- intros (k & p & Hk & Hnth & Hh). destruct k as [|k].
           ++ simpl in Hnth. inversion Hnth; subst. contradiction.
           ++ exists k, p. repeat split; [lia|assumption|assumption].
Qed.

Lemma attempt_password_used_up (attempts : nat) (stored_hash : string)
    (tape : list string) :
  attempt_password hash_password attempts stored_hash tape = Some false <->
  (attempts <= List.length tape)%nat /\
  forall k password,
    (k < attempts)%nat -> nth_error tape k = Some password ->
    stored_hash <> hash_password password.
Proof.
  revert tape. induction attempts as [|n IH]; intros tape; simpl.
  - split; [|reflexivity]. intros _. split; [lia|]. intros; lia.
  - destruct tape as [|password rest].
    + split; [discriminate|]. simpl. intros [H _]. lia.
    + unfold verify_password.
      destruct (String.eqb_spec stored_hash (hash_password password))
        as [He|Hne].
      * split; [discriminate|]. intros [_ H]. exfalso.
        apply (H 0%nat password); [lia|reflexivity|assumption].
      * rewrite IH. simpl. split.
        -- intros [Hl H]. split; [lia|]. intros [|k] p Hk Hnth.
           ++ simpl in Hnth. inversion Hnth; now subst.
           ++ apply (H k); [lia|assumption].
        -- intros [Hl H]. split; [lia|]. intros k p Hk Hnth.
           apply (H (S k)); [lia|assumption].
Qed.

End AuthenticationFacts.

(** X8.  What a registration does.  When [register_user] returns
    [True], the bank has one more user, put last under a NIC that was
    not registered, is not empty, has no space at either end and holds
    neither delimiter; every other user, the accounts and the counter
    are as they were; the new user has the role asked for, an empty list
    of accounts exactly when a customer, a date of birth in the pattern
    and the digest of a password of six characters or more that the tape
    holds twice in a row.  When it returns [False] or a prompt raises,
    nothing has changed. *)
Theorem register_user_adds_one_user
    (hash_password : string -> string) (user_role : string)
    (tape : list string) (st : bank) :
  match register_user hash_password user_role tape st with
  | (st', Registered) =>
      exists nic user_data password,
        nic <> "" /\ is_stripped nic = true /\
        free_of_delimiters nic = true /\
        Dict.get nic (users st) = None /\
        users st' = (users st ++ [(nic, user_data)])%list /\
        accounts st' = accounts st /\
        next_account_number st' = next_account_number st /\
        role user_data = user_role /\
        owned_accounts user_data
        = (if String.eqb user_role "customer" then Some [] else None) /\
        is_valid_dob (dob user_data) = true /\
        is_stripped (address user_data) = true /\
        password_hash user_data = hash_password password /\
        (6 <= String.length password)%nat /\
        exists before rest,
          tape = (before ++ password :: password :: rest)%list
  | (st', _) => st' = st
  end.
Proof.
  pose proof (register_user_refused hash_password user_role tape st) as Hr.
  destruct (register_user hash_password user_role tape st) as [st' r] eqn:E.
  destruct r; try (simpl in Hr; apply Hr; discriminate).
  clear Hr. apply register_user_registered in E
    as (nic & name_line & address_line & dob_input & password & rest & rest'
        & Hn & Hd & (rest'' & Hp) & ->).
  pose proof (prompt_nic_tail (users st) tape nic _ Hn) as (b1 & Hb1).
  apply prompt_nic_accepted in Hn as (Hne & Hs & Hf & Hg & _).
  pose proof (prompt_dob_tail rest dob_input rest' Hd) as (b2 & Hb2).
  apply prompt_dob_valid in Hd.
  apply prompt_password_confirmed in Hp as (Hl & b3 & Hb3).
  exists nic,
    {| name := title (PyStr.strip name_line);
       address := PyStr.strip address_line;
       dob := dob_input;
       password_hash := hash_password password;
       role := user_role;
       owned_accounts :=
         if String.eqb user_role "customer" then Some [] else None |},
    password.
  cbn [users accounts next_account_number role owned_accounts dob address
       password_hash].
  repeat split; try assumption.
  - now apply set_fresh.
  - apply strip_is_stripped.
  - exists (b1 ++ name_line :: address_line :: b2 ++ b3)%list, rest''.
    rewrite Hb1, Hb2, Hb3. rewrite <- !app_assoc. simpl.
    now rewrite <- !app_assoc.
Qed.

(** X9.  A registered user can log in.  When [register_user] has
    returned [True], the NIC it kept is the line the NIC loop accepted,
    stripped, and the password it kept is the one the password loop
    accepted, the last two lines it read; the users table has one more
    entry, under this NIC, with the digest of this password.
    [login_user] then answers this NIC, typed with or without spaces
    around it, and this password, with the new user, at the first
    attempt; and every login that found its user before the
    registration ends as it did before. *)
Theorem registered_user_can_log_in
    (hash_password : string -> string) (user_role : string)
    (tape : list string) (st st' : bank) :
  register_user hash_password user_role tape st = (st', Registered) ->
  exists nic name_line address_line rest dob_input rest' password after
         user_data,
    prompt_nic (users st) tape
    = NicAccepted nic (name_line :: address_line :: rest) /\
    prompt_dob rest = Some (dob_input, rest') /\
    prompt_password rest' = Some (password, after) /\
    (exists before nic_line retries,
       tape = (before ++ nic_line :: name_line :: address_line
               :: retries ++ password :: password :: after)%list /\
       nic = PyStr.strip nic_line) /\
    users st' = (users st ++ [(nic, user_data)])%list /\
    password_hash user_data = hash_password password /\
    (forall line rest0,
       PyStr.strip line = nic ->
       login_user hash_password (line :: password :: rest0) st'
       = LoggedIn nic user_data) /\
    (forall tape',
       login_user hash_password tape' st <> UserNotFound ->
       login_user hash_password tape' st'
       = login_user hash_password tape' st).
Proof.
  intros E. apply register_user_registered in E
    as (nic & name_line & address_line & dob_input & password & rest & rest'
        & Hn & Hd & (after & Hp) & ->).
  pose proof (prompt_nic_line (users st) tape nic _ Hn)
    as (b1 & nic_line & Hb1 & Hnic).
  pose proof (prompt_dob_tail rest dob_input rest' Hd) as (b2 & Hb2).
  pose proof (prompt_password_confirmed _ _ _ Hp) as (_ & b3 & Hb3).
  pose proof (prompt_nic_accepted _ _ _ _ Hn) as (_ & _ & _ & Hg & _).
  exists nic, name_line, address_line, rest, dob_input, rest', password,
    after.
  eexists. cbn [users].
  split; [exact Hn|]. split; [exact Hd|]. split; [exact Hp|].
  split.
  { exists b1, nic_line, (b2 ++ b3)%list. split; [|exact Hnic].
    rewrite Hb1, Hb2, Hb3. now rewrite <- !app_assoc. }
  split; [now apply set_fresh|].
  split; [reflexivity|].
  split.
  - intros line rest0 Hs. unfold login_user. cbn [users].
    rewrite Hs, get_set_same. cbn [password_hash attempt_password].
    unfold verify_password. now rewrite String.eqb_refl.
  - intros [|line tape'] H; [reflexivity|].
    unfold login_user in *. cbn [users].
    destruct (String.eqb_spec (PyStr.strip line) nic) as [He|Hne].
    + rewrite He, Hg in H. contradiction.
    + now rewrite get_set_other.
Qed.

Lemma registered_user_can_log_in_witness :
  exists nic name_line address_line rest dob_input rest' password after
         user_data,
    prompt_nic (users demo_bank) demo_registration_tape
    = NicAccepted nic (name_line :: address_line :: rest) /\
    prompt_dob rest = Some (dob_input, rest') /\
    prompt_password rest' = Some (password, after) /\
    (exists before nic_line retries,
       demo_registration_tape
       = (before ++ nic_line :: name_line :: address_line
          :: retries ++ password :: password :: after)%list /\
       nic = PyStr.strip nic_line) /\
    users (fst (register_user demo_hash_password "customer"
                  demo_registration_tape demo_bank))
    = (users demo_bank ++ [(nic, user_data)])%list /\
    password_hash user_data = demo_hash_password password /\
    (forall line rest0,
       PyStr.strip line = nic ->
       login_user demo_hash_password (line :: password :: rest0)
         (fst (register_user demo_hash_password "customer"
                 demo_registration_tape demo_bank))
       = LoggedIn nic user_data) /\
    (forall tape',
       login_user demo_hash_password tape' demo_bank <> UserNotFound ->
       login_user demo_hash_password tape'
         (fst (register_user demo_hash_password "customer"
                 demo_registration_tape demo_bank))
       = login_user demo_hash_password tape' demo_bank).
Proof.
  apply (registered_user_can_log_in demo_hash_password "customer"
           demo_registration_tape demo_bank).
  vm_compute. reflexivity.
Defined.

(** On the demo tape the NIC kept is [Z] and the password [secret1]:
    the new user logs in with them, and not with the password that was
    typed once. *)
Example registered_user_logs_in_example :
  login_user demo_hash_password [" Z"; "secret1"]
    (fst (register_user demo_hash_password "customer"
            demo_registration_tape demo_bank))
  = LoggedIn "Z" demo_user_z /\
  login_user demo_hash_password ["Z"; "secret2"; "short"; ""]
    (fst (register_user demo_hash_password "customer"
            demo_registration_tape demo_bank))
  = AuthenticationFailed.
Proof. split; vm_compute; reflexivity. Qed.

(** X10.  Three attempts.  [login_user] returns a user exactly when the
    first line, stripped, is a registered NIC and one of the next three
    lines is a password whose digest is the one stored, the lines before
    it being read and refused; it reports a failed authentication
    exactly when the NIC is registered and there are three lines after
    it, none of which has the stored digest.  What follows on the tape
    is not read. *)
Theorem login_user_three_attempts
    (hash_password : string -> string) (tape : list string) (st : bank) :
  (forall nic user_data,
     login_user hash_password tape st = LoggedIn nic user_data <->
     exists line rest k password,
       tape = line :: rest /\ nic = PyStr.strip line /\
       Dict.get nic (users st) = Some user_data /\
       (k < 3)%nat /\ nth_error rest k = Some password /\
       password_hash user_data = hash_password password)
  /\ (login_user hash_password tape st = AuthenticationFailed <->
      exists line p1 p2 p3 rest user_data,
        tape = line :: p1 :: p2 :: p3 :: rest /\
        Dict.get (PyStr.strip line) (users st) = Some user_data /\
        password_hash user_data <> hash_password p1 /\
        password_hash user_data <> hash_password p2 /\
        password_hash user_data <> hash_password p3).
Proof.
  split.
  - intros nic user_data. split.
    + destruct tape as [|line rest]; [discriminate|]. unfold login_user.
      destruct (Dict.get (PyStr.strip line) (users st)) as [u|] eqn:Hg;
        [|discriminate].
      destruct (attempt_password hash_password 3 (password_hash u) rest)
        as [[|]|] eqn:Ha; try discriminate.
      intros H. inversion H; subst nic user_data.
      apply attempt_password_verified in Ha as (k & p & Hk & Hnth & Hh).
      exists line, rest, k, p. repeat split; assumption.
    + intros (line & rest & k & p & -> & -> & Hg & Hk & Hnth & Hh).
      unfold login_user. rewrite Hg.
      assert (attempt_password hash_password 3 (password_hash user_data)
                rest = Some true) as ->; [|reflexivity].
      apply attempt_password_verified. eauto.
  - split.
    + destruct tape as [|line rest]; [discriminate|]. unfold login_user.
      destruct (Dict.get (PyStr.strip line) (users st)) as [u|] eqn:Hg;
        [|discriminate].
      destruct (attempt_password hash_password 3 (password_hash u) rest)
        as [[|]|] eqn:Ha; try discriminate.
      intros _. apply attempt_password_used_up in Ha as (Hl & H).
      destruct rest as [|p1 [|p2 [|p3 rest]]]; simpl in Hl; try lia.
      exists line, p1, p2, p3, rest, u. repeat split; try assumption.
      * apply (H 0%nat); [lia|reflexivity].
      * apply (H 1%nat); [lia|reflexivity].
      * apply (H 2%nat); [lia|reflexivity].
    + intros (line & p1 & p2 & p3 & rest & u & -> & Hg & H1 & H2 & H3).
      unfold login_user. rewrite Hg. cbn [attempt_password].
      unfold verify_password.
      destruct (String.eqb_spec (password_hash u) (hash_password p1));
        [contradiction|].
      destruct (String.eqb_spec (password_hash u) (hash_password p2));
        [contradiction|].
      destruct (String.eqb_spec (password_hash u) (hash_password p3));
        [contradiction|].
      reflexivity.
Qed.

(** X11.  [register_user] returns [False] only when one of the lines of
    the tape, stripped, is a NIC that is registered; so the setup of the
    first admin on the empty bank never ends in [exit()]: it either
    raises out of a prompt or leaves a bank whose one user is an admin
    without accounts, with an empty accounts table and the counter at
    1001. *)
Theorem fresh_start_has_one_admin
    (hash_password : string -> string) (tape : list string) :
  (forall user_role st,
     snd (register_user hash_password user_role tape st)
     = AlreadyRegistered ->
     exists line, In line tape /\
                  Dict.mem (PyStr.strip line) (users st) = true)
  /\ match _initialize_fresh_start_with_admin hash_password tape with
     | FreshStart st =>
         exists nic user_data,
           users st = [(nic, user_data)] /\ role user_data = "admin" /\
           owned_accounts user_data = None /\
           accounts st = [] /\ next_account_number st = 1001%N
     | FreshStartExit => False
     | FreshStartRaised => True
     end.
Proof.
  assert (forall user_role st,
            snd (register_user hash_password user_role tape st)
            = AlreadyRegistered ->
            exists line, In line tape /\
                         Dict.mem (PyStr.strip line) (users st) = true)
    as Htaken.
  { intros user_role st. unfold register_user.
    destruct (prompt_nic (users st) tape) as [nic rest| |] eqn:Hn.
    - repeat match goal with
             | |- context [match ?x with _ => _ end] => destruct x
             end; simpl; discriminate.
    - intros _. now apply prompt_nic_taken.
    - discriminate. }
  split; [exact Htaken|].
  unfold _initialize_fresh_start_with_admin, create_first_admin.
  specialize (Htaken "admin" empty_bank).
  destruct (register_user hash_password "admin" tape empty_bank)
    as [st r] eqn:E.
  destruct r.
  - apply register_user_registered in E
      as (nic & name_line & address_line & dob_input & password & rest
          & rest' & _ & _ & _ & ->).
    eexists nic, _. simpl. repeat split.
  - destruct (Htaken eq_refl) as (line & _ & H). discriminate.
  - exact I.
Qed.

(** ** A registered user on file *)

Lemma last_is_space_rstrip (s : string) :
  last_is_space (PyStr.rstrip s) = false.
Proof.
  induction s as [|c r IH]; [reflexivity|]. simpl.
  destruct (PyStr.rstrip r) as [|c' r'].
  - destruct (PyStr.is_space c) eqn:Hc; [reflexivity|]. simpl. assumption.
  - exact IH.
Qed.

Lemma stripped_last (s : string) :
  is_stripped s = true -> last_is_space s = false.
Proof.
  unfold is_stripped, PyStr.strip. intros H.
  apply String.eqb_eq in H. rewrite <- H. apply last_is_space_rstrip.
Qed.

(** A letter is turned into a letter, and nothing else is changed: what
    is a space stays one, and what is not does not become one. *)
Lemma to_upper_space (c : ascii) :
  PyStr.is_space (to_upper c) = PyStr.is_space c.
Proof. destruct c as [[] [] [] [] [] [] [] []]; reflexivity. Qed.

Lemma to_lower_space (c : ascii) :
  PyStr.is_space (to_lower c) = PyStr.is_space c.
Proof. destruct c as [[] [] [] [] [] [] [] []]; reflexivity. Qed.

Lemma title_from_cons (b : bool) (c : ascii) (r : string) :
  exists c' b',
    title_from b (String c r) = String c' (title_from b' r) /\
    PyStr.is_space c' = PyStr.is_space c.
Proof.
  simpl. destruct (is_lower c); [|destruct (is_upper c)];
    destruct b; eexists _, _; split; try reflexivity;
    auto using to_upper_space, to_lower_space.
Qed.

Lemma title_from_empty (b : bool) (s : string) :
  title_from b s = "" -> s = "".
Proof.
  destruct s as [|c r]; [reflexivity|].
  destruct (title_from_cons b c r) as (c' & b' & -> & _). discriminate.
Qed.





(** ** Lines of a file *)

Lemma lines_from_line (l cur rest : string) :
  single_line l = true ->
  lines_from cur (l ++ NEWLINE ++ rest)
  = (cur ++ l ++ NEWLINE) :: lines_from "" rest.
Proof.
  revert cur. induction l as [|c l IH]; intros cur H.
  - reflexivity.
  - simpl in H. apply andb_true_iff in H as [Hc Hl].
    apply negb_true_iff, orb_false_iff in Hc as [Hlf Hcr].
    cbn [append lines_from]. rewrite Hlf, Hcr.
    rewrite (IH _ Hl). f_equal. now rewrite append_assoc.
Qed.

Lemma concat_cons (x : string) (xs : list string) :
  String.concat "" (x :: xs) = x ++ String.concat "" xs.
Proof.
  destruct xs; simpl; [now rewrite append_empty_r|reflexivity].
Qed.

(** Lines written one after the other, each followed by a line feed,
    are the lines read. *)
Lemma readlines_written (ls : list string) :
  Forall (fun l => single_line l = true) ls ->
  readlines (String.concat "" (map (fun l => l ++ NEWLINE) ls))
  = map (fun l => l ++ NEWLINE) ls.
Proof.
  unfold readlines. induction 1 as [|l ls Hl _ IH]; [reflexivity|].
  cbn [map]. rewrite concat_cons, append_assoc.
  rewrite (lines_from_line l "" _ Hl). now rewrite IH.
Qed.

Lemma rstrip_newline (s : string) :
  PyStr.rstrip (s ++ NEWLINE) = PyStr.rstrip s.
Proof.
  induction s as [|c r IH]; [reflexivity|].
  cbn [append PyStr.rstrip]. now rewrite IH.
Qed.

(** The line feed that ends a line is stripped with the spaces. *)
Lemma strip_newline (s : string) :
  PyStr.strip (s ++ NEWLINE) = PyStr.strip s.
Proof.
  unfold PyStr.strip. induction s as [|c r IH]; [reflexivity|].
  cbn [append PyStr.lstrip].
  destruct (PyStr.is_space c); [exact IH|].
  exact (rstrip_newline (String c r)).
Qed.

(** ** Loading what was saved *)

Lemma deserialize_user_stripped (line : string) :
  _deserialize_user (PyStr.strip line) = _deserialize_user line.
Proof. unfold _deserialize_user. now rewrite strip_idempotent. Qed.

Lemma deserialize_user_not_blank (line : string) (result : string * user) :
  _deserialize_user line = Some result -> PyStr.strip line <> "".
Proof.
  unfold _deserialize_user. intros H E. rewrite E in H. discriminate.
Qed.

Lemma deserialize_account_stripped
    (float_of_str : string -> option float)
    (json_loads : string -> json_result) (line : string) :
  _deserialize_account float_of_str json_loads (PyStr.strip line)
  = _deserialize_account float_of_str json_loads line.
Proof. unfold _deserialize_account. now rewrite strip_idempotent. Qed.

Lemma deserialize_account_not_blank
    (float_of_str : string -> option float)
    (json_loads : string -> json_result) (line : string)
    (acc_num : string) (acc_data : account) :
  _deserialize_account float_of_str json_loads line
  = AccountRecord acc_num acc_data ->
  PyStr.strip line <> "".
Proof.
  unfold _deserialize_account. intros H E. rewrite E in H. discriminate.
Qed.

Lemma deserialize_account_raised_not_blank
    (float_of_str : string -> option float)
    (json_loads : string -> json_result) (line : string) :
  _deserialize_account float_of_str json_loads line = AccountRaised ->
  PyStr.strip line <> "".
Proof.
  unfold _deserialize_account. intros H E. rewrite E in H. discriminate.
Qed.

Lemma not_in_keys_get (V : Type) (k : string) (d : Dict.t V) :
  ~ In k (Dict.keys d) -> Dict.get k d = None.
Proof.
  intros H. destruct (Dict.get k d) as [v|] eqn:E; [|reflexivity].
  exfalso. apply H. eapply get_some_in_keys; eauto.
Qed.

(** Setting the entries of a table with distinct keys, in order, after
    a table that has none of them, rebuilds it. *)
Lemma set_all_fresh (V : Type) (items acc : Dict.t V) :
  NoDup (Dict.keys (acc ++ items)%list) ->
  fold_left (fun d item => Dict.set (fst item) (snd item) d) items acc
  = (acc ++ items)%list.
Proof.
  revert acc. induction items as [|[k v] items IH]; intros acc H; simpl.
  - now rewrite app_nil_r.
  - assert (Dict.get k acc = None) as Hk.
    { apply not_in_keys_get. unfold Dict.keys in *.
      rewrite map_app in H. simpl in H.
      apply NoDup_remove_2 in H. intros Hin. apply H.
      apply in_or_app. now left. }
    rewrite (set_fresh _ k v acc Hk).
    rewrite IH; rewrite <- app_assoc; [reflexivity|exact H].
Qed.

Lemma load_users_saved (items acc : Dict.t user) :
  Forall storable_user items ->
  load_users
    (map (fun l => l ++ NEWLINE)
       (map (fun item => _serialize_user (fst item) (snd item)) items))
    acc
  = fold_left (fun d item => Dict.set (fst item) (snd item) d) items acc.
Proof.
  intros H. revert acc.
  induction H as [|[nic u] items (Hwf & Hct & _) _ IH]; intros acc;
    [reflexivity|].
  cbn [map load_users fold_left fst snd] in *.
  rewrite strip_newline, deserialize_user_stripped.
  pose proof (user_round_trip nic u Hwf Hct) as Hrt.
  pose proof (deserialize_user_not_blank _ _ Hrt) as Hnb.
  rewrite Hrt.
  destruct (PyStr.strip (_serialize_user nic u)); [contradiction|].
  cbn [PyStr.is_empty].
  unfold well_formed_user in Hwf.
  destruct nic; [discriminate|]. cbn [PyStr.is_empty]. apply IH.
Qed.

Lemma load_accounts_saved
    (float_str : float -> string) (float_of_str : string -> option float)
    (json_dumps : list transaction -> string)
    (json_loads : string -> json_result) (items acc : Dict.t account) :
  Forall (storable_account float_str float_of_str json_dumps json_loads)
    items ->
  load_accounts float_of_str json_loads
    (map (fun l => l ++ NEWLINE)
       (map (fun item =>
               _serialize_account float_str json_dumps (fst item) (snd item))
          items))
    acc
  = fold_left (fun d item => Dict.set (fst item) (snd item) d) items acc.
Proof.
  intros H. revert acc.
  induction H as [|[acc_num a] items (Hwf & Hct & _) _ IH]; intros acc;
    [reflexivity|].
  cbn [map load_accounts fold_left fst snd] in *.
  rewrite strip_newline, deserialize_account_stripped.
  pose proof (account_round_trip float_str float_of_str json_dumps
                json_loads acc_num a Hwf Hct) as Hrt.
  pose proof (deserialize_account_not_blank _ _ _ _ _ Hrt) as Hnb.
  rewrite Hrt.
  destruct (PyStr.strip
              (_serialize_account float_str json_dumps acc_num a));
    [contradiction|].
  cbn [PyStr.is_empty].
  destruct Hwf as (Hnum & _). unfold is_account_number in Hnum.
  destruct acc_num; [discriminate|]. cbn [PyStr.is_empty]. apply IH.
Qed.

Lemma with_default_owned_well_formed (nic : string) (u : user) :
  well_formed_user nic u = true -> with_default_owned u = u.
Proof.
  unfold well_formed_user, with_default_owned. intros H.
  apply andb_true_iff in H as [_ H].
  destruct (owned_accounts u); [now destruct (String.eqb (role u) "customer")|].
  apply String.eqb_eq in H. now rewrite H.
Qed.

Lemma string_of_uint_digits (d : Decimal.uint) :
  all_chars is_digit (NilEmpty.string_of_uint d) = true.
Proof. induction d; simpl; auto. Qed.

(** [str(n)] is a text of digits, one at least, without spaces. *)
Lemma of_N_isdigit (n : N) : isdigit (PyStr.of_N n) = true.
Proof.
  unfold isdigit, PyStr.of_N. rewrite string_of_uint_digits.
  destruct n as [|p]; [reflexivity|]. simpl.
  pose proof (DecimalPos.Unsigned.to_uint_nonnil p) as H.
  now destruct (Pos.to_uint p).
Qed.

Lemma isdigit_stripped (s : string) :
  isdigit s = true -> PyStr.strip s = s.
Proof.
  unfold isdigit. intros H. apply andb_true_iff in H as [Hne Hd].
  destruct s as [|c r]; [discriminate|].
  assert (all_chars not_space (String c r) = true) as Hs
      by (eapply all_chars_impl; [apply digit_not_space|assumption]).
  apply strip_fixed.
  - simpl in Hs. apply andb_true_iff in Hs as [Hc _].
    now apply negb_true_iff in Hc.
  - now apply no_space_last.
Qed.

(** The counter written is the counter read. *)
Lemma load_counter_saved (n : N) :
  (String.length (PyStr.of_N n) <= MAX_STR_DIGITS)%nat ->
  load_counter (Some (counter_text n)) = n.
Proof.
  intros H. unfold load_counter, counter_text, str_of_int, int_of_digits.
  apply Nat.ltb_ge in H. rewrite H.
  rewrite (isdigit_stripped _ (of_N_isdigit n)), of_N_isdigit, H.
  unfold PyStr.of_N. rewrite NilEmpty.usu. simpl.
  apply DecimalN.Unsigned.of_to.
Qed.

Section PersistenceFacts.

Variable float_str : float -> string.
Variable float_of_str : string -> option float.
Variable json_dumps : list transaction -> string.
Variable json_loads : string -> json_result.
Variable hash_password : string -> string.

Lemma users_text_lines (items : Dict.t user) :
  Forall storable_user items ->
  readlines (users_text items)
  = map (fun l => l ++ NEWLINE)
      (map (fun item => _serialize_user (fst item) (snd item)) items).
Proof.
  intros H. unfold users_text.
  rewrite <- (map_map (fun item => _serialize_user (fst item) (snd item))
                (fun l => l ++ NEWLINE)).
  apply readlines_written. apply Forall_map.
  eapply Forall_impl; [|exact H]. now intros item (_ & _ & Hl).
Qed.

Lemma accounts_text_lines (items : Dict.t account) :
  Forall (storable_account float_str float_of_str json_dumps json_loads)
    items ->
  readlines (accounts_text float_str json_dumps items)
  = map (fun l => l ++ NEWLINE)
      (map (fun item =>
              _serialize_account float_str json_dumps (fst item) (snd item))
         items).
Proof.
  intros H. unfold accounts_text.
  rewrite <- (map_map
                (fun item =>
                   _serialize_account float_str json_dumps (fst item)
                     (snd item))
                (fun l => l ++ NEWLINE)).
  apply readlines_written. apply Forall_map.
  eapply Forall_impl; [|exact H]. now intros item (_ & _ & Hl).
Qed.

Lemma load_users_text (items : Dict.t user) :
  NoDup (Dict.keys items) -> Forall storable_user items ->
  load_users (readlines (users_text items)) [] = items.
Proof.
  intros Hk H. rewrite (users_text_lines items H), load_users_saved by exact H.
  now apply (set_all_fresh _ items []).
Qed.

Lemma load_accounts_text (items : Dict.t account) :
  NoDup (Dict.keys items) ->
  Forall (storable_account float_str float_of_str json_dumps json_loads)
    items ->
  load_accounts float_of_str json_loads
    (readlines (accounts_text float_str json_dumps items)) []
  = items.
Proof.
  intros Hk H.
  rewrite (accounts_text_lines items H).
  rewrite (load_accounts_saved float_str float_of_str json_dumps json_loads)
    by exact H.
  now apply (set_all_fresh _ items []).
Qed.

Lemma with_default_owned_all (items : Dict.t user) :
  Forall storable_user items ->
  map (fun item => (fst item, with_default_owned (snd item))) items = items.
Proof.
  induction 1 as [|[nic u] items (Hwf & _) _ IH]; [reflexivity|].
  simpl in *. rewrite IH.
  now rewrite (with_default_owned_well_formed nic u Hwf).
Qed.

End PersistenceFacts.

(** X13.  What [save_data] writes, [load_data] reads back.  For a bank
    with a user at least, whose tables have no key twice, whose entries
    are well formed, framed by the delimiter and written on one line
    each, and whose counter has at most 4300 digits, loading the three
    files that were saved gives the same users, the same accounts, in
    the same order, and the same counter, reads nothing from the console
    and leaves the files as they are. *)
Theorem save_then_load
    (float_str : float -> string) (float_of_str : string -> option float)
    (json_dumps : list transaction -> string)
    (json_loads : string -> json_result)
    (hash_password : string -> string) (tape : list string) (st : bank) :
  users st <> [] ->
  NoDup (Dict.keys (users st)) ->
  NoDup (Dict.keys (accounts st)) ->
  Forall storable_user (users st) ->
  Forall (storable_account float_str float_of_str json_dumps json_loads)
    (accounts st) ->
  (String.length (PyStr.of_N (next_account_number st)) <= MAX_STR_DIGITS)%nat ->
  load_data float_str float_of_str json_dumps json_loads hash_password tape
    (save_data float_str json_dumps st)
  = Loaded st (save_data float_str json_dumps st).
Proof.
  intros Hne Hku Hka Hu Ha Hn. unfold load_data.
  cbn [save_data users_file accounts_file next_acc_num_file].
  rewrite (load_users_text (users st) Hku Hu).
  rewrite (load_accounts_text float_str float_of_str json_dumps json_loads
             (accounts st) Hka Ha).
  rewrite (load_counter_saved _ Hn).
  rewrite (with_default_owned_all (users st) Hu).
  destruct st as [us acs n]. simpl in *.
  destruct us; [contradiction|reflexivity].
Qed.

Lemma save_then_load_witness :
  load_data demo_float_str demo_float_of_str demo_json_dumps demo_json_loads
    demo_hash_password []
    (save_data demo_float_str demo_json_dumps demo_bank_opened)
  = Loaded demo_bank_opened
      (save_data demo_float_str demo_json_dumps demo_bank_opened).
Proof.
  apply (save_then_load demo_float_str demo_float_of_str demo_json_dumps
           demo_json_loads demo_hash_password [] demo_bank_opened).
  - discriminate.
  - vm_compute. repeat constructor; simpl; intuition discriminate.
  - vm_compute. repeat constructor; simpl; intuition discriminate.
  - repeat constructor.
  - repeat constructor.
  - vm_compute. lia.
Defined.

(** ** Loading any files *)

Lemma set_Forall (V : Type) (Q : string * V -> Prop) (k : string) (v : V)
    (d : Dict.t V) :
  Q (k, v) -> Forall Q d -> Forall Q (Dict.set k v d).
Proof.
  intros Hq. induction 1 as [|[k0 v0] r H0 Hr IH]; simpl.
  - repeat constructor. assumption.
  - destruct (String.eqb k k0); constructor; assumption.
Qed.

Lemma set_NoDup (V : Type) (k : string) (v : V) (d : Dict.t V) :
  NoDup (Dict.keys d) -> NoDup (Dict.keys (Dict.set k v d)).
Proof.
  intros H. destruct (Dict.get k d) as [w|] eqn:E.
  - now rewrite (keys_set_present _ k v w d E).
  - rewrite (keys_set_fresh _ k v d E). apply NoDup_app; auto.
    + repeat constructor. intros [].
    + intros x Hx [<-|[]]. apply in_keys_get in Hx as [w Hw]. congruence.
Qed.

Lemma in_get (V : Type) (k : string) (v : V) (d : Dict.t V) :
  Dict.get k d = Some v -> In (k, v) d.
Proof.
  induction d as [|[k0 v0] r IH]; simpl; [discriminate|].
  destruct (String.eqb_spec k k0) as [->|Hne].
  - intros H. inversion H. now left.
  - intros H. right. now apply IH.
Qed.

Lemma owned_of_field_not_empty (part : string) :
  ~ In "" (owned_of_field part).
Proof.
  unfold owned_of_field. intros H. apply filter_In in H as [_ H].
  discriminate.
Qed.

Lemma deserialize_user_shape (line nic : string) (u : user) :
  _deserialize_user line = Some (nic, u) ->
  role u = "customer" /\
  (exists l, owned_accounts u = Some l /\ ~ In "" l)
  \/ role u = "admin" /\ owned_accounts u = None.
Proof.
  unfold _deserialize_user.
  destruct (PyStr.split DATA_DELIMITER (PyStr.strip line))
    as [|a0 [|a1 [|a2 [|a3 [|a4 [|a5 [|a6 [|a7 l]]]]]]]]; try discriminate.
  destruct (String.eqb_spec a5 "customer") as [->|Hc].
  - intros H. inversion H; subst. left. split; [reflexivity|].
    eexists. split; [reflexivity|apply owned_of_field_not_empty].
  - destruct (String.eqb_spec a5 "admin") as [->|Ha]; [|discriminate].
    intros H. inversion H; subst. right. split; reflexivity.
Qed.

Lemma load_users_loaded (lines : list string) (acc : Dict.t user) :
  Forall loaded_user acc -> NoDup (Dict.keys acc) ->
  Forall loaded_user (load_users lines acc) /\
  NoDup (Dict.keys (load_users lines acc)).
Proof.
  revert acc. induction lines as [|line rest IH]; intros acc Hf Hk; simpl;
    [now split|].
  destruct (PyStr.is_empty (PyStr.strip line)); [now apply IH|].
  destruct (_deserialize_user (PyStr.strip line)) as [[nic u]|] eqn:E;
    [|now apply IH].
  destruct nic as [|c r]; [now apply IH|]. cbn [PyStr.is_empty].
  apply IH; [|now apply set_NoDup].
  apply set_Forall; [|assumption].
  split; [discriminate|]. now apply deserialize_user_shape in E.
Qed.

Lemma load_accounts_loaded
    (float_of_str : string -> option float)
    (json_loads : string -> json_result)
    (lines : list string) (acc : Dict.t account) :
  Forall (fun item => fst item <> "") acc -> NoDup (Dict.keys acc) ->
  Forall (fun item => fst item <> "")
    (load_accounts float_of_str json_loads lines acc) /\
  NoDup (Dict.keys (load_accounts float_of_str json_loads lines acc)).
Proof.
  revert acc. induction lines as [|line rest IH]; intros acc Hf Hk; simpl;
    [now split|].
  destruct (PyStr.is_empty (PyStr.strip line)); [now apply IH|].
  destruct (_deserialize_account float_of_str json_loads (PyStr.strip line))
    as [acc_num a| |] eqn:E; [|now apply IH|now split].
  destruct acc_num as [|c r]; [now apply IH|]. cbn [PyStr.is_empty].
  apply IH; [|now apply set_NoDup].
  apply set_Forall; [discriminate|assumption].
Qed.

Lemma with_default_owned_loaded (item : string * user) :
  loaded_user item ->
  loaded_user (fst item, with_default_owned (snd item)).
Proof.
  destruct item as [nic u]. unfold loaded_user, with_default_owned. simpl.
  intros (Hn & [(Hr & l & Ho & Hl) | (Hr & Ho)]); split; auto.
  - left. rewrite Hr, Ho. simpl. eauto.
  - right. rewrite Hr. simpl. auto.
Qed.

Section LoadingFacts.

Variable float_str : float -> string.
Variable float_of_str : string -> option float.
Variable json_dumps : list transaction -> string.
Variable json_loads : string -> json_result.
Variable hash_password : string -> string.

(** What the fresh start leaves, in the tables and in the files. *)
Lemma fresh_start_loaded (tape : list string) (st : bank) :
  _initialize_fresh_start_with_admin hash_password tape = FreshStart st ->
  exists nic u,
    st = {| users := [(nic, u)]; accounts := [];
            next_account_number := 1001 |} /\
    nic <> "" /\ role u = "admin" /\ owned_accounts u = None.
Proof.
  unfold _initialize_fresh_start_with_admin, create_first_admin.
  destruct (register_user hash_password "admin" tape empty_bank)
    as [st0 r] eqn:E.
  destruct r; try discriminate. intros H. inversion H; subst st0.
  apply register_user_registered in E
    as (nic & name_line & address_line & dob_input & password & rest
        & rest' & Hn & _ & _ & ->).
  apply prompt_nic_accepted in Hn as (Hne & _).
  eexists nic, _. split; [reflexivity|]. repeat split. assumption.
Qed.

Lemma fresh_start_no_exit (tape : list string) :
  _initialize_fresh_start_with_admin hash_password tape <> FreshStartExit.
Proof.
  unfold _initialize_fresh_start_with_admin, create_first_admin.
  pose proof (prompt_nic_taken (users empty_bank) tape) as Ht.
  unfold register_user.
  destruct (prompt_nic (users empty_bank) tape) as [nic rest| |].
  - destruct rest as [|name_line [|address_line rest]]; try discriminate.
    destruct (prompt_dob rest) as [[dob_input rest']|]; [|discriminate].
    destruct (prompt_password rest') as [[password rest'']|]; discriminate.
  - destruct (Ht eq_refl) as (line & _ & H). discriminate.
  - discriminate.
Qed.

End LoadingFacts.

(** X14.  What [load_data] leaves, whatever the three files hold and
    whatever is typed.  It never ends in [exit()].  When it returns,
    there is a user at least; no NIC and no account number is empty or
    comes twice; every user is a customer with a list of accounts, none
    of them the empty text, or an admin without a list.  Either the
    files are untouched, or no user could be read: then the bank is the
    one of a fresh start, with one admin, no account and the counter at
    1001, and the three files are overwritten with it. *)
Theorem load_data_leaves_users
    (float_str : float -> string) (float_of_str : string -> option float)
    (json_dumps : list transaction -> string)
    (json_loads : string -> json_result)
    (hash_password : string -> string) (tape : list string) (fs : files) :
  match load_data float_str float_of_str json_dumps json_loads hash_password
          tape fs with
  | Loaded st fs' =>
      users st <> [] /\
      Forall loaded_user (users st) /\
      NoDup (Dict.keys (users st)) /\
      Forall (fun item => fst item <> "") (accounts st) /\
      NoDup (Dict.keys (accounts st)) /\
      (fs' = fs \/
       accounts st = [] /\ next_account_number st = 1001%N /\
       List.length (users st) = 1%nat /\
       fs' = save_data float_str json_dumps st)
  | LoadExit => False
  | LoadRaised => True
  end.
Proof.
  unfold load_data.
  set (loaded_users :=
         match users_file fs with
         | Some text => load_users (readlines text) []
         | None => []
         end).
  set (loaded_accounts :=
         match accounts_file fs with
         | Some text => load_accounts float_of_str json_loads
                          (readlines text) []
         | None => []
         end).
  assert (Forall loaded_user loaded_users /\
          NoDup (Dict.keys loaded_users)) as (Hu & Hku).
  { unfold loaded_users. destruct (users_file fs).
    - apply load_users_loaded; constructor.
    - split; constructor. }
  assert (Forall (fun item => fst item <> "") loaded_accounts /\
          NoDup (Dict.keys loaded_accounts)) as (Ha & Hka).
  { unfold loaded_accounts. destruct (accounts_file fs).
    - apply load_accounts_loaded; constructor.
    - split; constructor. }
  destruct loaded_users as [|item items] eqn:El.
  - pose proof (fresh_start_no_exit hash_password tape) as Hexit.
    pose proof (fresh_start_loaded hash_password tape) as Hfresh.
    destruct (_initialize_fresh_start_with_admin hash_password tape)
      as [st| |]; [|contradiction|exact I].
    destruct (Hfresh st eq_refl) as (nic & u & -> & Hn & Hr & Ho).
    cbn [users accounts next_account_number].
    split; [discriminate|].
    split.
    { constructor; [|constructor].
      split; [exact Hn|right; split; assumption]. }
    split.
    { simpl. constructor; [intros []|constructor]. }
    split; [constructor|].
    split; [constructor|].
    right. repeat split.
  - cbn [users accounts next_account_number]. repeat split.
    + discriminate.
    + apply Forall_map. eapply Forall_impl; [|exact Hu].
      intros it Hit. now apply with_default_owned_loaded.
    + unfold Dict.keys. rewrite map_map. exact Hku.
    + assumption.
    + assumption.
    + now left.
Qed.

(** X15.  A users file without a readable line costs the accounts.
    When the users file is missing or none of its lines gives a user,
    whatever the accounts file and the counter file hold, [load_data]
    sets up the first admin and saves: the bank it returns has this one
    admin, no account and the counter at 1001, and the three files are
    overwritten, the accounts file with nothing and the counter file
    with 1001. *)
Theorem fresh_start_overwrites_files
    (float_str : float -> string) (float_of_str : string -> option float)
    (json_dumps : list transaction -> string)
    (json_loads : string -> json_result)
    (hash_password : string -> string) (tape : list string)
    (fs fs' : files) (st : bank) :
  (forall text, users_file fs = Some text ->
                load_users (readlines text) [] = []) ->
  load_data float_str float_of_str json_dumps json_loads hash_password tape
    fs = Loaded st fs' ->
  accounts st = [] /\ next_account_number st = 1001%N /\
  accounts_file fs' = Some "" /\ next_acc_num_file fs' = Some "1001" /\
  exists nic user_data,
    users st = [(nic, user_data)] /\ role user_data = "admin" /\
    users_file fs' = Some (_serialize_user nic user_data ++ NEWLINE).
Proof.
  intros Hnone. unfold load_data.
  assert (match users_file fs with
          | Some text => load_users (readlines text) []
          | None => []
          end = []) as ->.
  { destruct (users_file fs) as [text|]; [now apply Hnone|reflexivity]. }
  pose proof (fresh_start_loaded hash_password tape) as Hfresh.
  destruct (_initialize_fresh_start_with_admin hash_password tape)
    as [st0| |]; try discriminate.
  destruct (Hfresh st0 eq_refl) as (nic & u & -> & _ & Hr & _).
  intros H. inversion H; subst st fs'. repeat split.
  exists nic, u. repeat split. assumption.
Qed.

Lemma fresh_start_overwrites_files_witness :
  accounts demo_admin_bank = [] /\
  next_account_number demo_admin_bank = 1001%N /\
  accounts_file (save_data demo_float_str demo_json_dumps demo_admin_bank)
  = Some "" /\
  next_acc_num_file
    (save_data demo_float_str demo_json_dumps demo_admin_bank)
  = Some "1001" /\
  exists nic user_data,
    users demo_admin_bank = [(nic, user_data)] /\
    role user_data = "admin" /\
    users_file (save_data demo_float_str demo_json_dumps demo_admin_bank)
    = Some (_serialize_user nic user_data ++ NEWLINE).
Proof.
  apply (fresh_start_overwrites_files demo_float_str demo_float_of_str
           demo_json_dumps demo_json_loads demo_hash_password
           demo_admin_tape demo_files_without_users
           (save_data demo_float_str demo_json_dumps demo_admin_bank)
           demo_admin_bank).
  - intros text H. inversion H. vm_compute. reflexivity.
  - vm_compute. reflexivity.
Defined.

(** X16.  What a line that cannot be read costs.  A line of the users
    file that is blank or that [_deserialize_user] refuses, and a line
    of the accounts file that is blank or that [_deserialize_account]
    refuses, is skipped: the table loaded is the one loaded without it,
    wherever it stands in the file.  A line of the accounts file on
    which [json.loads] raises another exception than the one
    [_deserialize_account] catches ends the loading of the accounts:
    the table loaded is the one loaded from the lines before it, and the
    lines after it are not read. *)
Theorem unreadable_lines_skipped_or_last
    (float_of_str : string -> option float)
    (json_loads : string -> json_result) :
  (forall before after line loaded_users,
     PyStr.strip line = "" \/ _deserialize_user line = None ->
     load_users (before ++ line :: after) loaded_users
     = load_users (before ++ after) loaded_users)
  /\ (forall before after line loaded_accounts,
        PyStr.strip line = "" \/
        _deserialize_account float_of_str json_loads line
        = AccountMalformed ->
        load_accounts float_of_str json_loads (before ++ line :: after)
          loaded_accounts
        = load_accounts float_of_str json_loads (before ++ after)
            loaded_accounts)
  /\ (forall before after line loaded_accounts,
        _deserialize_account float_of_str json_loads line = AccountRaised ->
        load_accounts float_of_str json_loads (before ++ line :: after)
          loaded_accounts
        = load_accounts float_of_str json_loads before loaded_accounts).
Proof.
  split; [|split].
  - intros before after line loaded_users Hbad. revert loaded_users.
    induction before as [|l before IH]; intros loaded_users.
    + cbn [app load_users].
      destruct Hbad as [-> | Hbad]; [reflexivity|].
      rewrite deserialize_user_stripped, Hbad.
      now destruct (PyStr.is_empty (PyStr.strip line)).
    + cbn [app load_users].
      destruct (PyStr.is_empty (PyStr.strip l)); [apply IH|].
      destruct (_deserialize_user (PyStr.strip l)) as [[nic u]|];
        [|apply IH].
      destruct (PyStr.is_empty nic); apply IH.
  - intros before after line loaded_accounts Hbad. revert loaded_accounts.
    induction before as [|l before IH]; intros loaded_accounts.
    + cbn [app load_accounts].
      destruct Hbad as [-> | Hbad]; [reflexivity|].
      rewrite deserialize_account_stripped, Hbad.
      now destruct (PyStr.is_empty (PyStr.strip line)).
    + cbn [app load_accounts].
      destruct (PyStr.is_empty (PyStr.strip l)); [apply IH|].
      destruct (_deserialize_account float_of_str json_loads
                  (PyStr.strip l)) as [acc_num a| |];
        [|apply IH|reflexivity].
      destruct (PyStr.is_empty acc_num); apply IH.
  - intros before after line loaded_accounts Hbad. revert loaded_accounts.
    induction before as [|l before IH]; intros loaded_accounts.
    + cbn [app load_accounts].
      rewrite deserialize_account_stripped, Hbad.
      pose proof (deserialize_account_raised_not_blank float_of_str
                    json_loads line Hbad) as Hnb.
      destruct (PyStr.strip line); [contradiction|reflexivity].
    + cbn [app load_accounts].
      destruct (PyStr.is_empty (PyStr.strip l)); [apply IH|].
      destruct (_deserialize_account float_of_str json_loads
                  (PyStr.strip l)) as [acc_num a| |];
        [|apply IH|reflexivity].
      destruct (PyStr.is_empty acc_num); apply IH.
Qed.

(** Three lines of an accounts file: on the second [json.loads] raises,
    and the third, which is in order, is not loaded. *)
Lemma unreadable_lines_skipped_or_last_witness :
  load_accounts demo_float_of_str demo_json_loads
    (["1001|~|X|~|100.0|~|2024-01-01 10:00:00|~|[]"]
     ++ ("1002|~|Y|~|0.0|~|2024-01-01 10:00:00|~|" ++ demo_long_integer_json)
        :: ["1003|~|X|~|0.0|~|2024-01-01 10:00:00|~|[]"]) []
  = load_accounts demo_float_of_str demo_json_loads
      ["1001|~|X|~|100.0|~|2024-01-01 10:00:00|~|[]"] [].
Proof.
  apply (proj2 (proj2 (unreadable_lines_skipped_or_last demo_float_of_str
                         demo_json_loads))).
  vm_compute. reflexivity.
Defined.

(** The lines of a text with the three line ends, and a text at the
    limit of what the counter file may hold. *)
Example readlines_examples :
  readlines ("a" ++ String CR "b" ++ String CR (String LF "c")
             ++ String LF (String LF "d e"))
  = ["a" ++ NEWLINE; "b" ++ NEWLINE; "c" ++ NEWLINE; NEWLINE; "d e"]
  /\ load_counter (Some (" 0042 " ++ NEWLINE)) = 42%N
  /\ load_counter (Some "12a") = 1001%N
  /\ load_counter (Some "") = 1001%N
  /\ load_counter None = 1001%N
  /\ title "zoe o'neil-smith" = "Zoe O'Neil-Smith"
  /\ title "a1b c-d_e" = "A1B C-D_E"
  /\ title "ABC dEF" = "Abc Def".
Proof. repeat split. Qed.

(** ** Users stay storable *)

Lemma all_chars_join_fields (p : ascii -> bool) (sep : string)
    (l : list string) :
  all_chars p (PyStr.join sep l) = true ->
  Forall (fun f => all_chars p f = true) l.
Proof.
  induction l as [|x l IH]; [constructor|].
  destruct l as [|y l].
  - simpl. intros H. repeat constructor. assumption.
  - change (PyStr.join sep (x :: y :: l))
      with (x ++ sep ++ PyStr.join sep (y :: l)).
    rewrite !all_chars_append. intros H.
    apply andb_true_iff in H as [Hx H]. apply andb_true_iff in H as [_ H].
    constructor; [assumption|now apply IH].
Qed.

Lemma digit_single_line (c : ascii) :
  is_digit c = true -> negb (Ascii.eqb c LF || Ascii.eqb c CR) = true.
Proof. destruct c as [[] [] [] [] [] [] [] []]; vm_compute; congruence. Qed.

Lemma account_number_single_line (s : string) :
  is_account_number s = true -> single_line s = true.
Proof.
  unfold is_account_number, single_line. intros H.
  apply andb_true_iff in H as [_ H].
  eapply all_chars_impl; [apply digit_single_line|assumption].
Qed.

Lemma of_N_account_number (n : N) : is_account_number (PyStr.of_N n) = true.
Proof. exact (of_N_isdigit n). Qed.

(** A customer who can be written to the file still can once an account
    number is added to the list. *)
Lemma with_owned_storable (nic : string) (u : user) (acc_num : string) :
  role u = "customer" -> is_account_number acc_num = true ->
  storable_user (nic, u) -> storable_user (nic, with_owned u acc_num).
Proof.
  intros Hrole Hacc (Hwf & Hct & Hsl). cbn [fst snd] in *.
  assert (forallb is_account_number (owned_or_empty u) = true) as Hown.
  { unfold well_formed_user in Hwf. unfold owned_or_empty.
    destruct (owned_accounts u) as [l|]; [|reflexivity].
    apply andb_true_iff in Hwf as [_ Hwf].
    now apply andb_true_iff in Hwf as [_ Hwf]. }
  assert (forallb is_account_number (owned_or_empty u ++ [acc_num]) = true)
    as Hown'.
  { rewrite forallb_app, Hown. simpl. now rewrite Hacc. }
  unfold storable_user. cbn [fst snd]. repeat split.
  - unfold well_formed_user in *.
    cbn [with_owned name address dob password_hash role owned_accounts].
    rewrite Hrole, Hown'. rewrite Hrole in Hwf.
    destruct (owned_accounts u) as [l|].
    + apply andb_true_iff in Hwf as [Hwf _]. rewrite Hwf. reflexivity.
    + apply andb_true_iff in Hwf as [_ Hwf]. discriminate.
  - exact Hct.
  - unfold single_line, _serialize_user in *.
    cbn [with_owned name address dob password_hash role owned_accounts
         owned_or_empty] in *.
    rewrite Hrole in *. cbn [String.eqb Ascii.eqb Bool.eqb] in *.
    apply all_chars_join_fields in Hsl.
    apply all_chars_join; [reflexivity|].
    repeat match goal with
           | H : Forall _ (_ :: _) |- _ => inversion H; subst; clear H
           end.
    repeat (constructor; [assumption|]).
    constructor; [|constructor].
    apply all_chars_join; [reflexivity|].
    apply Forall_forall. intros x Hx.
    rewrite forallb_forall in Hown'.
    exact (account_number_single_line x (Hown' x Hx)).
Qed.

Lemma ledger_step_storable (st st' : bank) :
  ledger_step st st' -> users_storable st -> users_storable st'.
Proof.
  intros (Hu & _ & Hk & _) (H1 & H2). split; congruence.
Qed.

Lemma users_storable_tables (st st' : bank) :
  users st' = users st -> accounts st' = accounts st ->
  users_storable st -> users_storable st'.
Proof. unfold users_storable. now intros -> ->. Qed.

Lemma create_keeps_storable (nic : string) (deposits : list answer)
    (ts_created ts_tx : string) (st : bank) :
  users_storable st ->
  users_storable
    (fst (create_customer_bank_account nic deposits ts_created ts_tx st)).
Proof.
  intros Hs.
  pose proof (create_refused nic deposits ts_created ts_tx st) as Hr.
  destruct (create_customer_bank_account nic deposits ts_created ts_tx st)
    as [st' o] eqn:E.
  destruct o;
    try (cbn [fst snd] in *;
         destruct Hr as (Hu' & Ha' & _); [discriminate|];
         now apply (users_storable_tables st st')).
  clear Hr. destruct Hs as (Hu & Hk).
  apply create_completed in E
    as (u & d & n & Hget & Hrole & _ & Hfree & _ & ->).
  split; cbn [fst users accounts].
  - apply set_Forall; [|assumption].
    apply with_owned_storable;
      [assumption|apply of_N_account_number|].
    rewrite Forall_forall in Hu. apply Hu. now apply in_get.
  - rewrite (keys_set_fresh _ _ _ _ Hfree). apply Forall_app. split;
      [assumption|]. repeat constructor. apply of_N_account_number.
Qed.

Lemma run_keeps_storable (round2 : float -> float) (st : bank)
    (op : operation) :
  users_storable st -> users_storable (run round2 st op).
Proof.
  destruct op; simpl.
  - apply create_keeps_storable.
  - apply ledger_step_storable, make_deposit_step.
  - apply ledger_step_storable, make_withdrawal_step.
  - apply ledger_step_storable, transfer_funds_step.
  - apply ledger_step_storable, apply_interest_step.
Qed.

(** X17.  The operations keep the users file readable.  If every user
    can be written to the users file and read back, and every key of the
    accounts table is a non-empty run of digits, then the same is true
    after any finite sequence of account creations, deposits,
    withdrawals, transfers and interest accruals: the numbers
    [generate_account_number] hands out are runs of digits, which bring
    no delimiter, no space and no line end into the list of a
    customer. *)
Theorem users_storable_after_operations
    (round2 : float -> float) (ops : list operation) (st : bank) :
  users_storable st -> users_storable (fold_left (run round2) ops st).
Proof.
  revert st. induction ops as [|op ops IH]; intros st H; simpl.
  - assumption.
  - apply IH. now apply run_keeps_storable.
Qed.

Lemma users_storable_after_operations_witness :
  users_storable (fold_left (run py_round2) demo_operations demo_registered).
Proof.
  apply (users_storable_after_operations py_round2 demo_operations
           demo_registered).
  split; repeat constructor.
Defined.

(** ** Registration and the accounts *)

(** X18.  A registration leaves the two tables in agreement.  The new
    user owns nothing, and no list and no account is touched: if every
    account number in a user's list is an account of this user, every
    account is in the list of its owner and no list holds a number
    twice, then the same is true after [register_user], whatever it
    returns. *)
Theorem register_user_keeps_ownership
    (hash_password : string -> string) (user_role : string)
    (tape : list string) (st : bank) :
  ownership_consistent st ->
  ownership_consistent (fst (register_user hash_password user_role tape st)).
Proof.
  intros Hc.
  pose proof (register_user_refused hash_password user_role tape st) as Hr.
  destruct (register_user hash_password user_role tape st) as [st' r] eqn:E.
  destruct r; try (simpl in *; rewrite Hr by discriminate; assumption).
  clear Hr. destruct Hc as (Hex & Hown & Honce).
  apply register_user_registered in E
    as (nic & name_line & address_line & dob_input & password & rest & rest'
        & Hn & _ & _ & ->).
  apply prompt_nic_accepted in Hn as (_ & _ & _ & Hfree & _).
  set (new_user := {| name := title (PyStr.strip name_line);
                      address := PyStr.strip address_line;
                      dob := dob_input;
                      password_hash := hash_password password;
                      role := user_role;
                      owned_accounts :=
                        if String.eqb user_role "customer" then Some []
                        else None |}).
  assert (owned_or_empty new_user = []) as Hnew
      by (unfold owned_or_empty, new_user; simpl;
          now destruct (String.eqb user_role "customer")).
  cbn [fst]. repeat split.
  - intros nic' u' acc_num Hget Hin. cbn [users accounts] in *.
    destruct (String.eqb_spec nic' nic) as [->|Hne].
    + rewrite get_set_same in Hget. inversion Hget; subst u'.
      rewrite Hnew in Hin. destruct Hin.
    + rewrite get_set_other in Hget by assumption.
      now apply (Hex nic' u').
  - intros acc_num a Hget. cbn [users accounts] in *.
    destruct (Hown acc_num a Hget) as (u0 & Hu0 & Hin).
    exists u0. split; [|assumption].
    rewrite get_set_other; [assumption|]. congruence.
  - intros nic' u' Hget. cbn [users] in *.
    destruct (String.eqb_spec nic' nic) as [->|Hne].
    + rewrite get_set_same in Hget. inversion Hget; subst u'.
      rewrite Hnew. constructor.
    + rewrite get_set_other in Hget by assumption.
      now apply (Honce nic' u').
Qed.

Lemma register_user_keeps_ownership_witness :
  ownership_consistent
    (fst (register_user demo_hash_password "customer"
            demo_registration_tape demo_bank)).
Proof.
  apply (register_user_keeps_ownership demo_hash_password "customer"
           demo_registration_tape demo_bank).
  exact demo_bank_ownership.
Defined.

(** ** The codec on every line *)

(** A text is its stripped part between spaces. *)
Lemma lstrip_parts (s : string) :
  exists before, s = before ++ PyStr.lstrip s /\
                 all_chars PyStr.is_space before = true.
Proof.
  induction s as [|c r (b & E & Hb)].
  - now exists "".
  - simpl. destruct (PyStr.is_space c) eqn:Hc.
    + exists (String c b). simpl. rewrite Hc, Hb. split; [|reflexivity].
      now rewrite <- E.
    + now exists "".
Qed.

Lemma rstrip_parts (s : string) :
  exists after, s = PyStr.rstrip s ++ after /\
                all_chars PyStr.is_space after = true.
Proof.
  induction s as [|c r (a & E & Ha)].
  - now exists "".
  - simpl. destruct (PyStr.rstrip r) as [|c' r'] eqn:Er.
    + simpl in E. subst a.
      destruct (PyStr.is_space c) eqn:Hc.
      * exists (String c r). simpl. now rewrite Hc, Ha.
      * exists r. now split.
    + exists a. split; [|assumption]. simpl in *. now f_equal.
Qed.

Lemma strip_parts (s : string) :
  exists before after,
    s = before ++ PyStr.strip s ++ after /\
    all_chars PyStr.is_space before = true /\
    all_chars PyStr.is_space after = true.
Proof.
  destruct (lstrip_parts s) as (b & Eb & Hb).
  destruct (rstrip_parts (PyStr.lstrip s)) as (a & Ea & Ha).
  exists b, a. unfold PyStr.strip. now rewrite <- Ea.
Qed.

Lemma lstrip_spaces (before s : string) :
  all_chars PyStr.is_space before = true ->
  PyStr.lstrip (before ++ s) = PyStr.lstrip s.
Proof.
  induction before as [|c b IH]; [reflexivity|]. simpl.
  intros H. apply andb_true_iff in H as [-> H]. now apply IH.
Qed.

Lemma rstrip_spaces (s after : string) :
  all_chars PyStr.is_space after = true ->
  PyStr.rstrip (s ++ after) = PyStr.rstrip s.
Proof.
  intros Ha. induction s as [|c r IH].
  - simpl. induction after as [|x a IHa]; [reflexivity|].
    simpl in Ha. apply andb_true_iff in Ha as [Hx Ha].
    simpl. now rewrite (IHa Ha), Hx.
  - cbn [append PyStr.rstrip]. now rewrite IH.
Qed.

(** Spaces around a stripped text are stripped, and nothing else. *)
Lemma strip_surround (before s after : string) :
  all_chars PyStr.is_space before = true ->
  all_chars PyStr.is_space after = true ->
  is_stripped s = true ->
  PyStr.strip (before ++ s ++ after) = s.
Proof.
  intros Hb Ha Hs. unfold PyStr.strip. rewrite (lstrip_spaces _ _ Hb).
  destruct s as [|c r].
  - simpl. rewrite <- (append_empty_r after), (lstrip_spaces _ _ Ha).
    reflexivity.
  - pose proof (stripped_first c r Hs) as Hc.
    pose proof (stripped_last _ Hs) as Hl.
    cbn [append PyStr.lstrip]. rewrite Hc.
    change (String c (r ++ after)) with (String c r ++ after).
    rewrite (rstrip_spaces _ _ Ha). now apply rstrip_fixed.
Qed.

(** Every line is fields joined by the delimiter, between spaces, and
    [split] gives these fields. *)
Lemma line_fields (c0 : ascii) (sep' line : string) :
  exists before fields after,
    line = before ++ PyStr.join (String c0 sep') fields ++ after /\
    all_chars PyStr.is_space before = true /\
    all_chars PyStr.is_space after = true /\
    is_stripped (PyStr.join (String c0 sep') fields) = true /\
    framed (String c0 sep') fields.
Proof.
  destruct (strip_parts line) as (before & after & E & Hb & Ha).
  destruct (split_framed c0 sep' (PyStr.strip line)) as (Hf & Hj).
  exists before, (PyStr.split (String c0 sep') (PyStr.strip line)), after.
  rewrite Hj. repeat split; try assumption; try apply Hf.
  apply strip_is_stripped.
Qed.

(** The fields of a line built from framed fields between spaces are
    these fields. *)
Lemma fields_of_line (c0 : ascii) (sep' before after : string)
    (fields : list string) :
  all_chars PyStr.is_space before = true ->
  all_chars PyStr.is_space after = true ->
  is_stripped (PyStr.join (String c0 sep') fields) = true ->
  framed (String c0 sep') fields ->
  PyStr.split (String c0 sep')
    (PyStr.strip (before ++ PyStr.join (String c0 sep') fields ++ after))
  = fields.
Proof.
  intros Hb Ha Hs (Hne & Hall & Hlast).
  rewrite (strip_surround _ _ _ Hb Ha Hs).
  now apply split_join_open.
Qed.

(** C7.  Every line is a row of fields joined by the delimiter, with
    spaces around it that are stripped; [_deserialize_user] never
    raises, and what it returns is settled by the fields.  It returns
    nothing when they are not exactly seven, and when the sixth is
    neither ["customer"] nor ["admin"].  For an admin it returns the
    record without a list of accounts, whatever the seventh field
    holds.  For a customer the seventh field is itself a row of tokens
    joined by [;], and the list of accounts is the row of those that are
    not empty: none for an empty field. *)
Theorem deserialize_user_cases :
  (forall line : string,
     exists before fields after,
       line = before ++ PyStr.join DATA_DELIMITER fields ++ after /\
       all_chars PyStr.is_space before = true /\
       all_chars PyStr.is_space after = true /\
       is_stripped (PyStr.join DATA_DELIMITER fields) = true /\
       framed DATA_DELIMITER fields) /\
  (forall (before after : string) (fields : list string),
     all_chars PyStr.is_space before = true ->
     all_chars PyStr.is_space after = true ->
     is_stripped (PyStr.join DATA_DELIMITER fields) = true ->
     framed DATA_DELIMITER fields ->
     (List.length fields <> 7%nat ->
      _deserialize_user (before ++ PyStr.join DATA_DELIMITER fields ++ after)
      = None) /\
     (forall nic p1 p2 p3 p4 role_ part : string,
        fields = [nic; p1; p2; p3; p4; role_; part] ->
        (role_ <> "customer" -> role_ <> "admin" ->
         _deserialize_user
           (before ++ PyStr.join DATA_DELIMITER fields ++ after) = None) /\
        (role_ = "admin" ->
         _deserialize_user
           (before ++ PyStr.join DATA_DELIMITER fields ++ after)
         = Some (nic,
                 {| name := p1; address := p2; dob := p3;
                    password_hash := p4; role := "admin";
                    owned_accounts := None |})) /\
        (role_ = "customer" ->
         (exists tokens, framed LIST_DELIMITER tokens /\
                         part = PyStr.join LIST_DELIMITER tokens) /\
         (forall tokens,
            framed LIST_DELIMITER tokens ->
            part = PyStr.join LIST_DELIMITER tokens ->
            _deserialize_user
              (before ++ PyStr.join DATA_DELIMITER fields ++ after)
            = Some (nic,
                    {| name := p1; address := p2; dob := p3;
                       password_hash := p4; role := "customer";
                       owned_accounts :=
                         Some (filter (fun acc => negb (String.eqb acc ""))
                                 tokens) |})) /\
         (part = "" ->
          _deserialize_user
            (before ++ PyStr.join DATA_DELIMITER fields ++ after)
          = Some (nic,
                  {| name := p1; address := p2; dob := p3;
                     password_hash := p4; role := "customer";
                     owned_accounts := Some [] |}))))).
Proof.
  split; [intros line; apply (line_fields "|" "~|")|].
  intros before after fields Hb Ha Hs Hf.
  pose proof (fields_of_line "|" "~|" before after fields Hb Ha Hs Hf) as E.
  destruct (deserialize_user_split
              (before ++ PyStr.join DATA_DELIMITER fields ++ after))
    as (Hlen & Hcases & _).
  unfold DATA_DELIMITER in *. rewrite E in Hlen, Hcases.
  split; [exact Hlen|].
  intros nic p1 p2 p3 p4 role_ part ->.
  destruct (Hcases nic p1 p2 p3 p4 role_ part eq_refl) as (Hno & Hc & Had).
  split; [exact Hno|]. split; [exact Had|].
  intros Hrole. split; [|split].
  - destruct (split_framed ";" "" part) as (Hft & Hj).
    exists (PyStr.split ";" part). now split.
  - intros tokens (Hne & Hall & Hlast) ->. rewrite (Hc Hrole).
    unfold LIST_DELIMITER. now rewrite (split_join_open ";" "").
  - intros ->. now rewrite (Hc Hrole).
Qed.

(** A customer line with spaces around it and empty tokens in its
    list, an admin line with a list, a line with another role and a
    line of six fields. *)
Lemma deserialize_user_cases_witness :
  _deserialize_user
    ("  " ++ "X|~|Xavier|~|1 Main Street|~|1990-05-15|~|5e88|~|customer|~|1001;;1002;"
     ++ "  " ++ NEWLINE)
  = Some ("X", {| name := "Xavier"; address := "1 Main Street";
                  dob := "1990-05-15"; password_hash := "5e88";
                  role := "customer";
                  owned_accounts := Some ["1001"; "1002"] |}) /\
  _deserialize_user
    ("" ++ "A|~|Ada|~|2 Side Street|~|1980-01-01|~|5e88|~|admin|~|1001" ++ "")
  = Some ("A", {| name := "Ada"; address := "2 Side Street";
                  dob := "1980-01-01"; password_hash := "5e88";
                  role := "admin"; owned_accounts := None |}) /\
  _deserialize_user
    ("" ++ "A|~|Ada|~|2 Side Street|~|1980-01-01|~|5e88|~|Admin|~|" ++ "")
  = None /\
  _deserialize_user
    ("" ++ "A|~|Ada|~|2 Side Street|~|1980-01-01|~|5e88|~|admin" ++ "")
  = None.
Proof.
  destruct deserialize_user_cases as [_ H].
  assert (framed LIST_DELIMITER ["1001"; ""; "1002"; ""]) as Htokens.
  { split; [discriminate|]. split; [repeat constructor|reflexivity]. }
  assert (framed DATA_DELIMITER
            ["X"; "Xavier"; "1 Main Street"; "1990-05-15"; "5e88";
             "customer"; "1001;;1002;"]) as Hf1.
  { split; [discriminate|]. split; [repeat constructor|reflexivity]. }
  assert (framed DATA_DELIMITER
            ["A"; "Ada"; "2 Side Street"; "1980-01-01"; "5e88";
             "admin"; "1001"]) as Hf2.
  { split; [discriminate|]. split; [repeat constructor|reflexivity]. }
  assert (framed DATA_DELIMITER
            ["A"; "Ada"; "2 Side Street"; "1980-01-01"; "5e88";
             "Admin"; ""]) as Hf3.
  { split; [discriminate|]. split; [repeat constructor|reflexivity]. }
  assert (framed DATA_DELIMITER
            ["A"; "Ada"; "2 Side Street"; "1980-01-01"; "5e88"; "admin"])
    as Hf4.
  { split; [discriminate|]. split; [repeat constructor|reflexivity]. }
  split; [|split; [|split]].
  - destruct (H "  " ("  " ++ NEWLINE)
                ["X"; "Xavier"; "1 Main Street"; "1990-05-15"; "5e88";
                 "customer"; "1001;;1002;"] eq_refl eq_refl eq_refl Hf1)
      as (_ & Hc).
    destruct (Hc _ _ _ _ _ _ _ eq_refl) as (_ & _ & Hcust).
    destruct (Hcust eq_refl) as (_ & Htok & _).
    exact (Htok ["1001"; ""; "1002"; ""] Htokens eq_refl).
  - destruct (H "" ""
                ["A"; "Ada"; "2 Side Street"; "1980-01-01"; "5e88";
                 "admin"; "1001"] eq_refl eq_refl eq_refl Hf2) as (_ & Hc).
    destruct (Hc _ _ _ _ _ _ _ eq_refl) as (_ & Hadmin & _).
    exact (Hadmin eq_refl).
  - destruct (H "" ""
                ["A"; "Ada"; "2 Side Street"; "1980-01-01"; "5e88";
                 "Admin"; ""] eq_refl eq_refl eq_refl Hf3) as (_ & Hc).
    destruct (Hc _ _ _ _ _ _ _ eq_refl) as (Hother & _).
    apply Hother; discriminate.
  - destruct (H "" ""
                ["A"; "Ada"; "2 Side Street"; "1980-01-01"; "5e88"; "admin"]
                eq_refl eq_refl eq_refl Hf4) as (Hlen & _).
    apply Hlen. discriminate.
Defined.

(** C8, with the input where the program departs from it.  What
    [_deserialize_account] does with a line is settled by its fields
    and by what the float and JSON readers make of the third and the
    fifth.  It returns nothing when the fields are not exactly five.
    For five fields on the fifth of which [json.loads] returns, or
    raises [JSONDecodeError], it returns a record: the balance is the
    number read from the third field, or [0.0] when that field does not
    read as a number; the transactions are the list read from the fifth
    field, or the empty list when that field does not parse or parses to
    something that is not a list.  But when [json.loads] raises another
    exception on the fifth field, which it does for an integer of more
    than 4300 digits and for brackets nested too deep, the exception is
    not caught: [_deserialize_account] raises and returns no record. *)
Theorem deserialize_account_cases
    (float_of_str : string -> option float)
    (json_loads : string -> json_result) :
  (forall line : string,
     exists before fields after,
       line = before ++ PyStr.join DATA_DELIMITER fields ++ after /\
       all_chars PyStr.is_space before = true /\
       all_chars PyStr.is_space after = true /\
       is_stripped (PyStr.join DATA_DELIMITER fields) = true /\
       framed DATA_DELIMITER fields) /\
  (forall (before after : string) (fields : list string),
     all_chars PyStr.is_space before = true ->
     all_chars PyStr.is_space after = true ->
     is_stripped (PyStr.join DATA_DELIMITER fields) = true ->
     framed DATA_DELIMITER fields ->
     (List.length fields <> 5%nat ->
      _deserialize_account float_of_str json_loads
        (before ++ PyStr.join DATA_DELIMITER fields ++ after)
      = AccountMalformed) /\
     (forall acc_num p1 balance_str p3 transactions_json_str : string,
        fields = [acc_num; p1; balance_str; p3; transactions_json_str] ->
        (json_loads transactions_json_str = JsonRaised ->
         _deserialize_account float_of_str json_loads
           (before ++ PyStr.join DATA_DELIMITER fields ++ after)
         = AccountRaised) /\
        (json_loads transactions_json_str <> JsonRaised ->
         exists acc_data : account,
           _deserialize_account float_of_str json_loads
             (before ++ PyStr.join DATA_DELIMITER fields ++ after)
           = AccountRecord acc_num acc_data /\
           owner_nic acc_data = p1 /\
           created_at acc_data = p3 /\
           (forall x, float_of_str balance_str = Some x ->
                      balance acc_data = x) /\
           (float_of_str balance_str = None ->
            balance acc_data = 0%float) /\
           (forall l, json_loads transactions_json_str = JsonList l ->
                      transactions acc_data = l) /\
           (json_loads transactions_json_str = JsonDecodeError ->
            transactions acc_data = []) /\
           (json_loads transactions_json_str = JsonNotList ->
            transactions acc_data = [])))).
Proof.
  split; [intros line; apply (line_fields "|" "~|")|].
  intros before after fields Hb Ha Hs Hf.
  pose proof (fields_of_line "|" "~|" before after fields Hb Ha Hs Hf) as E.
  destruct (deserialize_account_split float_of_str json_loads
              (before ++ PyStr.join DATA_DELIMITER fields ++ after))
    as (Hlen & Hcases).
  unfold DATA_DELIMITER in *. rewrite E in Hlen, Hcases.
  split; [exact Hlen|].
  intros acc_num p1 balance_str p3 transactions_json_str ->.
  exact (Hcases acc_num p1 balance_str p3 transactions_json_str eq_refl).
Qed.

(** A line whose fifth field is a list of one integer of 4301 digits:
    [json.loads] raises [ValueError], and so does
    [_deserialize_account]; beside it, a line in order, a line whose
    balance and transactions are replaced, and a line of four fields. *)
Lemma deserialize_account_cases_witness :
  _deserialize_account demo_float_of_str demo_json_loads
    ("" ++ ("1002|~|Y|~|0.0|~|2024-01-01 10:00:00|~|"
            ++ demo_long_integer_json) ++ NEWLINE)
  = AccountRaised /\
  _deserialize_account demo_float_of_str demo_json_loads
    ("" ++ "1001|~|X|~|100.0|~|2024-01-01 10:00:00|~|[]" ++ NEWLINE)
  = AccountRecord "1001"
      {| owner_nic := "X"; balance := 100; transactions := [];
         created_at := "2024-01-01 10:00:00" |} /\
  _deserialize_account demo_float_of_str demo_json_loads
    (" " ++ "1001|~|X|~|12,5|~|2024-01-01 10:00:00|~|{}" ++ "")
  = AccountRecord "1001"
      {| owner_nic := "X"; balance := 0; transactions := [];
         created_at := "2024-01-01 10:00:00" |} /\
  _deserialize_account demo_float_of_str demo_json_loads
    ("" ++ "1001|~|X|~|100.0|~|2024-01-01 10:00:00" ++ "")
  = AccountMalformed.
Proof.
  destruct (deserialize_account_cases demo_float_of_str demo_json_loads)
    as [_ H].
  assert (framed DATA_DELIMITER
            ["1002"; "Y"; "0.0"; "2024-01-01 10:00:00";
             demo_long_integer_json]) as Hf1.
  { split; [discriminate|].
    split; [repeat constructor|vm_compute; reflexivity]. }
  assert (framed DATA_DELIMITER
            ["1001"; "X"; "100.0"; "2024-01-01 10:00:00"; "[]"]) as Hf2.
  { split; [discriminate|]. split; [repeat constructor|reflexivity]. }
  assert (framed DATA_DELIMITER
            ["1001"; "X"; "12,5"; "2024-01-01 10:00:00"; "{}"]) as Hf3.
  { split; [discriminate|]. split; [repeat constructor|reflexivity]. }
  assert (framed DATA_DELIMITER
            ["1001"; "X"; "100.0"; "2024-01-01 10:00:00"]) as Hf4.
  { split; [discriminate|]. split; [repeat constructor|reflexivity]. }
  assert (is_stripped
            (PyStr.join DATA_DELIMITER
               ["1002"; "Y"; "0.0"; "2024-01-01 10:00:00";
                demo_long_integer_json]) = true) as Hs1
      by (vm_compute; reflexivity).
  assert (demo_json_loads demo_long_integer_json = JsonRaised) as Hr
      by (vm_compute; reflexivity).
  split; [|split; [|split]].
  - destruct (H "" NEWLINE
                ["1002"; "Y"; "0.0"; "2024-01-01 10:00:00";
                 demo_long_integer_json] eq_refl eq_refl Hs1 Hf1)
      as (_ & Hc).
    destruct (Hc _ _ _ _ _ eq_refl) as (Hraised & _).
    exact (Hraised Hr).
  - destruct (H "" NEWLINE
                ["1001"; "X"; "100.0"; "2024-01-01 10:00:00"; "[]"]
                eq_refl eq_refl eq_refl Hf2) as (_ & Hc).
    destruct (Hc _ _ _ _ _ eq_refl) as (_ & Hrecord).
    destruct Hrecord as (a & E & Ho & Hcr & Hb & _ & Ht & _);
      [discriminate|].
    refine (eq_trans E _).
    destruct a as [o b t c]. simpl in *.
    rewrite Ho, Hcr, (Hb 100%float eq_refl), (Ht [] eq_refl).
    reflexivity.
  - destruct (H " " ""
                ["1001"; "X"; "12,5"; "2024-01-01 10:00:00"; "{}"]
                eq_refl eq_refl eq_refl Hf3) as (_ & Hc).
    destruct (Hc _ _ _ _ _ eq_refl) as (_ & Hrecord).
    destruct Hrecord as (a & E & Ho & Hcr & _ & Hb & _ & _ & Ht);
      [discriminate|].
    refine (eq_trans E _).
    destruct a as [o b t c]. simpl in *.
    rewrite Ho, Hcr, (Hb eq_refl), (Ht eq_refl).
    reflexivity.
  - destruct (H "" ""
                ["1001"; "X"; "100.0"; "2024-01-01 10:00:00"]
                eq_refl eq_refl eq_refl Hf4) as (Hlen & _).
    apply Hlen. discriminate.
Defined.
